(** * canvas-mcp tool handlers: a shallow embedding and its properties

    The development follows the layout of the repository:

    - [Py]        the fragment of Python's values and built-ins the handlers use
                  (JSON payloads, truthiness, [dict.get], [str], f-string
                  format specs, numeric tower with IEEE doubles);
    - [Core]      the request gateway and the identifier resolver of
                  [canvas_mcp.core], which the tool modules import;
    - [Tool]      the awaited calls of a handler as an inductive free monad,
                  run against an environment that answers every call;
    - [Analytics], [Enrollment], [DiscussionAnalytics]
                  the handlers of [canvas_mcp/tools/*.py];
    - the properties, one section per handler family. *)

From Stdlib Require Import ZArith String Ascii List Bool Lia Floats.
From stdpp Require Import base option list strings gmap pretty.
Import ListNotations.

#[local] Set Warnings "-register-all".
#[local] Open Scope string_scope.
#[local] Open Scope Z_scope.

(* ===================================================================== *)
(** * Python values and built-ins *)
(* ===================================================================== *)

Module Py.

(** The exceptions the modelled built-ins raise. *)
Inductive exn : Type :=
| AttributeError
| TypeError
| ValueError
| KeyError
| ZeroDivisionError
| OverflowError.

#[global] Instance exn_eq_dec : EqDecision exn.
Proof. solve_decision. Defined.

(** A computation that returns or raises. *)
Inductive result (A : Type) : Type :=
| Ok (a : A)
| Raise (e : exn).
Arguments Ok {A} a.
Arguments Raise {A} e.

Definition bind {A B : Type} (m : result A) (f : A -> result B) : result B :=
  match m with
  | Ok a => f a
  | Raise e => Raise e
  end.

Notation "x <- m ;; k" := (bind m (fun x => k))
  (at level 100, m at next level, right associativity).

(** List concatenation, apart from the [++] of strings. *)
Notation "l1 +++ l2" := (List.app l1 l2) (at level 60, right associativity).

(** A computation that does not end in [ZeroDivisionError]. *)
Definition undivided {A : Type} (r : result A) : Prop :=
  r <> Raise ZeroDivisionError.

(** What [json.loads] produces, and what the handlers pass around. A [dict]
    keeps its insertion order; its keys are strings. *)
Inductive pyval : Type :=
| PNone
| PBool (b : bool)
| PInt (z : Z)
| PFloat (f : float)
| PStr (s : string)
| PList (l : list pyval)
| PDict (d : list (string * pyval)).

(** Python's [repr] of a float (shortest round-trip decimal) and of a [str]
    (quoted and escaped) belong to the interpreter; they only show up when a
    float, or a container holding strings, is interpolated into a report. *)
Class Repr : Type := {
  float_repr : float -> string;
  str_repr : string -> string
}.

(** ** Strings *)

(** [str] is a sequence of code points; a [string] here is its UTF-8
    encoding, so lengths count the bytes that start a code point. *)
Definition is_continuation (a : ascii) : bool :=
  let n := N_of_ascii a in (128 <=? n)%N && (n <? 192)%N.

Fixpoint str_len (s : string) : nat :=
  match s with
  | EmptyString => 0%nat
  | String a rest => ((if is_continuation a then 0 else 1) + str_len rest)%nat
  end.

Fixpoint chars_from (cur : string) (s : string) : list string :=
  match s with
  | EmptyString => [cur]
  | String a rest =>
      if is_continuation a then chars_from (cur ++ String a EmptyString) rest
      else cur :: chars_from (String a EmptyString) rest
  end.

(** The code points of a string, each as a one-character string. *)
Definition chars (s : string) : list string :=
  match s with
  | EmptyString => []
  | String a rest => chars_from (String a EmptyString) rest
  end.

Definition spaces (n : nat) : string := string_of_list_ascii (repeat " "%char n).

(** [format(s, "<w")] *)
Definition ljust (w : nat) (s : string) : string := s ++ spaces (w - str_len s).

(** [sep.join(l)] *)
Definition join (sep : string) (l : list string) : string := String.concat sep l.

Definition startswith (p s : string) : bool := String.prefix p s.

Definition endswith (suf s : string) : bool :=
  let n := String.length suf in
  let m := String.length s in
  (n <=? m)%nat && String.eqb (substring (m - n) n s) suf.

(** [s.replace(old, new)] for a non-empty [old]: leftmost non-overlapping
    occurrences. [skip] counts the characters of a match still to drop. *)
Fixpoint replace_from (skip : nat) (old new s : string) : string :=
  match s with
  | EmptyString => EmptyString
  | String a rest =>
      match skip with
      | S k => replace_from k old new rest
      | O =>
          if String.prefix old s
          then new ++ replace_from (String.length old - 1) old new rest
          else String a (replace_from 0 old new rest)
      end
  end.

Definition replace (old new s : string) : string := replace_from 0 old new s.

(** [x in l] for a list of strings. *)
Definition str_in (x : string) (l : list string) : bool :=
  existsb (String.eqb x) l.

(** ** Dictionaries *)

Fixpoint assoc {A : Type} (k : string) (d : list (string * A)) : option A :=
  match d with
  | [] => None
  | (k', v) :: rest => if String.eqb k k' then Some v else assoc k rest
  end.

Definition has_key {A : Type} (k : string) (d : list (string * A)) : bool :=
  match assoc k d with Some _ => true | None => false end.

(** [d[k] = v]: an existing key keeps its position. *)
Fixpoint dict_set {A : Type} (k : string) (v : A) (d : list (string * A))
  : list (string * A) :=
  match d with
  | [] => [(k, v)]
  | (k', v') :: rest =>
      if String.eqb k k' then (k, v) :: rest else (k', v') :: dict_set k v rest
  end.

Definition is_dict (v : pyval) : bool :=
  match v with PDict _ => true | _ => false end.

Definition is_list (v : pyval) : bool :=
  match v with PList _ => true | _ => false end.

(** [isinstance(v, dict) and "error" in v]: the shape every handler tests
    to recognise a failed gateway call. *)
Definition is_error (v : pyval) : bool :=
  match v with PDict d => has_key "error" d | _ => false end.

(** [v.get(k, default)]; only [dict] has the method. *)
Definition get (v : pyval) (k : string) (default : pyval) : result pyval :=
  match v with
  | PDict d => Ok (from_option id default (assoc k d))
  | _ => Raise AttributeError
  end.

(** [v[k]] with a string key. *)
Definition getitem (v : pyval) (k : string) : result pyval :=
  match v with
  | PDict d => match assoc k d with Some x => Ok x | None => Raise KeyError end
  | _ => Raise TypeError
  end.

(** ** Truthiness *)

Definition truthy (v : pyval) : bool :=
  match v with
  | PNone => false
  | PBool b => b
  | PInt z => negb (z =? 0)
  | PFloat f => negb (PrimFloat.eqb f PrimFloat.zero)
  | PStr s => negb (String.eqb s "")
  | PList l => match l with [] => false | _ => true end
  | PDict d => match d with [] => false | _ => true end
  end.

(** [a or b] *)
Definition or_else (a b : pyval) : pyval := if truthy a then a else b.

(** ** Iteration and length *)

(** [for x in v]: lists yield their items, dicts their keys, strings their
    characters; nothing else is iterable. *)
Definition iter (v : pyval) : result (list pyval) :=
  match v with
  | PList l => Ok l
  | PDict d => Ok (map (fun kv => PStr (fst kv)) d)
  | PStr s => Ok (map PStr (chars s))
  | _ => Raise TypeError
  end.

(** [v[:n]] on a sequence. *)
Definition slice_to (n : nat) (v : pyval) : result (list pyval) :=
  match v with
  | PList l => Ok (firstn n l)
  | PStr s => Ok (map PStr (firstn n (chars s)))
  | _ => Raise TypeError
  end.

Definition len (v : pyval) : result Z :=
  match v with
  | PList l => Ok (Z.of_nat (length l))
  | PDict d => Ok (Z.of_nat (length d))
  | PStr s => Ok (Z.of_nat (str_len s))
  | _ => Raise TypeError
  end.

(** ** Numbers *)

(** [bool] is a subclass of [int]; [int] is unbounded; [float] is an IEEE
    double. *)
Inductive num : Type :=
| NInt (z : Z)
| NFloat (f : float).

Definition as_num (v : pyval) : option num :=
  match v with
  | PBool b => Some (NInt (if b then 1 else 0))
  | PInt z => Some (NInt z)
  | PFloat f => Some (NFloat f)
  | _ => None
  end.

Definition of_num (n : num) : pyval :=
  match n with NInt z => PInt z | NFloat f => PFloat f end.

Definition Z2SF (z : Z) : spec_float :=
  match z with
  | Z0 => S754_zero false
  | Zpos p => S754_finite false p 0
  | Zneg p => S754_finite true p 0
  end.

(** [float(z)]: nearest double, ties to even; too large an [int] raises. *)
Definition float_of_Z (z : Z) : result float :=
  let f := SF2Prim (binary_normalize 53 1024 z 0 false) in
  if PrimFloat.is_infinity f then Raise OverflowError else Ok f.

Definition to_float (n : num) : result float :=
  match n with
  | NInt z => float_of_Z z
  | NFloat f => Ok f
  end.

(** The exact value of a finite double is [m * 2^e]; an [int] is compared
    with a [float] on exact values, as CPython does. *)
Definition Z_cmp_float (z : Z) (f : float) : option comparison :=
  match Prim2SF f with
  | S754_nan => None
  | S754_infinity s => Some (if s then Gt else Lt)
  | S754_zero _ => Some (z ?= 0)
  | S754_finite s m e =>
      let sm := if s then Z.neg m else Z.pos m in
      Some (if 0 <=? e then z ?= sm * 2 ^ e else z * 2 ^ (- e) ?= sm)
  end.

Definition num_ltb (a b : num) : bool :=
  match a, b with
  | NInt x, NInt y => x <? y
  | NFloat x, NFloat y => PrimFloat.ltb x y
  | NInt x, NFloat y =>
      match Z_cmp_float x y with Some Lt => true | _ => false end
  | NFloat x, NInt y =>
      match Z_cmp_float y x with Some Gt => true | _ => false end
  end.

Definition num_eqb (a b : num) : bool :=
  match a, b with
  | NInt x, NInt y => x =? y
  | NFloat x, NFloat y => PrimFloat.eqb x y
  | NInt x, NFloat y | NFloat y, NInt x =>
      match Z_cmp_float x y with Some Eq => true | _ => false end
  end.

(** [v < n], [v > n] and [v == n] against a number [n]: ordering a
    non-number against a number is a [TypeError], equality is just false. *)
Definition lt_num (v : pyval) (n : num) : result bool :=
  match as_num v with
  | Some x => Ok (num_ltb x n)
  | None => Raise TypeError
  end.

Definition gt_num (v : pyval) (n : num) : result bool :=
  match as_num v with
  | Some x => Ok (num_ltb n x)
  | None => Raise TypeError
  end.

Definition eq_num (v : pyval) (n : num) : bool :=
  match as_num v with
  | Some x => num_eqb x n
  | None => false
  end.

(** [a + v] where [a] is already a number (the accumulator of [sum]). *)
Definition add_num (a : num) (v : pyval) : result num :=
  match a, as_num v with
  | _, None => Raise TypeError
  | NInt x, Some (NInt y) => Ok (NInt (x + y))
  | _, Some b =>
      fa <- to_float a;; fb <- to_float b;; Ok (NFloat (PrimFloat.add fa fb))
  end.

(** [z * f] for an [int] and a [float]. *)
Definition mul_int_float (z : Z) (f : float) : result float :=
  fz <- float_of_Z z;; Ok (PrimFloat.mul fz f).

(** [a / b], true division. Two ints give the correctly rounded quotient. *)
Definition truediv (a b : num) : result float :=
  match a, b with
  | NInt x, NInt y =>
      if y =? 0 then Raise ZeroDivisionError
      else
        let q := SF2Prim (SFdiv 53 1024 (Z2SF x) (Z2SF y)) in
        if PrimFloat.is_infinity q then Raise OverflowError else Ok q
  | _, _ =>
      fa <- to_float a;; fb <- to_float b;;
      if PrimFloat.eqb fb PrimFloat.zero then Raise ZeroDivisionError
      else Ok (PrimFloat.div fa fb)
  end.

(** [min(a, v)] with a numeric first argument: the second wins only when it
    is strictly smaller, and it is then [v] itself that is returned (a
    [bool] stays a [bool]). *)
Definition min_num (a : num) (v : pyval) : result pyval :=
  match as_num v with
  | Some b => Ok (if num_ltb b a then v else of_num a)
  | None => Raise TypeError
  end.

(** ** Formatting *)

(** [n / d] rounded to the nearest integer, ties to even, for [0 < d]. *)
Definition round_half_even (n d : Z) : Z :=
  let q := n / d in
  let r := n mod d in
  if 2 * r <? d then q
  else if d <? 2 * r then q + 1
  else if Z.even q then q else q + 1.

Definition zeros (n : nat) : string := string_of_list_ascii (repeat "0"%char n).

(** The decimal digits of [n >= 0] with the point [prec] places from the
    right. *)
Definition fixed_digits (prec : nat) (n : Z) : string :=
  let ds := pretty n in
  let ds := zeros (S prec - String.length ds) ++ ds in
  let k := (String.length ds - prec)%nat in
  match prec with
  | O => ds
  | _ => substring 0 k ds ++ "." ++ substring k prec ds
  end.

(** [format(f, ".{prec}f")]: the exact binary value, correctly rounded. *)
Definition format_f (prec : nat) (f : float) : string :=
  match Prim2SF f with
  | S754_nan => "nan"
  | S754_infinity s => (if s then "-" else "") ++ "inf"
  | S754_zero s => (if s then "-" else "") ++ fixed_digits prec 0
  | S754_finite s m e =>
      let scaled := Z.pos m * 10 ^ Z.of_nat prec in
      let n := if 0 <=? e then scaled * 2 ^ e
               else round_half_even scaled (2 ^ (- e)) in
      (if s then "-" else "") ++ fixed_digits prec n
  end.

Section WithRepr.
Context `{Repr}.

(** [repr(v)] *)
Fixpoint repr (v : pyval) : string :=
  match v with
  | PNone => "None"
  | PBool b => if b then "True" else "False"
  | PInt z => pretty z
  | PFloat f => float_repr f
  | PStr s => str_repr s
  | PList l => "[" ++ join ", " (map repr l) ++ "]"
  | PDict d =>
      "{" ++ join ", " (map (fun '(k, x) => str_repr k ++ ": " ++ repr x) d) ++ "}"
  end.

(** [str(v)], also what a bare [{v}] in an f-string produces. *)
Definition str (v : pyval) : string :=
  match v with
  | PStr s => s
  | _ => repr v
  end.

(** [{v:<w}]: [None] and containers reject a format spec; a [bool] is
    formatted as the [int] it is. *)
Definition format_ljust (w : nat) (v : pyval) : result string :=
  match v with
  | PStr s => Ok (ljust w s)
  | PInt z => Ok (ljust w (pretty z))
  | PBool b => Ok (ljust w (if b then "1" else "0"))
  | PFloat f => Ok (ljust w (float_repr f))
  | _ => Raise TypeError
  end.
End WithRepr.

(** A stand-in interpreter for closed examples. It prints a float with one
    decimal and quotes a string without escaping, which is what CPython
    prints for the floats and strings of the examples ([5.0], [3.0], [0.0],
    plain ASCII words). *)
Definition example_repr : Repr :=
  {| float_repr := format_f 1;
     str_repr := fun s => "'" ++ s ++ "'" |}.

(** [{v:.{prec}f}] *)
Definition format_fixed (prec : nat) (v : pyval) : result string :=
  match v with
  | PStr _ => Raise ValueError
  | _ =>
      match as_num v with
      | Some n => f <- to_float n;; Ok (format_f prec f)
      | None => Raise TypeError
      end
  end.

(** ** Optional arguments *)

(** [if x is not None: d[key] = x] *)
Definition given {A : Type} (key : string) (inj : A -> pyval) (x : option A)
  : list (string * pyval) :=
  match x with
  | Some a => [(key, inj a)]
  | None => []
  end.

(** [if x: d[key] = x] for an optional string. *)
Definition given_text (key : string) (x : option string) : list (string * pyval) :=
  match x with
  | Some s => if String.eqb s "" then [] else [(key, PStr s)]
  | None => []
  end.

(** [for x in l: ...] where the body may raise. *)
Fixpoint for_each {A B : Type} (f : A -> result B) (l : list A) : result (list B) :=
  match l with
  | [] => Ok []
  | x :: rest => y <- f x;; ys <- for_each f rest;; Ok (y :: ys)
  end.

(** ** Text clean-up *)

(** [re.sub(r'<[^>]+>', '', s)]. A match starts at a ["<"] that is followed
    by a character other than [">"] and, somewhere later, by a [">"]; it
    ends at the first such [">"]. [pending] holds the text read since a
    ["<"] that may still turn out to open a match. *)
Fixpoint strip_tags_from (pending : option string) (s : string) : string :=
  match s with
  | EmptyString => default "" pending
  | String a rest =>
      match pending with
      | Some text =>
          if Ascii.eqb a ">" then strip_tags_from None rest
          else strip_tags_from (Some (text ++ String a EmptyString)) rest
      | None =>
          if Ascii.eqb a "<" then
            match rest with
            | EmptyString => String a EmptyString
            | String b _ =>
                if Ascii.eqb b ">" then String a (strip_tags_from None rest)
                else strip_tags_from (Some (String a EmptyString)) rest
            end
          else String a (strip_tags_from None rest)
      end
  end.

Definition strip_tags (s : string) : string := strip_tags_from None s.

(** [re.search(r'<[^>]+>', s) is not None]; [opened] says that a ["<"]
    followed by a character other than [">"] has been read. *)
Fixpoint has_tag_from (opened : bool) (s : string) : bool :=
  match s with
  | EmptyString => false
  | String a rest =>
      if opened then Ascii.eqb a ">" || has_tag_from true rest
      else if Ascii.eqb a "<" then
        match rest with
        | EmptyString => false
        | String b _ => has_tag_from (negb (Ascii.eqb b ">")) rest
        end
      else has_tag_from false rest
  end.

Definition has_tag (s : string) : bool := has_tag_from false s.

(** [re.sub] accepts only a string. *)
Definition sub_tags (v : pyval) : result string :=
  match v with
  | PStr s => Ok (strip_tags s)
  | _ => Raise TypeError
  end.

Definition utf8 (bytes : list nat) : string :=
  string_of_list_ascii (map ascii_of_nat bytes).

(** The code points for which [str.isspace] holds, UTF-8 encoded. *)
Definition whitespace : list string :=
  map utf8
    [[9]; [10]; [11]; [12]; [13]; [28]; [29]; [30]; [31]; [32];
     [194; 133]; [194; 160]; [225; 154; 128];
     [226; 128; 128]; [226; 128; 129]; [226; 128; 130]; [226; 128; 131];
     [226; 128; 132]; [226; 128; 133]; [226; 128; 134]; [226; 128; 135];
     [226; 128; 136]; [226; 128; 137]; [226; 128; 138];
     [226; 128; 168]; [226; 128; 169]; [226; 128; 175]; [226; 129; 159];
     [227; 128; 128]]%nat.

Definition is_space (c : string) : bool := str_in c whitespace.

Fixpoint lstrip_chars (l : list string) : list string :=
  match l with
  | c :: rest => if is_space c then lstrip_chars rest else l
  | [] => []
  end.

(** [s.strip()] *)
Definition strip (s : string) : string :=
  String.concat "" (rev (lstrip_chars (rev (lstrip_chars (chars s))))).

(** [s[:n]] on a string. *)
Definition str_slice_to (n : nat) (s : string) : string :=
  String.concat "" (firstn n (chars s)).

(** [s[:n] + "..." if len(s) > n else s] *)
Definition shorten (n : nat) (s : string) : string :=
  if (n <? str_len s)%nat then str_slice_to n s ++ "..." else s.

(** ** csv.writer, excel dialect *)

Definition dquote : ascii := ascii_of_nat 34.
Definition crlf : string := utf8 [13; 10]%nat.

(** The characters that make the writer quote a field: the delimiter, the
    quote character and the characters of the line terminator. *)
Definition is_special (a : ascii) : bool :=
  existsb (Ascii.eqb a) [","%char; dquote; ascii_of_nat 13; ascii_of_nat 10].

Fixpoint double_quotes (s : string) : string :=
  match s with
  | EmptyString => EmptyString
  | String a rest =>
      if Ascii.eqb a dquote then String a (String a (double_quotes rest))
      else String a (double_quotes rest)
  end.

Definition csv_field (s : string) : string :=
  if existsb is_special (list_ascii_of_string s)
  then String dquote (double_quotes s) ++ String dquote EmptyString
  else s.

(** For statements about tags: a text without [">"]. *)
Fixpoint no_gt (s : string) : bool :=
  match s with
  | EmptyString => true
  | String a rest => negb (Ascii.eqb a ">") && no_gt rest
  end.

Section TextWithRepr.
Context `{Repr}.

(** What the writer makes of a cell: [None] is the empty string, a string
    is itself, anything else is its [str]. *)
Definition csv_text (v : pyval) : string :=
  match v with
  | PNone => ""
  | _ => str v
  end.

(** [writer.writerow(row)]: the text added to the output. A row that is a
    single empty field is written as a quoted empty string. *)
Definition writerow (row : list pyval) : string :=
  match map csv_text row with
  | [EmptyString] => String dquote (String dquote EmptyString) ++ crlf
  | texts => join "," (map csv_field texts) ++ crlf
  end.

(** [v[0] if v else default] *)
Definition first_or (v default : pyval) : result pyval :=
  if truthy v then
    match v with
    | PList (x :: _) => Ok x
    | PStr s => match chars s with c :: _ => Ok (PStr c) | [] => Ok default end
    | PDict _ => Raise KeyError
    | _ => Raise TypeError
    end
  else Ok default.
End TextWithRepr.

(** ** Comparison, [str.format], [re.findall] and [sorted] *)

(** [a <= b] on numbers; a comparison with [nan] is false. *)
Definition num_leb (a b : num) : bool :=
  match a, b with
  | NInt x, NInt y => x <=? y
  | NFloat x, NFloat y => PrimFloat.leb x y
  | NInt x, NFloat y =>
      match Z_cmp_float x y with Some Lt | Some Eq => true | _ => false end
  | NFloat x, NInt y =>
      match Z_cmp_float y x with Some Gt | Some Eq => true | _ => false end
  end.

(** ** str.format with keyword arguments

    The replacement fields modelled are the plain ones, [{name}]: a field
    with an attribute, an index, a conversion or a format specification, a
    brace or a character outside ASCII inside a field, and a positional field
    ([{}], [{0}]) are outside the model, for which [format_from] answers
    [None]. *)
Definition is_field_syntax (a : ascii) : bool :=
  existsb (Ascii.eqb a) ["{"; "["; "]"; "."; "!"; ":"]%char
  || (128 <=? N_of_ascii a)%N.

Definition is_decimal (a : ascii) : bool :=
  let n := N_of_ascii a in (48 <=? n)%N && (n <=? 57)%N.

Definition is_positional (name : string) : bool :=
  forallb is_decimal (list_ascii_of_string name).

Definition prepend (text : string) (r : option (result string))
  : option (result string) :=
  match r with
  | Some (Ok s) => Some (Ok (text ++ s))
  | other => other
  end.

Section FormatWithRepr.
Context `{Repr}.

(** [s.format] called with the keyword arguments [kwargs]; [field] holds the
    name read since the opening brace of a replacement field. A name that is missing from [kwargs] is a
    [KeyError], a brace that is neither doubled nor part of a field a
    [ValueError]. *)
Fixpoint format_from (field : option string) (kwargs : list (string * pyval))
    (s : string) : option (result string) :=
  match s with
  | EmptyString =>
      match field with
      | Some _ => Some (Raise ValueError)
      | None => Some (Ok "")
      end
  | String a rest =>
      match field with
      | Some name =>
          if Ascii.eqb a "}" then
            if is_positional name then None
            else
              match assoc name kwargs with
              | None => Some (Raise KeyError)
              | Some v => prepend (str v) (format_from None kwargs rest)
              end
          else if is_field_syntax a then None
          else format_from (Some (name ++ String a EmptyString)) kwargs rest
      | None =>
          if Ascii.eqb a "{" then
            match rest with
            | EmptyString => Some (Raise ValueError)
            | String b rest' =>
                if Ascii.eqb b "{" then prepend "{" (format_from None kwargs rest')
                else format_from (Some "") kwargs rest
            end
          else if Ascii.eqb a "}" then
            match rest with
            | EmptyString => Some (Raise ValueError)
            | String b rest' =>
                if Ascii.eqb b "}" then prepend "}" (format_from None kwargs rest')
                else Some (Raise ValueError)
            end
          else prepend (String a EmptyString) (format_from None kwargs rest)
      end
  end.

Definition format (s : string) (kwargs : list (string * pyval))
  : option (result string) :=
  format_from None kwargs s.
End FormatWithRepr.

(** The names of the replacement fields of a format string that has neither
    doubled nor stray braces, in the order of the string; [None] for any
    other string. *)
Fixpoint fields_from (field : option string) (s : string) : option (list string) :=
  match s with
  | EmptyString =>
      match field with
      | Some _ => None
      | None => Some []
      end
  | String a rest =>
      match field with
      | Some name =>
          if Ascii.eqb a "}" then
            if is_positional name then None
            else option_map (cons name) (fields_from None rest)
          else if is_field_syntax a then None
          else fields_from (Some (name ++ String a EmptyString)) rest
      | None =>
          if Ascii.eqb a "{" then
            match rest with
            | EmptyString => None
            | String b _ =>
                if Ascii.eqb b "{" || Ascii.eqb b "}" then None
                else fields_from (Some "") rest
            end
          else if Ascii.eqb a "}" then None
          else fields_from None rest
      end
  end.

Definition fields (s : string) : option (list string) := fields_from None s.

(** [re.findall(r'\{([^}]+)\}', s)]: the texts between an opening brace that
    is followed by a character other than the closing brace, and the first
    closing brace after it. *)
Fixpoint findall_from (field : option string) (s : string) : list string :=
  match s with
  | EmptyString => []
  | String a rest =>
      match field with
      | Some name =>
          if Ascii.eqb a "}" then name :: findall_from None rest
          else findall_from (Some (name ++ String a EmptyString)) rest
      | None =>
          if Ascii.eqb a "{" then
            match rest with
            | EmptyString => []
            | String b _ =>
                if Ascii.eqb b "}" then findall_from None rest
                else findall_from (Some "") rest
            end
          else findall_from None rest
      end
  end.

Definition findall_fields (s : string) : list string := findall_from None s.

(** [sorted(set(l))] for strings. *)
Fixpoint insert_sorted (x : string) (l : list string) : list string :=
  match l with
  | [] => [x]
  | y :: rest =>
      match String.compare x y with
      | Lt => x :: l
      | Eq => l
      | Gt => y :: insert_sorted x rest
      end
  end.

Definition sorted_set (l : list string) : list string :=
  fold_right insert_sorted [] l.

(** ** [sorted] with a key

    [sorted(l, key=key, reverse=True)] compares the keys with [<] and with
    nothing else. Where [<] orders the keys, numbers none of which is [nan],
    the result is determined: the items by falling key, items of equal keys
    in their order in [l]. *)
Definition key_ltb (a b : pyval) : bool :=
  match as_num a, as_num b with
  | Some x, Some y => num_ltb x y
  | _, _ => false
  end.

Definition orderable (v : pyval) : bool :=
  match as_num v with
  | Some n => num_eqb n n
  | None => false
  end.

(** An item goes in front of the first one with a strictly smaller key. *)
Fixpoint insert_reverse {A : Type} (key : A -> pyval) (x : A) (l : list A)
  : list A :=
  match l with
  | [] => [x]
  | y :: rest =>
      if key_ltb (key y) (key x) then x :: y :: rest
      else y :: insert_reverse key x rest
  end.

Definition stable_reverse {A : Type} (key : A -> pyval) (l : list A) : list A :=
  fold_left (fun acc x => insert_reverse key x acc) l [].

(** With a [nan] among the keys [<] is no order, and with keys that are not
    numbers a comparison may raise: what [sorted] answers then depends on
    the comparisons the interpreter's algorithm happens to make, and is left
    to the interpreter, as [repr] is. What it returns is in every case a
    rearrangement of [l]. *)
Class Sorted : Type := {
  sorted_reverse : forall A : Type, (A -> pyval) -> list A -> result (list A);
  sorted_reverse_rearranges :
    forall (A : Type) (key : A -> pyval) (l l' : list A),
      sorted_reverse A key l = Ok l' -> Permutation l' l;
  sorted_reverse_ordered :
    forall (A : Type) (key : A -> pyval) (l : list A),
      forallb (fun x => orderable (key x)) l = true ->
      sorted_reverse A key l = Ok (stable_reverse key l)
}.
Arguments sorted_reverse {_} {A} key l.

(** A stand-in interpreter for closed examples, whose keys are orderable. *)
Definition example_sorted : Sorted.
Proof.
  refine {| sorted_reverse := fun A key l => Ok (stable_reverse key l) |}.
  - intros A key l l' [= <-]. unfold stable_reverse.
    assert (Hinsert : forall x acc, Permutation (insert_reverse key x acc) (x :: acc)).
    { intros x acc. induction acc as [| y rest IH]; simpl; [reflexivity |].
      destruct (key_ltb (key y) (key x)); [reflexivity |].
      rewrite IH. apply perm_swap. }
    assert (Hfold : forall items acc,
               Permutation (fold_left (fun acc x => insert_reverse key x acc) items acc)
                           (acc +++ items)).
    { induction items as [| x rest IH]; intros acc; simpl.
      - rewrite app_nil_r. reflexivity.
      - rewrite IH, Hinsert. simpl. apply Permutation_middle. }
    apply (Hfold l []).
  - reflexivity.
Defined.

End Py.

(* ===================================================================== *)
(** * canvas_mcp.core: request gateway and identifier resolver *)
(* ===================================================================== *)

Module Core.
Import Py.

Inductive http_method : Type := GET | POST | PUT | DELETE.

(** [request(method, path, params?, body?)] *)
Record request : Type := {
  method : http_method;
  path : string;
  params : list (string * pyval);
  body : list (string * pyval)
}.

(** [Success(payload: JSON value)] or [Failure(message: string)]. *)
Inductive RequestResult : Type :=
| Success (payload : pyval)
| Failure (message : string).

(** What one round trip brings back: the result and, for a collection, the
    server-supplied pointer to the next page. *)
Record reply : Type := {
  result_of : RequestResult;
  next_page : option request
}.

(** The upstream API, as seen through one authenticated HTTP call. *)
Definition server : Type := request -> reply.

(** How a handler sees a result: a failure is the dictionary
    [{"error": message}] that every handler tests for. *)
Definition as_python (r : RequestResult) : pyval :=
  match r with
  | Success payload => payload
  | Failure message => PDict [("error", PStr message)]
  end.

(** Modelled from the spec: [make_canvas_request] of core/client.py is not
    among the sources. Section 4.1: exactly one network round trip is
    attempted, and every error comes back as a [Failure], never raised. The
    second component lists the round trips made. *)
Definition make_request (srv : server) (req : request)
  : RequestResult * list request :=
  (result_of (srv req), [req]).

(** The JSON objects of one page. *)
Definition page_items (payload : pyval) : list pyval :=
  match payload with
  | PList l => l
  | _ => []
  end.

(** The outcome of a paginated fetch: the assembled sequence or the failure. *)
Inductive fetched : Type :=
| Items (l : list pyval)
| Failed (message : string).

(** Modelled from the spec: [fetch_all_paginated_results] of core/client.py
    is not among the sources. Section 4.1: repeat GET requests following the
    server's cursors until no further page is indicated or the page limit
    [limit] is hit; return the pages in server order; stop on the first
    failing page and return that failure, discarding what was fetched. *)
Fixpoint fetch_all_from (limit : nat) (srv : server) (req : request)
    (acc : list pyval) : fetched * list request :=
  match limit with
  | O => (Items acc, [])
  | S limit' =>
      match result_of (srv req) with
      | Failure message => (Failed message, [req])
      | Success payload =>
          let acc' := acc +++ page_items payload in
          match next_page (srv req) with
          | None => (Items acc', [req])
          | Some next =>
              let '(r, log) := fetch_all_from limit' srv next acc' in
              (r, req :: log)
          end
      end
  end.

Definition fetch_all (limit : nat) (srv : server) (path : string)
    (params : list (string * pyval)) : fetched * list request :=
  fetch_all_from limit srv
    {| method := GET; path := path; params := params; body := [] |} [].

(** The pages a server hands out from [req] on, when each request succeeds
    and the last one indicates no further page. *)
Inductive serves (srv : server) : request -> list (list pyval) -> Prop :=
| serves_last (req : request) (items : list pyval) :
    result_of (srv req) = Success (PList items) ->
    next_page (srv req) = None ->
    serves srv req [items]
| serves_more (req next : request) (items : list pyval) (rest : list (list pyval)) :
    result_of (srv req) = Success (PList items) ->
    next_page (srv req) = Some next ->
    serves srv next rest ->
    serves srv req (items :: rest).

(** The pages a server hands out from [req] on before a request fails with
    [message]. *)
Inductive fails_after (srv : server) : request -> list (list pyval) -> string -> Prop :=
| fails_now (req : request) (message : string) :
    result_of (srv req) = Failure message ->
    fails_after srv req [] message
| fails_later (req next : request) (items : list pyval) (rest : list (list pyval))
    (message : string) :
    result_of (srv req) = Success (PList items) ->
    next_page (srv req) = Some next ->
    fails_after srv next rest message ->
    fails_after srv req (items :: rest) message.

(** A three-page fixture: pages of 100, 100 and 42 numbered objects. *)
Definition numbered (start len : nat) : list pyval :=
  map (fun i => PInt (Z.of_nat i)) (seq start len).

Definition page_request (p : string) : request :=
  {| method := GET; path := p; params := []; body := [] |}.

Definition three_pages : server := fun req =>
  if String.eqb (path req) "/items" then
    {| result_of := Success (PList (numbered 0 100));
       next_page := Some (page_request "/items?page=2") |}
  else if String.eqb (path req) "/items?page=2" then
    {| result_of := Success (PList (numbered 100 100));
       next_page := Some (page_request "/items?page=3") |}
  else if String.eqb (path req) "/items?page=3" then
    {| result_of := Success (PList (numbered 200 42)); next_page := None |}
  else {| result_of := Failure "404 Not Found"; next_page := None |}.

(** The same fixture with a failing second page. *)
Definition second_page_fails : server := fun req =>
  if String.eqb (path req) "/items?page=2"
  then {| result_of := Failure "502 Bad Gateway"; next_page := None |}
  else three_pages req.

(** ** Identifier resolver *)

Definition is_digit (a : ascii) : bool :=
  let n := N_of_ascii a in (48 <=? n)%N && (n <=? 57)%N.

(** Numeric, or numeric-looking: an [int], or a non-empty string of digits. *)
Definition is_numeric (identifier : pyval) : bool :=
  match identifier with
  | PInt _ => true
  | PStr s =>
      negb (String.eqb s "") && forallb is_digit (list_ascii_of_string s)
  | _ => false
  end.

(** The outcome of [resolve]. *)
Inductive resolution : Type :=
| Resolved (id : pyval)
| NotFound.

Section Resolver.
(** The spec fixes neither the search request nor the field names of a
    course object; they are parameters of the resolver. *)
Variable search_request : string -> request.
Variable code_field id_field : string.

(** The id of the first course of a search result whose code field is the
    code looked for. *)
Fixpoint find_course (code : string) (courses : list pyval) : option Z :=
  match courses with
  | [] => None
  | PDict d :: rest =>
      match assoc code_field d, assoc id_field d with
      | Some (PStr c), Some (PInt n) =>
          if String.eqb c code then Some n else find_course code rest
      | _, _ => find_course code rest
      end
  | _ :: rest => find_course code rest
  end.

(** Modelled from the spec: [get_course_id] of core/cache.py is not among
    the sources. Section 4.2: a numeric identifier is returned unchanged
    without any network call; otherwise the cache is looked up; on a miss
    one gateway request searches courses by code, the mapping is stored and
    the id returned; [NotFound] if no course matches. The result carries
    the cache afterwards and the round trips made. *)
Definition resolve (srv : server) (cache : gmap string Z) (identifier : pyval)
  : resolution * gmap string Z * list request :=
  if is_numeric identifier then (Resolved identifier, cache, [])
  else
    match identifier with
    | PStr code =>
        match cache !! code with
        | Some n => (Resolved (PInt n), cache, [])
        | None =>
            let '(r, log) := make_request srv (search_request code) in
            match r with
            | Success payload =>
                match find_course code (page_items payload) with
                | Some n => (Resolved (PInt n), <[code := n]> cache, log)
                | None => (NotFound, cache, log)
                end
            | Failure _ => (NotFound, cache, log)
            end
        end
    | _ => (NotFound, cache, [])
    end.

(** Modelled from the spec: [get_course_code] of core/cache.py is not among
    the sources. Section 4.2: reverse lookup in the same cache; null, not a
    failure, when the id is unknown. *)
Definition display_code (cache : gmap string Z) (numeric_id : Z) : option string :=
  fst <$> List.find (fun kv => snd kv =? numeric_id) (map_to_list cache).

(** For statements about the cache: the search for [code] answers with a
    course of that code whose id is [n]. *)
Definition yields (srv : server) (code : string) (n : Z) : Prop :=
  exists payload : pyval,
    result_of (srv (search_request code)) = Success payload
    /\ find_course code (page_items payload) = Some n.

(** Upstream, no two codes name the same course. *)
Definition unique_ids (srv : server) : Prop :=
  forall (c1 c2 : string) (n : Z), yields srv c1 n -> yields srv c2 n -> c1 = c2.

(** The cache holds only what the upstream search answers. *)
Definition agrees (srv : server) (cache : gmap string Z) : Prop :=
  forall (code : string) (n : Z), cache !! code = Some n -> yields srv code n.
End Resolver.

(** A fixture for the resolver: a search by code, and an upstream whose only
    course is CS101, with id 42. *)
Definition search_by_code (code : string) : request :=
  {| method := GET; path := "/courses";
     params := [("search_term", PStr code)]; body := [] |}.

Definition cs101_upstream : server := fun _ =>
  {| result_of := Success (PList [PDict [("id", PInt 42);
                                         ("course_code", PStr "CS101")]]);
     next_page := None |}.

End Core.

(* ===================================================================== *)
(** * Tool handlers as programs over the awaited core calls *)
(* ===================================================================== *)

Module Tool.
Import Py.

(** The functions of [canvas_mcp.core] a handler calls; all but
    [log_warning] are awaited. An omitted keyword argument is [None]. *)
Inductive call : Type :=
| get_course_id (course_identifier : pyval)
| get_course_code (course_id : pyval)
| fetch_all_paginated_results (endpoint : string) (params : pyval)
| make_canvas_request (method endpoint : string)
    (params data : option pyval) (skip_anonymization : bool)
| log_warning (message : string) (exc : exn).

(** A handler either returns, raises, or awaits a call and continues with
    its answer. *)
Inductive tool (A : Type) : Type :=
| Return (a : A)
| Throw (e : exn)
| Await (c : call) (k : pyval -> tool A).
Arguments Return {A} a.
Arguments Throw {A} e.
Arguments Await {A} c k.

Fixpoint bind {A B : Type} (m : tool A) (f : A -> tool B) : tool B :=
  match m with
  | Return a => f a
  | Throw e => Throw e
  | Await c k => Await c (fun v => bind (k v) f)
  end.

(** [x <~ m ;; k] binds at the handler level, where [m] may await. *)
Notation "x <~ m ;; k" := (bind m (fun x => k))
  (at level 100, m at next level, right associativity).

Definition await (c : call) : tool pyval := Await c Return.

(** A built-in that may raise, run inside a handler. *)
Definition lift {A : Type} (r : result A) : tool A :=
  match r with
  | Ok a => Return a
  | Raise e => Throw e
  end.

(** The world a handler runs in answers each call, given the calls made so
    far. *)
Definition env : Type := list call -> call -> pyval.

(** Run a handler: its outcome and the calls it made, oldest first. *)
Fixpoint run_from {A : Type} (w : env) (h : list call) (p : tool A)
  : result A * list call :=
  match p with
  | Return a => (Ok a, h)
  | Throw e => (Raise e, h)
  | Await c k => run_from w (h +++ [c]) (k (w h c))
  end.

Definition run {A : Type} (w : env) (p : tool A) : result A * list call :=
  run_from w [] p.

Definition outcome {A : Type} (w : env) (p : tool A) : result A := fst (run w p).
Definition trace {A : Type} (w : env) (p : tool A) : list call := snd (run w p).

(** Calls that reach the gateway directly. *)
Definition is_gateway_call (c : call) : bool :=
  match c with
  | fetch_all_paginated_results _ _ => true
  | make_canvas_request _ _ _ _ _ => true
  | _ => false
  end.

(** Calls that change upstream state: every gateway request except a GET. *)
Definition is_mutating (c : call) : bool :=
  match c with
  | make_canvas_request m _ _ _ _ => negb (String.eqb m "get")
  | _ => false
  end.

(** ** Mocked worlds

    The repository's tests patch the four core functions: the two cache
    functions return a fixed value, the two gateway functions return the
    next element of a [side_effect] list on each call. *)
Record mock : Type := {
  on_get_course_id : pyval;
  on_get_course_code : pyval;
  on_fetch : list pyval;
  on_request : list pyval
}.

Definition is_fetch (c : call) : bool :=
  match c with fetch_all_paginated_results _ _ => true | _ => false end.

Definition is_request (c : call) : bool :=
  match c with make_canvas_request _ _ _ _ _ => true | _ => false end.

Definition count_calls (p : call -> bool) (h : list call) : nat :=
  length (filter p h).

Definition mock_env (m : mock) : env := fun h c =>
  match c with
  | get_course_id _ => on_get_course_id m
  | get_course_code _ => on_get_course_code m
  | fetch_all_paginated_results _ _ =>
      nth (count_calls is_fetch h) (on_fetch m) PNone
  | make_canvas_request _ _ _ _ _ =>
      nth (count_calls is_request h) (on_request m) PNone
  | log_warning _ _ => PNone
  end.

(** ** Specifications of handlers

    [meets P Q E p]: whatever the world answers, every call [p] awaits
    satisfies [P], every value it returns satisfies [Q] and every exception it
    raises satisfies [E]. *)
Inductive meets {A : Type} (P : call -> Prop) (Q : A -> Prop) (E : exn -> Prop)
  : tool A -> Prop :=
| meets_return (a : A) : Q a -> meets P Q E (Return a)
| meets_throw (e : exn) : E e -> meets P Q E (Throw e)
| meets_await (c : call) (k : pyval -> tool A) :
    P c -> (forall v, meets P Q E (k v)) -> meets P Q E (Await c k).

Definition nl : string := String (ascii_of_nat 10) EmptyString.

(** ["c" * n] *)
Definition times (c : string) (n : nat) : string := String.concat "" (repeat c n).

End Tool.

(* ===================================================================== *)
(** * tools/analytics.py *)
(* ===================================================================== *)

Module Analytics.
Import Py Tool.

Section Handlers.
Context `{Repr}.

Definition valid_sort_options : list string :=
  ["name"; "name_descending";
   "score"; "score_descending";
   "participations"; "participations_descending";
   "page_views"; "page_views_descending"].

(** [sum(s.get(key, 0) or 0 for s in students)] *)
Fixpoint sum_field (key : string) (students : list pyval) (acc : num)
  : result num :=
  match students with
  | [] => Ok acc
  | s :: rest =>
      v <- get s key (PInt 0);;
      acc' <- add_num acc (or_else v (PInt 0));;
      sum_field key rest acc'
  end.

(** [student.get("name", f"Student {student.get('id', 'Unknown')}")] *)
Definition student_name (student : pyval) : result pyval :=
  sid <- get student "id" (PStr "Unknown");;
  get student "name" (PStr ("Student " ++ str sid)).

(** The three watch lists built by the loop over [students]. *)
Record engagement : Type := {
  no_activity : list pyval;
  low_engagement : list pyval;
  high_tardiness : list (pyval * pyval * pyval)   (* name, late, missing *)
}.

Definition no_engagement : engagement :=
  {| no_activity := []; low_engagement := []; high_tardiness := [] |}.

(** One iteration of the loop of lines 75-94. *)
Definition classify_student (student : pyval) (e : engagement)
  : result engagement :=
  pv <- get student "page_views" (PInt 0);;
  let page_views := or_else pv (PInt 0) in
  pa <- get student "participations" (PInt 0);;
  let participations := or_else pa (PInt 0) in
  tardiness <- get student "tardiness_breakdown" (PDict []);;
  la <- get tardiness "late" (PInt 0);;
  let late_count := or_else la (PInt 0) in
  mi <- get tardiness "missing" (PInt 0);;
  let missing_count := or_else mi (PInt 0) in
  name <- student_name student;;
  e1 <-
    ((if eq_num page_views (NInt 0) && eq_num participations (NInt 0)
     then Ok {| no_activity := no_activity e +++ [name];
                low_engagement := low_engagement e;
                high_tardiness := high_tardiness e |}
     else
       few_views <- lt_num page_views (NInt 10);;
       few_parts <- ((if few_views then lt_num participations (NInt 5)
                     else Ok false) : result bool);;
       if few_parts
       then Ok {| no_activity := no_activity e;
                  low_engagement := low_engagement e +++ [name];
                  high_tardiness := high_tardiness e |}
       else Ok e) : result engagement);;
  many_missing <- gt_num missing_count (NInt 2);;
  tardy <- ((if many_missing then Ok true else gt_num late_count (NInt 3))
           : result bool);;
  if tardy
  then Ok {| no_activity := no_activity e1;
             low_engagement := low_engagement e1;
             high_tardiness :=
               high_tardiness e1 +++ [(name, late_count, missing_count)] |}
  else Ok e1.

Fixpoint classify (students : list pyval) (e : engagement) : result engagement :=
  match students with
  | [] => Ok e
  | s :: rest => e' <- classify_student s e;; classify rest e'
  end.

(** A block of the report: a header with the count, up to ten entries, a
    remainder line, a blank line; nothing for an empty list. *)
Definition attention_block {A : Type} (header : string) (entry : A -> string)
    (l : list A) : list string :=
  match l with
  | [] => []
  | _ =>
      [header ++ " (" ++ pretty (Z.of_nat (length l)) ++ "):"]
      +++ map entry (firstn 10 l)
      +++ (if (10 <? length l)%nat
           then ["  ... and " ++ pretty (Z.of_nat (length l) - 10) ++ " more"]
           else [])
      +++ [""]
  end.

(** [f"{label}: {total / n:.1f}" if n > 0 else ""] *)
Definition average_line (label : string) (total : num) (n : Z) : result string :=
  if 0 <? n then
    q <- truediv total (NInt n);;
    Ok (label ++ ": " ++ format_f 1 q)
  else Ok "".

(** One line of the "Top 5" listing. *)
Definition top_line (student : pyval) : result string :=
  name <- student_name student;;
  pv <- get student "page_views" (PInt 0);;
  part <- get student "participations" (PInt 0);;
  Ok ("  - " ++ str name ++ ": " ++ str (or_else pv (PInt 0)) ++ " views, "
      ++ str (or_else part (PInt 0)) ++ " participations").

Fixpoint top_lines (students : list pyval) : result (list string) :=
  match students with
  | [] => Ok []
  | s :: rest => l <- top_line s;; ls <- top_lines rest;; Ok (l :: ls)
  end.

Definition get_course_student_summaries
    (course_identifier : pyval) (sort_by : string) : tool string :=
  course_id <~ await (get_course_id course_identifier);;
  if negb (str_in sort_by valid_sort_options) then
    Return ("Error: Invalid sort_by option '" ++ sort_by
          ++ "'. Valid options: " ++ join ", " valid_sort_options)
  else
    let params :=
      PDict ([("sort_column", PStr (replace "_descending" "" sort_by));
              ("per_page", PInt 100)]
             +++ (if endswith "_descending" sort_by
                  then [("sort_order", PStr "descending")] else [])) in
    students <~ await (fetch_all_paginated_results
                        ("/courses/" ++ str course_id
                         ++ "/analytics/student_summaries") params);;
    if is_error students then
      err <~ lift (getitem students "error");;
      Return ("Error fetching student summaries: " ++ str err)
    else if negb (truthy students) then
      Return "No student analytics data available for this course."
    else
      total_students <~ lift (len students);;
      items <~ lift (iter students);;
      total_page_views <~ lift (sum_field "page_views" items (NInt 0));;
      total_participations <~ lift (sum_field "participations" items (NInt 0));;
      e <~ lift (classify items no_engagement);;
      code <~ await (get_course_code course_id);;
      let course_display := or_else code course_identifier in
      avg_views <~ lift (average_line "Average Page Views per Student"
                          total_page_views total_students);;
      avg_parts <~ lift (average_line "Average Participations per Student"
                          total_participations total_students);;
      let lines :=
        ["Student Analytics Summary for " ++ str course_display;
          times "=" 50;
          "";
          "Total Students: " ++ pretty total_students;
          "Total Page Views: " ++ str (of_num total_page_views);
          "Total Participations: " ++ str (of_num total_participations);
          avg_views;
          avg_parts;
          ""]
        +++ attention_block "⚠️ Students with No Activity"
              (fun name => "  - " ++ str name) (no_activity e)
        +++ attention_block "📉 Students with Low Engagement"
              (fun name => "  - " ++ str name) (low_engagement e)
        +++ attention_block "⏰ Students with Tardiness Issues"
              (fun '(name, late, missing) =>
                 "  - " ++ str name ++ ": " ++ str late ++ " late, "
                 ++ str missing ++ " missing")
              (high_tardiness e) in
      top <~ (if truthy students then
                first5 <~ lift (slice_to 5 students);;
                ls <~ lift (top_lines first5);;
                Return ("Top 5 Students by Current Sort:" :: ls)
              else Return []);;
      Return (join nl (lines +++ top)).

Definition valid_report_types : list string :=
  ["grade_export_csv"; "student_assignment_outcome_map_csv"; "provisioning_csv"].

Definition start_course_report
    (course_identifier : pyval) (report_type : string) : tool string :=
  course_id <~ await (get_course_id course_identifier);;
  if negb (str_in report_type valid_report_types) then
    Return ("Error: Invalid report type '" ++ report_type
          ++ "'. Valid options: " ++ join ", " valid_report_types)
  else
    response <~ await (make_canvas_request "post"
                        ("/courses/" ++ str course_id ++ "/reports/" ++ report_type)
                        None None false);;
    if is_error response then
      err <~ lift (getitem response "error");;
      Return ("Error starting report: " ++ str err)
    else if negb (truthy response) then
      Return "Failed to start report - no response received."
    else
      report_id <~ lift (get response "id" PNone);;
      status <~ lift (get response "status" (PStr "unknown"));;
      progress <~ lift (get response "progress" (PInt 0));;
      code <~ await (get_course_code course_id);;
      let course_display := or_else code course_identifier in
      Return (join nl
        ["Report Started for " ++ str course_display;
         times "=" 50;
         "";
         "Report Type: " ++ report_type;
         "Report ID: " ++ str report_id;
         "Status: " ++ str status;
         "Progress: " ++ str progress ++ "%";
         "";
         "Use get_report_status('" ++ str course_identifier ++ "', '"
           ++ report_type ++ "', " ++ str report_id ++ ") to check progress.";
         "";
         "Note: Large reports may take several minutes to generate."]).
End Handlers.

End Analytics.

(* ===================================================================== *)
(** * tools/enrollment.py *)
(* ===================================================================== *)

Module Enrollment.
Import Py Tool.

Section Handlers.
Context `{Repr}.

Definition valid_types : list string :=
  ["StudentEnrollment"; "TeacherEnrollment"; "TaEnrollment";
   "ObserverEnrollment"; "DesignerEnrollment"].

Definition valid_states : list string :=
  ["active"; "invited"; "creation_pending"; "inactive"].

Definition enroll_user (course_identifier user_id : pyval)
    (enrollment_type enrollment_state : string) (notify : bool) : tool string :=
  if negb (str_in enrollment_type valid_types) then
    Return ("Invalid enrollment_type '" ++ enrollment_type
            ++ "'. Must be one of: " ++ join ", " valid_types)
  else if negb (str_in enrollment_state valid_states) then
    Return ("Invalid enrollment_state '" ++ enrollment_state
            ++ "'. Must be one of: " ++ join ", " valid_states)
  else
    course_id <~ await (get_course_id course_identifier);;
    let enrollment_data :=
      PDict [("enrollment",
              PDict [("user_id", PStr (str user_id));
                     ("type", PStr enrollment_type);
                     ("enrollment_state", PStr enrollment_state);
                     ("notify", PBool notify)])] in
    response <~ await (make_canvas_request "post"
                         ("/courses/" ++ str course_id ++ "/enrollments")
                         None (Some enrollment_data) true);;
    if is_error response then
      err <~ lift (getitem response "error");;
      Return ("Error enrolling user: " ++ str err)
    else
      enrollment_id <~ lift (get response "id" PNone);;
      role <~ lift (get response "type" (PStr enrollment_type));;
      state <~ lift (get response "enrollment_state" (PStr enrollment_state));;
      Return ("User " ++ str user_id ++ " enrolled successfully." ++ nl
              ++ "Enrollment ID: " ++ str enrollment_id ++ nl
              ++ "Role: " ++ str role ++ nl
              ++ "State: " ++ str state ++ nl
              ++ "Course: " ++ str course_id).

Definition create_user (account_id : pyval) (name email : string)
    (login_id sis_user_id : option string)
    (send_confirmation skip_confirmation : bool) : tool string :=
  let unique_id :=
    match login_id with
    | Some l => if String.eqb l "" then email else l
    | None => email
    end in
  let user_data :=
    PDict [("user",
            PDict [("name", PStr name);
                   ("skip_registration", PBool skip_confirmation)]);
           ("pseudonym",
            PDict ([("unique_id", PStr unique_id);
                    ("send_confirmation", PBool send_confirmation)]
                   +++ given_text "sis_user_id" sis_user_id));
           ("communication_channel",
            PDict [("type", PStr "email");
                   ("address", PStr email);
                   ("skip_confirmation", PBool skip_confirmation)])] in
  response <~ await (make_canvas_request "post"
                       ("/accounts/" ++ str account_id ++ "/users")
                       None (Some user_data) true);;
  if is_error response then
    err <~ lift (getitem response "error");;
    Return ("Error creating user: " ++ str err)
  else
    user_id <~ lift (get response "id" PNone);;
    user_name <~ lift (get response "name" PNone);;
    Return ("User created successfully." ++ nl
            ++ "ID: " ++ str user_id ++ nl
            ++ "Name: " ++ str user_name ++ nl
            ++ "Email: " ++ email).
End Handlers.

End Enrollment.

(* ===================================================================== *)
(** * tools/discussion_analytics.py *)
(* ===================================================================== *)

Module DiscussionAnalytics.
Import Py Tool.

(** [{"posts": int, "replies": int}] *)
Record counts : Type := { posts : Z; replies : Z }.

Definition no_counts : counts := {| posts := 0; replies := 0 |}.

(** [participation.get(uid, {"posts": 0, "replies": 0})] *)
Definition counts_of (participation : gmap string counts) (uid : string) : counts :=
  default no_counts (participation !! uid).

(** [if uid not in participation: participation[uid] = {...zeros}] followed
    by [participation[uid]["posts"] += 1]. *)
Definition add_post (uid : string) (participation : gmap string counts)
  : gmap string counts :=
  let c := counts_of participation uid in
  <[uid := {| posts := posts c + 1; replies := replies c |}]> participation.

Definition add_reply (uid : string) (participation : gmap string counts)
  : gmap string counts :=
  let c := counts_of participation uid in
  <[uid := {| posts := posts c; replies := replies c + 1 |}]> participation.

(** The view pass: create the entry if missing, count one reply only when
    none was counted before. *)
Definition add_view_reply (uid : string) (participation : gmap string counts)
  : gmap string counts :=
  let c := counts_of participation uid in
  if replies c =? 0
  then <[uid := {| posts := posts c; replies := replies c + 1 |}]> participation
  else <[uid := c]> participation.

(** The four lists of the summary. *)
Record categories : Type := {
  full_participants : list (string * pyval * counts);
  posters_only : list (string * pyval * counts);
  repliers_only : list (string * pyval * counts);
  silent : list (string * pyval)
}.

Definition no_categories : categories :=
  {| full_participants := []; posters_only := [];
     repliers_only := []; silent := [] |}.

(** One iteration of the loop of lines 113-125. *)
Definition categorize_student (participation : gmap string counts)
    (cats : categories) (student : string * pyval) : categories :=
  let '(student_id, student_name) := student in
  let p := counts_of participation student_id in
  let has_posts := 0 <? posts p in
  let has_replies := 0 <? replies p in
  if has_posts && has_replies then
    {| full_participants := full_participants cats +++ [(student_id, student_name, p)];
       posters_only := posters_only cats;
       repliers_only := repliers_only cats;
       silent := silent cats |}
  else if has_posts then
    {| full_participants := full_participants cats;
       posters_only := posters_only cats +++ [(student_id, student_name, p)];
       repliers_only := repliers_only cats;
       silent := silent cats |}
  else if has_replies then
    {| full_participants := full_participants cats;
       posters_only := posters_only cats;
       repliers_only := repliers_only cats +++ [(student_id, student_name, p)];
       silent := silent cats |}
  else
    {| full_participants := full_participants cats;
       posters_only := posters_only cats;
       repliers_only := repliers_only cats;
       silent := silent cats +++ [(student_id, student_name)] |}.


Definition categorize (student_map : list (string * pyval))
    (participation : gmap string counts) : categories :=
  fold_left (categorize_student participation) student_map no_categories.

(** A graded row: [grades[student_id]]. *)
Record grade : Type := {
  name : pyval;
  g_posts : Z;
  g_replies : Z;
  raw_score : float;
  final_score : pyval
}.

(** For statements about the view pass: what it may do to one user's
    counts, nothing or a first reply. *)
Definition first_reply_at_most (before after : counts) : Prop :=
  posts after = posts before
  /\ (replies after = replies before
      \/ (replies before = 0 /\ replies after = 1)).

Section Handlers.
Context `{Repr}.
Context {sorting : Sorted}.

(** The inner loop over [entry.get("recent_replies", [])]. *)
Fixpoint count_replies (replies : list pyval) (participation : gmap string counts)
  : result (gmap string counts) :=
  match replies with
  | [] => Ok participation
  | reply :: rest =>
      uid <- get reply "user_id" (PStr "");;
      let reply_user_id := str uid in
      if String.eqb reply_user_id ""
      then count_replies rest participation
      else count_replies rest (add_reply reply_user_id participation)
  end.

(** The loop over [entries_list], lines 67-83 and 227-241. *)
Fixpoint count_entries (entries : list pyval) (participation : gmap string counts)
  : result (gmap string counts) :=
  match entries with
  | [] => Ok participation
  | entry :: rest =>
      uid <- get entry "user_id" (PStr "");;
      let user_id := str uid in
      if String.eqb user_id ""
      then count_entries rest participation
      else
        let participation := add_post user_id participation in
        rs <- get entry "recent_replies" (PList []);;
        replies <- iter rs;;
        participation <- count_replies replies participation;;
        count_entries rest participation
  end.

(** The body of the [try] of lines 90-100. The dictionary is updated in
    place, so what was counted before an exception stays counted: the
    result is the dictionary together with the exception, if any. *)
Fixpoint view_replies (replies : list pyval) (participation : gmap string counts)
  : gmap string counts * option exn :=
  match replies with
  | [] => (participation, None)
  | reply :: rest =>
      match get reply "user_id" (PStr "") with
      | Raise e => (participation, Some e)
      | Ok uid =>
          let reply_user_id := str uid in
          if String.eqb reply_user_id ""
          then view_replies rest participation
          else view_replies rest (add_view_reply reply_user_id participation)
      end
  end.

Fixpoint view_entries (view : list pyval) (participation : gmap string counts)
  : gmap string counts * option exn :=
  match view with
  | [] => (participation, None)
  | view_entry :: rest =>
      match rs <- get view_entry "replies" (PList []);; iter rs with
      | Raise e => (participation, Some e)
      | Ok replies =>
          match view_replies replies participation with
          | (participation, None) => view_entries rest participation
          | failed => failed
          end
      end
  end.

Definition view_pass (view_response : pyval) (participation : gmap string counts)
  : gmap string counts * option exn :=
  if negb (is_error view_response) then
    match v <- get view_response "view" (PList []);; iter v with
    | Raise e => (participation, Some e)
    | Ok view => view_entries view participation
    end
  else (participation, None).

(** [{str(s.get("id", "")): s.get("name", "Unknown") for s in student_list}] *)
Fixpoint build_student_map (students : list pyval) (m : list (string * pyval))
  : result (list (string * pyval)) :=
  match students with
  | [] => Ok m
  | s :: rest =>
      sid <- get s "id" (PStr "");;
      sname <- get s "name" (PStr "Unknown");;
      build_student_map rest (dict_set (str sid) sname m)
  end.

(** [x if isinstance(x, list) else []] *)
Definition list_or_empty (v : pyval) : list pyval :=
  match v with PList l => l | _ => [] end.

Definition section_of {A : Type} (title : string) (row : A -> string)
    (l : list A) : string :=
  match l with
  | [] => ""
  | _ => title ++ nl ++ String.concat "" (map row l) ++ nl
  end.

(** The report of lines 132-169. *)
Definition render_summary (course_display topic_title topic_id : pyval)
    (total_students : Z) (cats : categories) : result string :=
  let total_participants := total_students - Z.of_nat (length (silent cats)) in
  percent <-
    (if 0 <? total_students then
       q <- truediv (NInt total_participants) (NInt total_students);;
       hundred <- float_of_Z 100;;
       Ok ("(" ++ format_f 0 (PrimFloat.mul q hundred) ++ "%)" ++ nl)
     else Ok ("(0%)" ++ nl));;
  Ok ("Discussion Participation Summary" ++ nl
      ++ "Course: " ++ str course_display ++ nl
      ++ "Discussion: " ++ str topic_title ++ " (ID: " ++ str topic_id ++ ")"
      ++ nl ++ nl
      ++ "Overview: " ++ pretty total_participants ++ "/" ++ pretty total_students
      ++ " students participated "
      ++ percent
      ++ "  Full participation (post + reply): "
      ++ pretty (Z.of_nat (length (full_participants cats))) ++ nl
      ++ "  Posted only: " ++ pretty (Z.of_nat (length (posters_only cats))) ++ nl
      ++ "  Replied only: " ++ pretty (Z.of_nat (length (repliers_only cats))) ++ nl
      ++ "  Silent (no participation): "
      ++ pretty (Z.of_nat (length (silent cats))) ++ nl ++ nl
      ++ section_of "Full Participants:"
           (fun '(sid, sname, p) =>
              "  - " ++ str sname ++ " (ID: " ++ sid ++ ") - " ++ pretty (posts p)
              ++ " posts, " ++ pretty (replies p) ++ " replies" ++ nl)
           (full_participants cats)
      ++ section_of "Posted Only (no replies):"
           (fun '(sid, sname, p) =>
              "  - " ++ str sname ++ " (ID: " ++ sid ++ ") - " ++ pretty (posts p)
              ++ " posts" ++ nl)
           (posters_only cats)
      ++ section_of "Replied Only (no original post):"
           (fun '(sid, sname, p) =>
              "  - " ++ str sname ++ " (ID: " ++ sid ++ ") - " ++ pretty (replies p)
              ++ " replies" ++ nl)
           (repliers_only cats)
      ++ match silent cats with
         | [] => ""
         | _ =>
             "Silent Students (no participation):" ++ nl
             ++ String.concat ""
                  (map (fun '(sid, sname) =>
                          "  - " ++ str sname ++ " (ID: " ++ sid ++ ")" ++ nl)
                       (silent cats))
             ++ nl ++ "Silent student IDs (for bulk messaging): "
             ++ join "," (map fst (silent cats)) ++ nl
         end).

(** Lines 59-61: the title shown in the report. *)
Definition topic_title_of (topic_response : pyval) : result pyval :=
  if negb (is_error topic_response)
  then get topic_response "title" (PStr "Unknown Topic")
  else Ok (PStr "Unknown Topic").

(** For statements about the view pass: whether the view endpoint lists a
    reply written by [uid]. *)
Definition items_under (key : string) (v : pyval) : list pyval :=
  match rs <- get v key (PList []);; iter rs with
  | Ok l => l
  | Raise _ => []
  end.

Definition authored_by (uid : string) (reply : pyval) : bool :=
  match get reply "user_id" (PStr "") with
  | Ok u => String.eqb (str u) uid
  | Raise _ => false
  end.

Definition view_mentions (uid : string) (view_response : pyval) : bool :=
  existsb (fun view_entry => existsb (authored_by uid) (items_under "replies" view_entry))
    (items_under "view" view_response).

(** For statements about the counting loop: the entries written by [uid],
    and the recent replies written by [uid] under the entries that carry a
    user id (line 70 skips the others, replies included). *)
Definition posts_by (uid : string) (entries : list pyval) : nat :=
  length (List.filter (authored_by uid) entries).

Definition replies_by (uid : string) (entries : list pyval) : nat :=
  list_sum
    (map (fun entry =>
            if authored_by "" entry then 0%nat
            else length (List.filter (authored_by uid)
                           (items_under "recent_replies" entry)))
         entries).




Definition get_discussion_participation_summary
    (course_identifier topic_id : pyval) : tool string :=
  course_id <~ await (get_course_id course_identifier);;
  students <~ await (fetch_all_paginated_results
                       ("/courses/" ++ str course_id ++ "/users")
                       (PDict [("enrollment_type[]", PStr "student");
                               ("per_page", PInt 100)]));;
  if is_error students then
    err <~ lift (getitem students "error");;
    Return ("Error fetching students: " ++ str err)
  else
  entries <~ await (fetch_all_paginated_results
                      ("/courses/" ++ str course_id ++ "/discussion_topics/"
                       ++ str topic_id ++ "/entries")
                      (PDict [("per_page", PInt 100)]));;
  if is_error entries then
    err <~ lift (getitem entries "error");;
    Return ("Error fetching discussion entries: " ++ str err)
  else
  topic_response <~ await (make_canvas_request "get"
                             ("/courses/" ++ str course_id
                              ++ "/discussion_topics/" ++ str topic_id)
                             None None false);;
  topic_title <~ lift (topic_title_of topic_response);;
  participation <~ lift (count_entries (list_or_empty entries) ∅);;
  view_response <~ await (make_canvas_request "get"
                            ("/courses/" ++ str course_id
                             ++ "/discussion_topics/" ++ str topic_id ++ "/view")
                            None None false);;
  let '(participation, failure) := view_pass view_response participation in
  _ <~ match failure with
       | Some e =>
           await (log_warning
                    "Failed to fetch discussion view for participation" e)
       | None => Return PNone
       end;;
  student_map <~ lift (build_student_map (list_or_empty students) []);;
  let cats := categorize student_map participation in
  code <~ await (get_course_code course_id);;
  let course_display := or_else code course_identifier in
  lift (render_summary course_display topic_title topic_id
          (Z.of_nat (length student_map)) cats).

(** [max_points or assignment.get("points_possible", 10)]: the right
    operand is evaluated only when the left one is falsy. *)
Definition points_possible_of (max_points : option float) (assignment : pyval)
  : result pyval :=
  let supplied := match max_points with Some f => PFloat f | None => PNone end in
  if truthy supplied then Ok supplied
  else get assignment "points_possible" (PInt 10).

(** [(p["posts"] * points_for_post) + (p["replies"] * points_for_reply)] *)
Definition raw_score_of (p : counts) (points_for_post points_for_reply : float)
  : result float :=
  a <- mul_int_float (posts p) points_for_post;;
  b <- mul_int_float (replies p) points_for_reply;;
  Ok (PrimFloat.add a b).

(** One iteration of the loop of lines 247-261. *)
Definition grade_student (participation : gmap string counts)
    (points_for_post points_for_reply : float) (points_possible : pyval)
    (student : pyval) (grades : list (string * grade))
  : result (list (string * grade)) :=
  sid <- get student "id" (PStr "");;
  let student_id := str sid in
  student_name <- get student "name" (PStr "Unknown");;
  let p := counts_of participation student_id in
  raw <- raw_score_of p points_for_post points_for_reply;;
  capped_score <- min_num (NFloat raw) points_possible;;
  Ok (dict_set student_id
        {| name := student_name; g_posts := posts p; g_replies := replies p;
           raw_score := raw; final_score := capped_score |} grades).

Fixpoint calculate_grades (participation : gmap string counts)
    (points_for_post points_for_reply : float) (points_possible : pyval)
    (students : list pyval) (grades : list (string * grade))
  : result (list (string * grade)) :=
  match students with
  | [] => Ok grades
  | s :: rest =>
      grades <- grade_student participation points_for_post points_for_reply
                  points_possible s grades;;
      calculate_grades participation points_for_post points_for_reply
        points_possible rest grades
  end.

(** [f"{g['name']:<30} {g['posts']:<6} {g['replies']:<8} {g['final_score']:<8.1f}\n"] *)
Definition grade_row (g : grade) : result string :=
  n <- format_ljust 30 (name g);;
  sc <- format_fixed 1 (final_score g);;
  Ok (n ++ " " ++ ljust 6 (pretty (g_posts g)) ++ " "
      ++ ljust 8 (pretty (g_replies g)) ++ " " ++ ljust 8 sc ++ nl).

Fixpoint grade_rows (l : list (string * grade)) : result string :=
  match l with
  | [] => Ok ""
  | (_, g) :: rest => r <- grade_row g;; rs <- grade_rows rest;; Ok (r ++ rs)
  end.

(** The submission loop of lines 281-299: one PUT per graded student, the
    answers tallied. *)
Fixpoint submit_grades (course_id assignment_id : pyval)
    (grades : list (string * grade)) (successful failed : Z) : tool (Z * Z) :=
  match grades with
  | [] => Return (successful, failed)
  | (student_id, g) :: rest =>
      response <~ await (make_canvas_request "put"
        ("/courses/" ++ str course_id ++ "/assignments/" ++ str assignment_id
         ++ "/submissions/" ++ student_id)
        None
        (Some (PDict
           [("submission",
             PDict [("posted_grade", PStr (str (final_score g)))]);
            ("comment",
             PDict [("text_comment",
                     PStr ("Discussion participation: " ++ pretty (g_posts g)
                           ++ " posts, " ++ pretty (g_replies g)
                           ++ " replies"))])]))
        false);;
      if is_error response
      then submit_grades course_id assignment_id rest successful (failed + 1)
      else submit_grades course_id assignment_id rest (successful + 1) failed
  end.

(** What line 252 and line 253 compute for a graded row. *)
Definition graded_by (points_for_post points_for_reply : float)
    (points_possible : pyval) (g : grade) : Prop :=
  raw_score_of {| posts := g_posts g; replies := g_replies g |}
    points_for_post points_for_reply = Ok (raw_score g)
  /\ min_num (NFloat (raw_score g)) points_possible = Ok (final_score g).

(** For statements about the submission loop: the request of lines 283-290
    for one row of [grades]. *)
Definition grade_submission (course_id assignment_id : pyval)
    (row : string * grade) : call :=
  make_canvas_request "put"
    ("/courses/" ++ str course_id ++ "/assignments/" ++ str assignment_id
     ++ "/submissions/" ++ fst row)
    None
    (Some (PDict
       [("submission",
         PDict [("posted_grade", PStr (str (final_score (snd row))))]);
        ("comment",
         PDict [("text_comment",
                 PStr ("Discussion participation: " ++ pretty (g_posts (snd row))
                       ++ " posts, " ++ pretty (g_replies (snd row))
                       ++ " replies"))])]))
    false.

(** The three early returns of the grading handler. *)
Definition grading_fetch_error (report : string) : Prop :=
  exists err : pyval,
    report = "Error fetching assignment: " ++ str err
    \/ report = "Error fetching students: " ++ str err
    \/ report = "Error fetching entries: " ++ str err.

Definition grade_discussion_participation
    (course_identifier topic_id assignment_id : pyval)
    (points_for_post points_for_reply : float) (max_points : option float)
    (dry_run : bool) : tool string :=
  course_id <~ await (get_course_id course_identifier);;
  assignment <~ await (make_canvas_request "get"
                         ("/courses/" ++ str course_id ++ "/assignments/"
                          ++ str assignment_id)
                         None None false);;
  if is_error assignment then
    err <~ lift (getitem assignment "error");;
    Return ("Error fetching assignment: " ++ str err)
  else
  points_possible <~ lift (points_possible_of max_points assignment);;
  students <~ await (fetch_all_paginated_results
                       ("/courses/" ++ str course_id ++ "/users")
                       (PDict [("enrollment_type[]", PStr "student");
                               ("per_page", PInt 100)]));;
  if is_error students then
    err <~ lift (getitem students "error");;
    Return ("Error fetching students: " ++ str err)
  else
  entries <~ await (fetch_all_paginated_results
                      ("/courses/" ++ str course_id ++ "/discussion_topics/"
                       ++ str topic_id ++ "/entries")
                      (PDict [("per_page", PInt 100)]));;
  if is_error entries then
    err <~ lift (getitem entries "error");;
    Return ("Error fetching entries: " ++ str err)
  else
  participation <~ lift (count_entries (list_or_empty entries) ∅);;
  grades <~ lift (calculate_grades participation points_for_post
                    points_for_reply points_possible
                    (list_or_empty students) []);;
  code <~ await (get_course_code course_id);;
  let course_display := or_else code course_identifier in
  assignment_name <~ lift (get assignment "name" (PStr "Unknown"));;
  sorted_grades <~ lift (sorted_reverse (fun x => final_score (snd x)) grades);;
  rows <~ lift (grade_rows sorted_grades);;
  let result :=
    (if dry_run then "DRY RUN - " else "")
    ++ "Discussion Participation Grading" ++ nl
    ++ "Course: " ++ str course_display ++ nl
    ++ "Assignment: " ++ str assignment_name
    ++ " (ID: " ++ str assignment_id ++ ")" ++ nl
    ++ "Points: " ++ float_repr points_for_post ++ "/post, "
    ++ float_repr points_for_reply ++ "/reply, max " ++ str points_possible
    ++ nl ++ nl
    ++ ljust 30 "Name" ++ " " ++ ljust 6 "Posts" ++ " " ++ ljust 8 "Replies"
    ++ " " ++ ljust 8 "Score" ++ nl
    ++ times "-" 55 ++ nl
    ++ rows in
  if dry_run then
    Return (result ++ nl ++ "Dry run complete. Set dry_run=False to submit "
            ++ pretty (Z.of_nat (length grades)) ++ " grades.")
  else
    tally <~ submit_grades course_id assignment_id grades 0 0;;
    let '(successful, failed) := tally in
    Return (result ++ nl ++ "Grading complete: " ++ pretty successful
            ++ " submitted, " ++ pretty failed ++ " failed.").

(** For statements about a run of the grading handler with [dry_run=False]
    that got past its three fetches: the rows are the ones computed from
    what the world answered (the assignment, the students and the entries
    of its second, third and fourth call), every fetched student has a row,
    no two rows share a student id, the run has written the grade of each
    row, in the order of the rows, and nothing else, and the report ends
    with the two tallies, which add up to the number of rows. *)
Definition graded_run (w : env) (course_identifier topic_id assignment_id : pyval)
    (points_for_post points_for_reply : float) (max_points : option float)
    (report : string) : Prop :=
  let course_id := w [] (get_course_id course_identifier) in
  let assignment_call :=
    make_canvas_request "get"
      ("/courses/" ++ str course_id ++ "/assignments/" ++ str assignment_id)
      None None false in
  let students_call :=
    fetch_all_paginated_results ("/courses/" ++ str course_id ++ "/users")
      (PDict [("enrollment_type[]", PStr "student"); ("per_page", PInt 100)]) in
  let entries_call :=
    fetch_all_paginated_results
      ("/courses/" ++ str course_id ++ "/discussion_topics/" ++ str topic_id
       ++ "/entries")
      (PDict [("per_page", PInt 100)]) in
  let assignment := w [get_course_id course_identifier] assignment_call in
  let students :=
    w [get_course_id course_identifier; assignment_call] students_call in
  let entries :=
    w [get_course_id course_identifier; assignment_call; students_call]
      entries_call in
  exists (points_possible : pyval) (participation : gmap string counts)
         (grades : list (string * grade)) (s f : Z) (table : string),
    points_possible_of max_points assignment = Ok points_possible
    /\ count_entries (list_or_empty entries) ∅ = Ok participation
    /\ calculate_grades participation points_for_post points_for_reply
         points_possible (list_or_empty students) [] = Ok grades
    /\ List.filter is_mutating
         (trace w (grade_discussion_participation course_identifier topic_id
                     assignment_id points_for_post points_for_reply max_points
                     false))
       = map (grade_submission course_id assignment_id) grades
    /\ List.NoDup (map fst grades)
    /\ (forall (l : list pyval) (student : pyval),
          students = PList l ->
          In student l ->
          exists sid : pyval,
            get student "id" (PStr "") = Ok sid /\ In (str sid) (map fst grades))
    /\ 0 <= s /\ 0 <= f /\ s + f = Z.of_nat (length grades)
    /\ report = table ++ nl ++ "Grading complete: " ++ pretty s ++ " submitted, "
                ++ pretty f ++ " failed.".

(** Lines 345 and 359:
    [re.sub(r'<[^>]+>', '', msg)[:200] if msg else ""] *)
Definition message_preview (msg : pyval) : result string :=
  if truthy msg then s <- sub_tags msg;; Ok (str_slice_to 200 s) else Ok "".

Definition export_header : list pyval :=
  map PStr ["entry_id"; "user_id"; "user_name"; "type"; "parent_entry_id";
            "created_at"; "message_preview"].

(** The row of lines 361-369 for one reply to [entry]. *)
Definition reply_row (entry reply : pyval) : result (list pyval) :=
  reply_msg <- get reply "message" (PStr "");;
  reply_clean <- message_preview reply_msg;;
  reply_id <- get reply "id" PNone;;
  user_id <- get reply "user_id" PNone;;
  user_name <- get reply "user_name" (PStr "Unknown");;
  entry_id <- get entry "id" PNone;;
  created_at <- get reply "created_at" (PStr "");;
  Ok [reply_id; user_id; user_name; PStr "reply"; entry_id; created_at;
      PStr reply_clean].

(** The rows of lines 344-369 for one entry: its own, then its replies'. *)
Definition entry_rows (entry : pyval) : result (list (list pyval)) :=
  msg <- get entry "message" (PStr "");;
  msg_clean <- message_preview msg;;
  entry_id <- get entry "id" PNone;;
  user_id <- get entry "user_id" PNone;;
  user_name <- get entry "user_name" (PStr "Unknown");;
  created_at <- get entry "created_at" (PStr "");;
  rs <- get entry "recent_replies" (PList []);;
  replies <- iter rs;;
  reply_rows <- for_each (reply_row entry) replies;;
  Ok ([entry_id; user_id; user_name; PStr "post"; PStr ""; created_at;
       PStr msg_clean] :: reply_rows).

Definition export_rows (entries_list : list pyval) : result (list (list pyval)) :=
  rows <- for_each entry_rows entries_list;;
  Ok (export_header :: concat rows).

(** [sum(len(e.get("recent_replies", [])) for e in entries_list)] *)
Fixpoint count_recent_replies (entries_list : list pyval) (total : Z) : result Z :=
  match entries_list with
  | [] => Ok total
  | e :: rest =>
      rs <- get e "recent_replies" (PList []);;
      n <- len rs;;
      count_recent_replies rest (total + n)
  end.

(** [if x.get("user_id"): unique_users.add(str(x["user_id"]))] *)
Definition add_user (x : pyval) (unique_users : gset string) : result (gset string) :=
  uid <- get x "user_id" PNone;;
  if truthy uid then
    uid <- getitem x "user_id";;
    Ok ({[ str uid ]} ∪ unique_users)
  else Ok unique_users.

Fixpoint add_users (l : list pyval) (unique_users : gset string)
  : result (gset string) :=
  match l with
  | [] => Ok unique_users
  | x :: rest => unique_users <- add_user x unique_users;; add_users rest unique_users
  end.

(** The loop of lines 379-384. *)
Fixpoint collect_users (entries_list : list pyval) (unique_users : gset string)
  : result (gset string) :=
  match entries_list with
  | [] => Ok unique_users
  | e :: rest =>
      unique_users <- add_user e unique_users;;
      rs <- get e "recent_replies" (PList []);;
      replies <- iter rs;;
      unique_users <- add_users replies unique_users;;
      collect_users rest unique_users
  end.

Definition export_discussion_data
    (course_identifier topic_id : pyval) (format : string) : tool string :=
  course_id <~ await (get_course_id course_identifier);;
  topic <~ await (make_canvas_request "get"
                    ("/courses/" ++ str course_id ++ "/discussion_topics/"
                     ++ str topic_id)
                    None None false);;
  topic_title <~ lift (if negb (is_error topic)
                       then get topic "title" (PStr "Unknown")
                       else Ok (PStr "Unknown"));;
  entries <~ await (fetch_all_paginated_results
                      ("/courses/" ++ str course_id ++ "/discussion_topics/"
                       ++ str topic_id ++ "/entries")
                      (PDict [("per_page", PInt 100)]));;
  if is_error entries then
    err <~ lift (getitem entries "error");;
    Return ("Error fetching entries: " ++ str err)
  else
  let entries_list := list_or_empty entries in
  if String.eqb format "csv" then
    rows <~ lift (export_rows entries_list);;
    code <~ await (get_course_code course_id);;
    let course_display := or_else code course_identifier in
    Return ("Discussion Export: '" ++ str topic_title ++ "' in "
            ++ str course_display ++ nl ++ nl
            ++ String.concat "" (map writerow rows))
  else
    let total_entries := Z.of_nat (length entries_list) in
    total_replies <~ lift (count_recent_replies entries_list 0);;
    unique_users <~ lift (collect_users entries_list ∅);;
    code <~ await (get_course_code course_id);;
    let course_display := or_else code course_identifier in
    Return ("Discussion Summary: '" ++ str topic_title ++ "' in "
            ++ str course_display ++ nl ++ nl
            ++ "Total posts: " ++ pretty total_entries ++ nl
            ++ "Total replies: " ++ pretty total_replies ++ nl
            ++ "Total interactions: " ++ pretty (total_entries + total_replies) ++ nl
            ++ "Unique participants: " ++ pretty (Z.of_nat (size unique_users)) ++ nl).
End Handlers.

End DiscussionAnalytics.

(* ===================================================================== *)
(** * tools/gradebook.py *)
(* ===================================================================== *)

Module Gradebook.
Import Py Tool.

Section Handlers.
Context `{Repr}.

(** One pass of the loop of lines 146-167. *)
Definition group_block (g : pyval) : result string :=
  gid <- get g "id" PNone;;
  name <- get g "name" (PStr "Unnamed");;
  weight <- get g "group_weight" (PInt 0);;
  position <- get g "position" (PInt 0);;
  rules <- get g "rules" (PDict []);;
  rules_text <-
    ((if truthy rules then
        drop_lowest <- get rules "drop_lowest" (PInt 0);;
        drop_highest <- get rules "drop_highest" (PInt 0);;
        never_drop <- get rules "never_drop" (PList []);;
        never_text <-
          ((if truthy never_drop then
              n <- len never_drop;;
              Ok ("  Never Drop: " ++ pretty n ++ " assignments" ++ nl)
            else Ok "") : result string);;
        Ok ((if truthy drop_lowest
             then "  Drop Lowest: " ++ str drop_lowest ++ nl else "")
            ++ (if truthy drop_highest
                then "  Drop Highest: " ++ str drop_highest ++ nl else "")
            ++ never_text)
      else Ok "") : result string);;
  Ok ("ID: " ++ str gid ++ " | " ++ str name ++ nl
      ++ "  Weight: " ++ str weight ++ "% | Position: " ++ str position ++ nl
      ++ rules_text ++ nl).

Definition get_assignment_groups (course_identifier : pyval) : tool string :=
  course_id <~ await (get_course_id course_identifier);;
  groups <~ await (fetch_all_paginated_results
                     ("/courses/" ++ str course_id ++ "/assignment_groups")
                     (PDict [("per_page", PInt 100)]));;
  if is_error groups then
    err <~ lift (getitem groups "error");;
    Return ("Error fetching assignment groups: " ++ str err)
  else if negb (truthy groups) || negb (is_list groups) then
    Return ("No assignment groups found for course " ++ str course_identifier ++ ".")
  else
    code <~ await (get_course_code course_id);;
    let course_display := or_else code course_identifier in
    items <~ lift (iter groups);;
    blocks <~ lift (for_each group_block items);;
    Return ("Assignment Groups for " ++ str course_display ++ ":" ++ nl ++ nl
            ++ String.concat "" blocks).

(** [rules] of lines 201-207 and 256-262: the key is set only when a drop
    count is given. *)
Definition rules_of (drop_lowest drop_highest : option Z) : list (string * pyval) :=
  let rules := given "drop_lowest" PInt drop_lowest
               +++ given "drop_highest" PInt drop_highest in
  match rules with
  | [] => []
  | _ => [("rules", PDict rules)]
  end.

Definition create_assignment_group (course_identifier : pyval) (name : string)
    (weight : num) (position drop_lowest drop_highest : option Z) : tool string :=
  course_id <~ await (get_course_id course_identifier);;
  let data :=
    PDict ([("name", PStr name); ("group_weight", of_num weight)]
           +++ given "position" PInt position
           +++ rules_of drop_lowest drop_highest) in
  response <~ await (make_canvas_request "post"
                       ("/courses/" ++ str course_id ++ "/assignment_groups")
                       None (Some data) false);;
  if is_error response then
    err <~ lift (getitem response "error");;
    Return ("Error creating assignment group: " ++ str err)
  else
    code <~ await (get_course_code course_id);;
    let course_display := or_else code course_identifier in
    new_id <~ lift (get response "id" PNone);;
    new_name <~ lift (get response "name" (PStr name));;
    new_weight <~ lift (get response "group_weight" (of_num weight));;
    Return ("Assignment group created in course " ++ str course_display ++ ":"
            ++ nl ++ nl
            ++ "ID: " ++ str new_id ++ nl
            ++ "Name: " ++ str new_name ++ nl
            ++ "Weight: " ++ str new_weight ++ "%").

Definition update_assignment_group (course_identifier group_id : pyval)
    (name : option string) (weight : option num)
    (position drop_lowest drop_highest : option Z) : tool string :=
  course_id <~ await (get_course_id course_identifier);;
  let data :=
    given "name" PStr name
    +++ given "group_weight" of_num weight
    +++ given "position" PInt position
    +++ rules_of drop_lowest drop_highest in
  match data with
  | [] => Return "No update parameters provided."
  | _ =>
      response <~ await (make_canvas_request "put"
                           ("/courses/" ++ str course_id ++ "/assignment_groups/"
                            ++ str group_id)
                           None (Some (PDict data)) false);;
      if is_error response then
        err <~ lift (getitem response "error");;
        Return ("Error updating assignment group: " ++ str err)
      else
        code <~ await (get_course_code course_id);;
        let course_display := or_else code course_identifier in
        new_name <~ lift (get response "name" (PStr "Unknown"));;
        Return ("Assignment group '" ++ str new_name ++ "' (ID: " ++ str group_id
                ++ ") updated in course " ++ str course_display ++ ".")
  end.

(** Line 322: [isinstance(existing, dict) and "error" not in existing and
    existing.get("late_policy")], as a truth value. *)
Definition has_late_policy (existing : pyval) : bool :=
  match existing with
  | PDict d =>
      negb (has_key "error" d)
      && truthy (from_option id PNone (assoc "late_policy" d))
  | _ => false
  end.

Definition configure_late_policy (course_identifier : pyval)
    (late_submission_deduction_enabled : bool)
    (late_submission_deduction : num)
    (late_submission_interval : string)
    (late_submission_minimum_percent_enabled : bool)
    (late_submission_minimum_percent : num)
    (missing_submission_deduction_enabled : bool)
    (missing_submission_deduction : num) : tool string :=
  course_id <~ await (get_course_id course_identifier);;
  let policy :=
    PDict [("late_submission_deduction_enabled",
            PBool late_submission_deduction_enabled);
           ("late_submission_deduction", of_num late_submission_deduction);
           ("late_submission_interval", PStr late_submission_interval);
           ("late_submission_minimum_percent",
            of_num late_submission_minimum_percent);
           ("missing_submission_deduction_enabled",
            PBool missing_submission_deduction_enabled);
           ("missing_submission_deduction", of_num missing_submission_deduction);
           ("late_submission_minimum" ++ "_percent_enabled",
            PBool late_submission_minimum_percent_enabled)] in
  let data := PDict [("late_policy", policy)] in
  existing <~ await (make_canvas_request "get"
                       ("/courses/" ++ str course_id ++ "/late_policy")
                       None None false);;
  response <~ await (make_canvas_request
                       (if has_late_policy existing then "put" else "post")
                       ("/courses/" ++ str course_id ++ "/late_policy")
                       None (Some data) false);;
  if is_error response then
    err <~ lift (getitem response "error");;
    Return ("Error configuring late policy: " ++ str err)
  else
    code <~ await (get_course_code course_id);;
    let course_display := or_else code course_identifier in
    Return ("Late policy configured for course " ++ str course_display ++ ":"
            ++ nl ++ nl
            ++ (if late_submission_deduction_enabled
                then "Late deduction: " ++ str (of_num late_submission_deduction)
                     ++ "% per " ++ late_submission_interval ++ nl
                else "Late deduction: Disabled" ++ nl)
            ++ (if late_submission_minimum_percent_enabled
                then "Minimum grade for late: "
                     ++ str (of_num late_submission_minimum_percent) ++ "%" ++ nl
                else "")
            ++ (if missing_submission_deduction_enabled
                then "Missing submission deduction: "
                     ++ str (of_num missing_submission_deduction) ++ "%" ++ nl
                else "Missing submission auto-grade: Disabled" ++ nl)).
End Handlers.
End Gradebook.

(* ===================================================================== *)
(** * tools/quizzes.py *)
(* ===================================================================== *)

Module Quizzes.
Import Py Tool.

Section Handlers.
Context `{Repr}.

Definition create_quiz (course_identifier : pyval) (title quiz_type : string)
    (description due_at unlock_at lock_at : option string)
    (time_limit : option Z) (allowed_attempts : Z) (points_possible : option num)
    (shuffle_answers show_correct_answers one_question_at_a_time published : bool)
  : tool string :=
  course_id <~ await (get_course_id course_identifier);;
  let data :=
    PDict [("quiz",
            PDict ([("title", PStr title);
                    ("quiz_type", PStr quiz_type);
                    ("allowed_attempts", PInt allowed_attempts);
                    ("shuffle_answers", PBool shuffle_answers);
                    ("show_correct_answers", PBool show_correct_answers);
                    ("one_question_at_a_time", PBool one_question_at_a_time);
                    ("published", PBool published)]
                   +++ given_text "description" description
                   +++ given_text "due_at" due_at
                   +++ given_text "unlock_at" unlock_at
                   +++ given_text "lock_at" lock_at
                   +++ given "time_limit" PInt time_limit
                   +++ given "points_possible" of_num points_possible))] in
  response <~ await (make_canvas_request "post"
                       ("/courses/" ++ str course_id ++ "/quizzes")
                       None (Some data) false);;
  if is_error response then
    err <~ lift (getitem response "error");;
    Return ("Error creating quiz: " ++ str err)
  else
    code <~ await (get_course_code course_id);;
    let course_display := or_else code course_identifier in
    new_id <~ lift (get response "id" PNone);;
    new_title <~ lift (get response "title" (PStr title));;
    new_type <~ lift (get response "quiz_type" (PStr quiz_type));;
    is_published <~ lift (get response "published" PNone);;
    Return ("Quiz created successfully in course " ++ str course_display ++ ":"
            ++ nl ++ nl
            ++ "ID: " ++ str new_id ++ nl
            ++ "Title: " ++ str new_title ++ nl
            ++ "Type: " ++ str new_type ++ nl
            ++ "Published: " ++ (if truthy is_published then "Yes" else "No") ++ nl).

(** [quiz_data] of lines 243-269: one key per argument that is not
    [None]. *)
Definition quiz_data_of
    (title description quiz_type due_at unlock_at lock_at : option string)
    (time_limit allowed_attempts : option Z) (points_possible : option num)
    (shuffle_answers show_correct_answers one_question_at_a_time published
       : option bool)
  : list (string * pyval) :=
  given "title" PStr title
  +++ given "description" PStr description
  +++ given "quiz_type" PStr quiz_type
  +++ given "due_at" PStr due_at
  +++ given "unlock_at" PStr unlock_at
  +++ given "lock_at" PStr lock_at
  +++ given "time_limit" PInt time_limit
  +++ given "allowed_attempts" PInt allowed_attempts
  +++ given "points_possible" of_num points_possible
  +++ given "shuffle_answers" PBool shuffle_answers
  +++ given "show_correct_answers" PBool show_correct_answers
  +++ given "one_question_at_a_time" PBool one_question_at_a_time
  +++ given "published" PBool published.

Definition update_quiz (course_identifier quiz_id : pyval)
    (title description quiz_type due_at unlock_at lock_at : option string)
    (time_limit allowed_attempts : option Z) (points_possible : option num)
    (shuffle_answers show_correct_answers one_question_at_a_time published
       : option bool)
  : tool string :=
  course_id <~ await (get_course_id course_identifier);;
  let quiz_data :=
    quiz_data_of title description quiz_type due_at unlock_at lock_at
      time_limit allowed_attempts points_possible shuffle_answers
      show_correct_answers one_question_at_a_time published in
  match quiz_data with
  | [] => Return "No update parameters provided."
  | _ =>
      response <~ await (make_canvas_request "put"
                           ("/courses/" ++ str course_id ++ "/quizzes/"
                            ++ str quiz_id)
                           None (Some (PDict [("quiz", PDict quiz_data)])) false);;
      if is_error response then
        err <~ lift (getitem response "error");;
        Return ("Error updating quiz: " ++ str err)
      else
        code <~ await (get_course_code course_id);;
        let course_display := or_else code course_identifier in
        new_title <~ lift (get response "title" (PStr "Unknown"));;
        Return ("Quiz '" ++ str new_title ++ "' (ID: " ++ str quiz_id
                ++ ") updated successfully in course " ++ str course_display ++ ".")
  end.

Definition delete_quiz (course_identifier quiz_id : pyval) : tool string :=
  course_id <~ await (get_course_id course_identifier);;
  quiz <~ await (make_canvas_request "get"
                   ("/courses/" ++ str course_id ++ "/quizzes/" ++ str quiz_id)
                   None None false);;
  quiz_title <~ lift (if is_dict quiz && negb (is_error quiz)
                      then get quiz "title" (PStr "Unknown")
                      else Ok (PStr "Unknown"));;
  response <~ await (make_canvas_request "delete"
                       ("/courses/" ++ str course_id ++ "/quizzes/" ++ str quiz_id)
                       None None false);;
  if is_error response then
    err <~ lift (getitem response "error");;
    Return ("Error deleting quiz: " ++ str err)
  else
    code <~ await (get_course_code course_id);;
    let course_display := or_else code course_identifier in
    Return ("Quiz '" ++ str quiz_title ++ "' (ID: " ++ str quiz_id
            ++ ") deleted from course " ++ str course_display ++ ".").

Definition publish_quiz (course_identifier quiz_id : pyval) : tool string :=
  course_id <~ await (get_course_id course_identifier);;
  response <~ await (make_canvas_request "put"
                       ("/courses/" ++ str course_id ++ "/quizzes/" ++ str quiz_id)
                       None
                       (Some (PDict [("quiz", PDict [("published", PBool true)])]))
                       false);;
  if is_error response then
    err <~ lift (getitem response "error");;
    Return ("Error publishing quiz: " ++ str err)
  else
    code <~ await (get_course_code course_id);;
    let course_display := or_else code course_identifier in
    new_title <~ lift (get response "title" (PStr "Unknown"));;
    Return ("Quiz '" ++ str new_title ++ "' (ID: " ++ str quiz_id
            ++ ") published in course " ++ str course_display ++ ".").

Definition unpublish_quiz (course_identifier quiz_id : pyval) : tool string :=
  course_id <~ await (get_course_id course_identifier);;
  response <~ await (make_canvas_request "put"
                       ("/courses/" ++ str course_id ++ "/quizzes/" ++ str quiz_id)
                       None
                       (Some (PDict [("quiz", PDict [("published", PBool false)])]))
                       false);;
  if is_error response then
    err <~ lift (getitem response "error");;
    Return ("Error unpublishing quiz: " ++ str err)
  else
    code <~ await (get_course_code course_id);;
    let course_display := or_else code course_identifier in
    new_title <~ lift (get response "title" (PStr "Unknown"));;
    Return ("Quiz '" ++ str new_title ++ "' (ID: " ++ str quiz_id
            ++ ") unpublished in course " ++ str course_display ++ ".").

Definition delete_quiz_question (course_identifier quiz_id question_id : pyval)
  : tool string :=
  course_id <~ await (get_course_id course_identifier);;
  response <~ await (make_canvas_request "delete"
                       ("/courses/" ++ str course_id ++ "/quizzes/" ++ str quiz_id
                        ++ "/questions/" ++ str question_id)
                       None None false);;
  if is_error response then
    err <~ lift (getitem response "error");;
    Return ("Error deleting question: " ++ str err)
  else
    code <~ await (get_course_code course_id);;
    let course_display := or_else code course_identifier in
    Return ("Question " ++ str question_id ++ " deleted from quiz " ++ str quiz_id
            ++ " in course " ++ str course_display ++ ".").

(** [re.sub(r'<[^>]+>', '', text).strip()], cut to [limit] characters and
    an ellipsis when longer (lines 403-406 and 613-615). *)
Definition clean_text (limit : nat) (text : pyval) : result string :=
  s <- sub_tags text;; Ok (shorten limit (strip s)).

(** Lines 414-418: one answer choice, or nothing when it has no text. *)
Definition answer_line (ans : pyval) : result string :=
  html <- get ans "html" (PStr "");;
  ans_text <- get ans "text" html;;
  if truthy ans_text
  then Ok ("     - " ++ strip (strip_tags (str ans_text)) ++ nl)
  else Ok "".

Definition shows_answers (q_type : pyval) : bool :=
  match q_type with
  | PStr s => str_in s ["multiple_choice_question"; "true_false_question";
                        "matching_question"]
  | _ => false
  end.

(** One pass of the loop of lines 395-421; [i] counts from 1. *)
Definition question_block (i : Z) (q : pyval) : result string :=
  q_id <- get q "id" PNone;;
  q_type <- get q "question_type" (PStr "unknown");;
  q_text <- get q "question_text" (PStr "");;
  points <- get q "points_possible" (PInt 0);;
  position <- get q "position" (PInt i);;
  text_clean <- clean_text 200 q_text;;
  answers <- get q "answers" (PList []);;
  choices <-
    ((if truthy answers && shows_answers q_type then
        items <- iter answers;;
        lines <- for_each answer_line items;;
        Ok (String.concat "" lines)
      else Ok "") : result string);;
  Ok ("Q" ++ str position ++ ". [ID: " ++ str q_id ++ "] (" ++ str q_type ++ ", "
      ++ str points ++ " pts)" ++ nl
      ++ "   " ++ text_clean ++ nl
      ++ choices ++ nl).

Fixpoint question_blocks (i : Z) (questions : list pyval) : result string :=
  match questions with
  | [] => Ok ""
  | q :: rest =>
      b <- question_block i q;; bs <- question_blocks (i + 1) rest;; Ok (b ++ bs)
  end.

Definition list_quiz_questions (course_identifier quiz_id : pyval) : tool string :=
  course_id <~ await (get_course_id course_identifier);;
  questions <~ await (fetch_all_paginated_results
                        ("/courses/" ++ str course_id ++ "/quizzes/" ++ str quiz_id
                         ++ "/questions")
                        (PDict [("per_page", PInt 100)]));;
  if is_error questions then
    err <~ lift (getitem questions "error");;
    Return ("Error fetching quiz questions: " ++ str err)
  else if negb (truthy questions) || negb (is_list questions) then
    Return ("No questions found for quiz " ++ str quiz_id ++ ".")
  else
    code <~ await (get_course_code course_id);;
    let course_display := or_else code course_identifier in
    items <~ lift (iter questions);;
    blocks <~ lift (question_blocks 1 items);;
    Return ("Quiz Questions (Quiz ID: " ++ str quiz_id ++ ") in "
            ++ str course_display ++ ":" ++ nl ++ nl ++ blocks).

(** One pass of the loop of lines 610-620. *)
Definition question_analysis (qs : pyval) : result string :=
  q_text <- get qs "question_text" (PStr "");;
  text_clean <- clean_text 100 q_text;;
  correct <- get qs "correct" (PStr "N/A");;
  incorrect <- get qs "incorrect" (PStr "N/A");;
  partially <- get qs "partially_correct" (PStr "N/A");;
  Ok (nl ++ "  Q: " ++ text_clean ++ nl
      ++ "  Correct: " ++ str correct ++ " | "
      ++ "Incorrect: " ++ str incorrect ++ " | "
      ++ "Partially Correct: " ++ str partially ++ nl).

Definition get_quiz_statistics (course_identifier quiz_id : pyval) : tool string :=
  course_id <~ await (get_course_id course_identifier);;
  response <~ await (make_canvas_request "get"
                       ("/courses/" ++ str course_id ++ "/quizzes/" ++ str quiz_id
                        ++ "/statistics")
                       None None false);;
  if is_error response then
    err <~ lift (getitem response "error");;
    Return ("Error fetching quiz statistics: " ++ str err)
  else
    code <~ await (get_course_code course_id);;
    let course_display := or_else code course_identifier in
    stats_list <~ lift (get response "quiz_statistics" (PList []));;
    if negb (truthy stats_list) then
      Return ("No statistics available for quiz " ++ str quiz_id ++ ".")
    else
      stats <~ lift (first_or stats_list (PDict []));;
      submission_stats <~ lift (get stats "submission_statistics" (PDict []));;
      unique_count <~ lift (get submission_stats "unique_count" (PInt 0));;
      score_average <~ lift (get submission_stats "score_average" (PStr "N/A"));;
      score_high <~ lift (get submission_stats "score_high" (PStr "N/A"));;
      score_low <~ lift (get submission_stats "score_low" (PStr "N/A"));;
      score_stdev <~ lift (get submission_stats "score_stdev" (PStr "N/A"));;
      duration_average <~
        lift (get submission_stats "duration_average" (PStr "N/A"));;
      question_stats <~ lift (get stats "question_statistics" (PList []));;
      analysis <~
        (if truthy question_stats then
           items <~ lift (iter question_stats);;
           blocks <~ lift (for_each question_analysis items);;
           Return ("Question Analysis:" ++ nl ++ String.concat "" blocks)
         else Return "");;
      Return ("Quiz Statistics (Quiz ID: " ++ str quiz_id ++ ") in "
              ++ str course_display ++ ":" ++ nl ++ nl
              ++ "Submissions: " ++ str unique_count ++ nl
              ++ "Average Score: " ++ str score_average ++ nl
              ++ "High Score: " ++ str score_high ++ nl
              ++ "Low Score: " ++ str score_low ++ nl
              ++ "Standard Deviation: " ++ str score_stdev ++ nl
              ++ "Duration Average: " ++ str duration_average ++ " sec" ++ nl ++ nl
              ++ analysis).
End Handlers.
End Quizzes.

(** * Message templates (tools/message_templates.py)

    The class holds five tables of templates, each a [subject] and a [body]
    with named replacement fields. *)

Module MessageTemplates.
Import Py Tool.

Definition quote : string := String dquote EmptyString.

(** [{"subject": subject, "body": body}] *)
Definition template_of (subject body : string) : pyval :=
  PDict [("subject", PStr subject); ("body", PStr body)].

Definition PEER_REVIEW_TEMPLATES : list (string * pyval) :=
  [("urgent_no_reviews",
    template_of
      ("URGENT: {assignment_name} Peer Review Deadline Approaching")
      (join nl
        ["Hi {student_name},";
         "";
         "You have not yet completed any of your peer reviews for {assignment_name}.";
         "";
         "You are assigned to review {total_assigned} submissions, and the deadline is approaching.";
         "";
         "Please log into Canvas and complete your peer reviews as soon as possible:";
         "{assignment_url}";
         "";
         "If you have any questions or technical issues, please reach out immediately.";
         "";
         "Best regards,";
         "{instructor_name}"]));
   ("partial_completion",
    template_of
      ("Reminder: Complete Remaining Peer Review for {assignment_name}")
      (join nl
        ["Hi {student_name},";
         "";
         "Great job completing {completed_count} of your peer reviews for {assignment_name}!";
         "";
         "You still have {remaining_count} peer review remaining to complete:";
         "{assignment_url}";
         "";
         "Please complete this by the deadline to receive full participation credit.";
         "";
         "Thanks,";
         "{instructor_name}"]));
   ("general_reminder",
    template_of
      ("Peer Review Reminder: {assignment_name}")
      (join nl
        ["Hi {student_name},";
         "";
         "This is a reminder about the peer reviews for {assignment_name}.";
         "";
         "Please complete your assigned peer reviews by the deadline:";
         "{assignment_url}";
         "";
         "If you have any questions, please don't hesitate to ask.";
         "";
         "Best regards,";
         "{instructor_name}"]))].

Definition ASSIGNMENT_TEMPLATES : list (string * pyval) :=
  [("deadline_approaching",
    template_of
      ("Reminder: {assignment_name} Due {deadline}")
      (join nl
        ["Hi {student_name},";
         "";
         "This is a reminder that {assignment_name} is due {deadline}.";
         "";
         "{assignment_description}";
         "";
         "You can access the assignment here: {assignment_url}";
         "";
         "Please submit your work before the deadline. If you have any questions or need assistance, please reach out.";
         "";
         "Best regards,";
         "{instructor_name}"]));
   ("late_submission",
    template_of
      ("Late Submission Notice: {assignment_name}")
      (join nl
        ["Hi {student_name},";
         "";
         "Our records show that you have not yet submitted {assignment_name}, which was due {deadline}.";
         "";
         "Please submit your work as soon as possible to minimize late penalties:";
         "{assignment_url}";
         "";
         "If you are experiencing technical difficulties or have extenuating circumstances, please contact me immediately.";
         "";
         "Best regards,";
         "{instructor_name}"]))].

Definition DISCUSSION_TEMPLATES : list (string * pyval) :=
  [("participation_reminder",
    template_of
      ("Discussion Participation Reminder: {discussion_title}")
      (join nl
        ["Hi {student_name},";
         "";
         "I noticed you haven't participated in the discussion " ++ quote ++ "{discussion_title}" ++ quote ++ " yet.";
         "";
         "Your participation is important for our class learning community. Please share your thoughts and engage with your classmates' posts:";
         "{discussion_url}";
         "";
         "The discussion closes {deadline}.";
         "";
         "Looking forward to your contributions!";
         "";
         "Best regards,";
         "{instructor_name}"]))].

Definition GRADE_TEMPLATES : list (string * pyval) :=
  [("grade_available",
    template_of
      ("Grade Available: {assignment_name}")
      (join nl
        ["Hi {student_name},";
         "";
         "Your grade for {assignment_name} is now available in Canvas.";
         "";
         "You can view your grade and feedback here: {assignment_url}";
         "";
         "If you have any questions about your grade or the feedback provided, please don't hesitate to reach out.";
         "";
         "Best regards,";
         "{instructor_name}"]))].

Definition GRADING_FEEDBACK_TEMPLATES : list (string * pyval) :=
  [("excellent",
    template_of
      ("Excellent Work on {assignment_name}")
      (join nl
        ["{student_name} - Excellent work on {assignment_name}! Score: {score}/{max_score}.";
         "";
         "{criterion_name}: Outstanding performance. Your work demonstrates thorough understanding and exceptional quality."]));
   ("good",
    template_of
      ("Good Work on {assignment_name}")
      (join nl
        ["{student_name} - Good work on {assignment_name}. Score: {score}/{max_score}.";
         "";
         "{criterion_name}: Solid effort that meets expectations. Minor areas for improvement noted."]));
   ("needs_improvement",
    template_of
      ("Feedback on {assignment_name}")
      (join nl
        ["{student_name} - Score: {score}/{max_score} on {assignment_name}.";
         "";
         "{criterion_name}: This area needs improvement. Please review the rubric criteria and consider revising your approach. Feel free to visit office hours to discuss strategies for strengthening this area."]));
   ("missing",
    template_of
      ("Missing Submission: {assignment_name}")
      (join nl
        ["{student_name} - You have not submitted {assignment_name}. Score: 0/{max_score}.";
         "";
         "Please submit your work as soon as possible. If you are experiencing difficulties, reach out immediately so we can discuss options."]));
   ("late_submission",
    template_of
      ("Late Submission Graded: {assignment_name}")
      (join nl
        ["{student_name} - Your late submission for {assignment_name} has been graded. Score: {score}/{max_score}.";
         "";
         "{criterion_name}: {feedback_comment}";
         "";
         "Note: A late penalty may have been applied per the course late policy."]));
   ("criterion_excellent",
    template_of
      ("")
      ("{criterion_name}: Excellent ({score}/{max_score}). {feedback_comment}"));
   ("criterion_good",
    template_of
      ("")
      ("{criterion_name}: Good ({score}/{max_score}). {feedback_comment}"));
   ("criterion_needs_work",
    template_of
      ("")
      ("{criterion_name}: Needs improvement ({score}/{max_score}). {feedback_comment}"));
   ("criterion_missing",
    template_of
      ("")
      ("{criterion_name}: Not addressed (0/{max_score}). This criterion was not met. Please review the rubric requirements."))].

Definition category_map : list (string * list (string * pyval)) :=
  [("peer_review", PEER_REVIEW_TEMPLATES);
   ("assignment", ASSIGNMENT_TEMPLATES);
   ("discussion", DISCUSSION_TEMPLATES);
   ("grade", GRADE_TEMPLATES);
   ("grading_feedback", GRADING_FEEDBACK_TEMPLATES)].

(** The template, or [None]. *)
Definition get_template (category template_name : string) : pyval :=
  match assoc category category_map with
  | Some ((_ :: _) as category_templates) =>
      from_option id PNone (assoc template_name category_templates)
  | _ => PNone
  end.

Definition list_available_templates : list (string * list string) :=
  map (fun '(category, templates) => (category, map fst templates)) category_map.

Section Formatting.
Context `{Repr}.

(** [text.format] with the keyword arguments [variables], for whatever the template holds. *)
Definition format_text (text : pyval) (variables : list (string * pyval))
  : option (result string) :=
  match text with
  | PStr s => format s variables
  | _ => Some (Raise AttributeError)
  end.

(** Every exception of the [try] block leaves as a [ValueError]. *)
Definition format_template (template : pyval) (variables : list (string * pyval))
  : option (result pyval) :=
  match getitem template "subject" with
  | Raise _ => Some (Raise ValueError)
  | Ok subject =>
      match format_text subject variables with
      | None => None
      | Some (Raise _) => Some (Raise ValueError)
      | Some (Ok formatted_subject) =>
          match getitem template "body" with
          | Raise _ => Some (Raise ValueError)
          | Ok body =>
              match format_text body variables with
              | None => None
              | Some (Raise _) => Some (Raise ValueError)
              | Some (Ok formatted_body) =>
                  Some (Ok (PDict [("subject", PStr formatted_subject);
                                   ("body", PStr formatted_body)]))
              end
          end
      end
  end.

Definition get_formatted_template (category template_name : string)
    (variables : list (string * pyval)) : option (result pyval) :=
  let template := get_template category template_name in
  if negb (truthy template) then Some (Ok PNone)
  else format_template template variables.
End Formatting.

Section Feedback.
Context `{Repr}.

(** The overall level of a score; the two thresholds are the doubles that
    [0.9] and [0.7] denote. *)
Definition overall_level_of (total_score max_total : num) : result string :=
  ratio <- (if num_ltb (NInt 0) max_total
            then q <- truediv total_score max_total;; Ok (NFloat q)
            else Ok (NInt 0));;
  Ok (if num_leb (NFloat 0x1.ccccccccccccdp-1) ratio then "excellent"
      else if num_leb (NFloat 0x1.6666666666666p-1) ratio then "good"
      else if num_eqb total_score (NInt 0) then "missing"
      else "needs_improvement").

(** [GRADING_FEEDBACK_TEMPLATES.get(key, {}).get("body", default)] *)
Definition body_or (key default : string) : result pyval :=
  get (from_option id (PDict []) (assoc key GRADING_FEEDBACK_TEMPLATES))
      "body" (PStr default).

(** [body.format(...).strip()] *)
Definition format_stripped (body : pyval) (kwargs : list (string * pyval))
  : option (result string) :=
  match format_text body kwargs with
  | Some (Ok s) => Some (Ok (strip s))
  | other => other
  end.

(** One line of criterion-level feedback. *)
Definition criterion_line (cf : pyval) : option (result string) :=
  match (level <- get cf "level" (PStr "good");;
         body <- body_or ("criterion_" ++ str level)
                   "{criterion_name}: {score}/{max_score}";;
         criterion_name <- get cf "criterion_name" (PStr "Criterion");;
         score <- get cf "score" (PInt 0);;
         max_score <- get cf "max_score" (PInt 0);;
         comment <- get cf "comment" (PStr "");;
         Ok (body, [("criterion_name", criterion_name); ("score", score);
                    ("max_score", max_score); ("feedback_comment", comment)])) with
  | Raise e => Some (Raise e)
  | Ok (body, kwargs) => format_stripped body kwargs
  end.

(** The lines of the criteria, up to the first one that fails. *)
Fixpoint criterion_lines (cfs : list pyval) : option (result (list string)) :=
  match cfs with
  | [] => Some (Ok [])
  | cf :: rest =>
      match criterion_line cf with
      | None => None
      | Some (Raise e) => Some (Raise e)
      | Some (Ok formatted) =>
          match criterion_lines rest with
          | Some (Ok parts) => Some (Ok (formatted :: parts))
          | other => other
          end
      end
  end.

Definition compose_grading_feedback (student_name assignment_name : string)
    (total_score max_total : num) (criterion_feedbacks : pyval)
  : option (result string) :=
  match (overall_level <- overall_level_of total_score max_total;;
         body_or overall_level "Score: {score}/{max_score}") with
  | Raise e => Some (Raise e)
  | Ok body =>
      match format_stripped body
              [("student_name", PStr student_name);
               ("assignment_name", PStr assignment_name);
               ("score", of_num total_score);
               ("max_score", of_num max_total);
               ("criterion_name", PStr "Overall");
               ("feedback_comment", PStr "")] with
      | Some (Ok header) =>
          if negb (truthy criterion_feedbacks) then Some (Ok header)
          else
            match iter criterion_feedbacks with
            | Raise e => Some (Raise e)
            | Ok cfs =>
                match criterion_lines cfs with
                | Some (Ok parts) => Some (Ok (join nl (header :: "" :: parts)))
                | Some (Raise e) => Some (Raise e)
                | None => None
                end
            end
      | other => other
      end
  end.
End Feedback.

(** [re.findall] on whatever the template holds. *)
Definition findall_in (content : pyval) : result (list string) :=
  match content with
  | PStr s => Ok (findall_fields s)
  | _ => Raise TypeError
  end.

Definition get_template_variables (category template_name : string)
  : result (list string) :=
  let template := get_template category template_name in
  if negb (truthy template) then Ok []
  else
    subject <- getitem template "subject";;
    body <- getitem template "body";;
    in_subject <- findall_in subject;;
    in_body <- findall_in body;;
    Ok (sorted_set (in_subject +++ in_body)).

(** Every template of the class. *)
Definition templates : list pyval :=
  concat (map (fun category => map snd (snd category)) category_map).

(** The field names of the subject and of the body of a template whose two
    texts are plain format strings. *)
Definition template_fields (template : pyval) : option (list string * list string) :=
  match getitem template "subject", getitem template "body" with
  | Ok (PStr subject), Ok (PStr body) =>
      match fields subject, fields body with
      | Some in_subject, Some in_body => Some (in_subject, in_body)
      | _, _ => None
      end
  | _, _ => None
  end.

Definition well_formed (template : pyval) : bool :=
  truthy template
  && match template_fields template with Some _ => true | None => false end.

(** [kwargs] holds the keyword arguments other than the four named ones. *)
Definition create_default_variables
    (student_name assignment_name instructor_name course_name : string)
    (kwargs : list (string * pyval)) : list (string * pyval) :=
  fold_left (fun variables '(k, v) => dict_set k v variables) kwargs
    [("student_name", PStr student_name);
     ("assignment_name", PStr assignment_name);
     ("instructor_name", PStr instructor_name);
     ("course_name", PStr course_name);
     ("assignment_url", PStr "");
     ("discussion_url", PStr "");
     ("deadline", PStr "");
     ("total_assigned", PStr "2");
     ("completed_count", PStr "0");
     ("remaining_count", PStr "2");
     ("assignment_description", PStr "")].

(** The names [create_default_variables] always provides. *)
Definition default_names : list string :=
  map fst (create_default_variables "Student" "Assignment" "Instructor" "Course" []).

(** A template all of whose fields are among the default names, and one
    with a field that is not. *)
Definition covered_by_defaults (t : pyval) : bool :=
  match template_fields t with
  | Some (fs, fb) => forallb (fun x => str_in x default_names) (fs +++ fb)
  | None => false
  end.

Definition beyond_defaults (t : pyval) : bool :=
  match template_fields t with
  | Some (fs, fb) => existsb (fun x => negb (str_in x default_names)) (fs +++ fb)
  | None => false
  end.
End MessageTemplates.

(* ===================================================================== *)
(** * Properties *)
(* ===================================================================== *)

Import Py Tool.

(** ** Running handlers *)

Section RunFacts.
Context {A B : Type}.

Lemma run_from_bind (w : env) (h : list call) (m : tool A) (f : A -> tool B) :
  run_from w h (Tool.bind m f) =
  match run_from w h m with
  | (Ok a, h') => run_from w h' (f a)
  | (Raise e, h') => (Raise e, h')
  end.
Proof.
  revert h. induction m as [a | e | c k IH]; intros h; simpl; auto.
Qed.

Lemma run_from_lift (w : env) (h : list call) (r : result A) :
  run_from w h (lift r) = (r, h).
Proof. destruct r; reflexivity. Qed.

Lemma run_await_bind (w : env) (h : list call) (c : call) (f : pyval -> tool B) :
  run_from w h (Tool.bind (await c) f) = run_from w (h +++ [c]) (f (w h c)).
Proof. reflexivity. Qed.

Lemma run_lift_bind (w : env) (h : list call) (r : result A) (f : A -> tool B) :
  run_from w h (Tool.bind (lift r) f) =
  match r with
  | Ok a => run_from w h (f a)
  | Raise e => (Raise e, h)
  end.
Proof. destruct r; reflexivity. Qed.

Lemma run_return_bind (w : env) (h : list call) (a : A) (f : A -> tool B) :
  run_from w h (Tool.bind (Return a) f) = run_from w h (f a).
Proof. reflexivity. Qed.
End RunFacts.

(** One awaited call of a run against a mocked world. *)
Ltac run_await := rewrite run_await_bind; simpl (mock_env _ _ _).

Lemma append_assoc (a b c : string) : (a ++ b) ++ c = a ++ (b ++ c).
Proof.
  induction a as [| x a IH]; [reflexivity |].
  change (String x ((a ++ b) ++ c) = String x (a ++ (b ++ c))).
  f_equal. exact IH.
Qed.

(** Two texts are the same once their literal parts are computed and the
    concatenations are nested the same way. *)
Ltac same_text :=
  cbv -[Py.str String.append or_else float_repr];
  repeat rewrite append_assoc;
  cbv [String.append];
  reflexivity.

Section MeetsFacts.
Context {A : Type}.
Implicit Types (P : call -> Prop) (E : exn -> Prop).

Lemma meets_bind {B : Type} P (Q : B -> Prop) E (m : tool A) (f : A -> tool B) :
  meets P (fun a => meets P Q E (f a)) E m -> meets P Q E (Tool.bind m f).
Proof.
  induction 1 as [a Ha | e He | c k Hc _ IH]; simpl.
  - exact Ha.
  - constructor. exact He.
  - constructor; [exact Hc | exact IH].
Qed.

Lemma meets_await_bind {B : Type} P (Q : B -> Prop) E (c : call)
    (f : pyval -> tool B) :
  P c -> (forall v, meets P Q E (f v)) -> meets P Q E (Tool.bind (await c) f).
Proof. intros Hc Hf. simpl. constructor; assumption. Qed.

Lemma meets_lift P (Q : A -> Prop) E (r : result A) :
  match r with Ok a => Q a | Raise e => E e end -> meets P Q E (lift r).
Proof. destruct r; simpl; intros Hr; constructor; exact Hr. Qed.

Lemma meets_lift_bind {B : Type} P (Q : B -> Prop) E (r : result A)
    (f : A -> tool B) :
  match r with Ok a => meets P Q E (f a) | Raise e => E e end ->
  meets P Q E (Tool.bind (lift r) f).
Proof. destruct r; simpl; intros Hr; [exact Hr | constructor; exact Hr]. Qed.

Lemma meets_weaken P P' (Q Q' : A -> Prop) E E' (p : tool A) :
  (forall c, P c -> P' c) -> (forall a, Q a -> Q' a) -> (forall e, E e -> E' e) ->
  meets P Q E p -> meets P' Q' E' p.
Proof.
  intros HP HQ HE. induction 1; constructor; auto.
Qed.

(** A specification holds of every run. *)
Lemma meets_run_from P (Q : A -> Prop) E (p : tool A) (w : env) (h : list call) :
  meets P Q E p ->
  exists t, snd (run_from w h p) = h +++ t /\ Forall P t /\
            match fst (run_from w h p) with
            | Ok a => Q a
            | Raise e => E e
            end.
Proof.
  intros Hp. revert h. induction Hp as [a Ha | e He | c k Hc _ IH]; intros h.
  - exists []. simpl. rewrite app_nil_r. auto.
  - exists []. simpl. rewrite app_nil_r. auto.
  - destruct (IH (w h c) (h +++ [c])) as (t & Ht & HP & Ho).
    exists (c :: t). simpl. rewrite Ht, <- app_assoc. auto.
Qed.

Lemma meets_run P (Q : A -> Prop) E (p : tool A) (w : env) :
  meets P Q E p ->
  Forall P (trace w p) /\
  match outcome w p with
  | Ok a => Q a
  | Raise e => E e
  end.
Proof.
  intros Hp. destruct (meets_run_from P Q E p w [] Hp) as (t & Ht & HP & Ho).
  unfold trace, outcome, run. rewrite Ht. simpl. auto.
Qed.
End MeetsFacts.

(** One step through the structure of a handler, for [meets] goals. *)
Ltac meets_step :=
  lazymatch goal with
  | |- meets _ _ _ (Tool.bind (await _) _) =>
      apply meets_await_bind; [| intros ?]
  | |- meets _ _ _ (Tool.bind (lift ?r) _) =>
      apply meets_lift_bind; destruct r eqn:?
  | |- meets _ _ _ (Tool.bind (match ?x with _ => _ end) _) =>
      destruct x eqn:?
  | |- meets _ _ _ (Tool.bind (Return _) _) =>
      apply meets_bind; apply meets_return
  | |- meets _ _ _ (if true then _ else _) =>
      cbv iota
  | |- meets _ _ _ (if ?b then _ else _) =>
      destruct b eqn:?
  | |- meets _ _ _ (match ?x with _ => _ end) =>
      destruct x eqn:?
  | |- meets _ _ _ (Return _) =>
      apply meets_return
  | |- meets _ _ _ (lift ?r) =>
      apply meets_lift; destruct r eqn:?
  end.

(** ** Validation of enumerated parameters (analytics.py, enrollment.py) *)

Section Validation.
Context `{Repr}.

(** [enroll_user] validates both enumerations before it touches the core:
    a rejected invocation makes no call at all. *)
Lemma enroll_user_rejects_type (w : env) (course_identifier user_id : pyval)
    (enrollment_type enrollment_state : string) (notify : bool) :
  str_in enrollment_type Enrollment.valid_types = false ->
  run w (Enrollment.enroll_user course_identifier user_id enrollment_type
           enrollment_state notify)
  = (Ok ("Invalid enrollment_type '" ++ enrollment_type
         ++ "'. Must be one of: StudentEnrollment, TeacherEnrollment, "
         ++ "TaEnrollment, ObserverEnrollment, DesignerEnrollment"), []).
Proof.
  intros Hbad. unfold Enrollment.enroll_user. rewrite Hbad. reflexivity.
Qed.

Lemma enroll_user_rejects_state (w : env) (course_identifier user_id : pyval)
    (enrollment_type enrollment_state : string) (notify : bool) :
  str_in enrollment_type Enrollment.valid_types = true ->
  str_in enrollment_state Enrollment.valid_states = false ->
  run w (Enrollment.enroll_user course_identifier user_id enrollment_type
           enrollment_state notify)
  = (Ok ("Invalid enrollment_state '" ++ enrollment_state
         ++ "'. Must be one of: active, invited, creation_pending, inactive"),
     []).
Proof.
  intros Hok Hbad. unfold Enrollment.enroll_user. rewrite Hok, Hbad. reflexivity.
Qed.

(** The two analytics handlers resolve the course first (line 35, line 635)
    and validate afterwards: a rejected invocation has made exactly one
    call, to [get_course_id], and none to the gateway functions. *)
Lemma sort_by_rejected (w : env) (course_identifier : pyval) (sort_by : string) :
  str_in sort_by Analytics.valid_sort_options = false ->
  run w (Analytics.get_course_student_summaries course_identifier sort_by)
  = (Ok ("Error: Invalid sort_by option '" ++ sort_by
         ++ "'. Valid options: name, name_descending, score, score_descending, "
         ++ "participations, participations_descending, page_views, "
         ++ "page_views_descending"),
     [get_course_id course_identifier]).
Proof.
  intros Hbad. unfold Analytics.get_course_student_summaries, run.
  rewrite run_from_bind. cbn [run_from await]. rewrite Hbad. reflexivity.
Qed.

Lemma report_type_rejected (w : env) (course_identifier : pyval)
    (report_type : string) :
  str_in report_type Analytics.valid_report_types = false ->
  run w (Analytics.start_course_report course_identifier report_type)
  = (Ok ("Error: Invalid report type '" ++ report_type
         ++ "'. Valid options: grade_export_csv, "
         ++ "student_assignment_outcome_map_csv, provisioning_csv"),
     [get_course_id course_identifier]).
Proof.
  intros Hbad. unfold Analytics.start_course_report, run.
  rewrite run_from_bind. cbn [run_from await]. rewrite Hbad. reflexivity.
Qed.

(** No rejected invocation reaches [make_canvas_request] or
    [fetch_all_paginated_results]. *)
Lemma rejected_without_gateway_call (w : env) (course_identifier : pyval)
    (sort_by report_type : string) :
  str_in sort_by Analytics.valid_sort_options = false ->
  str_in report_type Analytics.valid_report_types = false ->
  forallb (fun c => negb (is_gateway_call c))
    (trace w (Analytics.get_course_student_summaries course_identifier sort_by))
  = true /\
  forallb (fun c => negb (is_gateway_call c))
    (trace w (Analytics.start_course_report course_identifier report_type))
  = true.
Proof.
  intros Hs Hr. unfold trace.
  rewrite (sort_by_rejected w _ _ Hs), (report_type_rejected w _ _ Hr).
  split; reflexivity.
Qed.

(** Resolving a course code that is not cached costs one round trip,
    whatever the upstream answers. *)
Lemma resolve_miss_is_network_backed (search_request : string -> Core.request)
    (code_field id_field : string) (srv : Core.server) (code : string) :
  Core.is_numeric (PStr code) = false ->
  snd (Core.resolve search_request code_field id_field srv ∅ (PStr code))
  = [search_request code].
Proof.
  intros Hcode. unfold Core.resolve. rewrite Hcode, lookup_empty.
  unfold Core.make_request.
  destruct (Core.result_of (srv (search_request code))) as [payload | msg];
    [destruct (Core.find_course code_field id_field code (Core.page_items payload)) |];
    reflexivity.
Qed.

(** C1, at the input [get_course_student_summaries("CS101", sort_by="bogus")]
    with an empty identifier cache. The handler answers with the error that
    enumerates the valid options, but only after it has asked
    [get_course_id] to resolve ["CS101"]; and that resolution, on a cache
    miss, issues one gateway request. The claim's "zero network-backed
    course-id resolutions" fails here, while [enroll_user] (see
    [enroll_user_rejects_type]) does reject before any call. *)
Theorem C1_sort_by_rejected_after_resolution
    (w : env) (search_request : string -> Core.request)
    (code_field id_field : string) (srv : Core.server) :
  run w (Analytics.get_course_student_summaries (PStr "CS101") "bogus")
  = (Ok ("Error: Invalid sort_by option 'bogus'. Valid options: name, "
         ++ "name_descending, score, score_descending, participations, "
         ++ "participations_descending, page_views, page_views_descending"),
     [get_course_id (PStr "CS101")])
  /\
  snd (Core.resolve search_request code_field id_field srv ∅ (PStr "CS101"))
  = [search_request "CS101"].
Proof.
  split.
  - apply sort_by_rejected. reflexivity.
  - apply resolve_miss_is_network_backed. reflexivity.
Qed.
End Validation.

(** ** Payloads that are not dictionaries (discussion_analytics.py) *)

Section NonDictPayloads.
Context `{Repr}.

(** The guard of line 60 lets every payload without an ["error"] key
    through, and a list has no [get]. *)
Lemma list_has_no_title (l : list pyval) :
  is_error (PList l) = false /\
  get (PList l) "title" (PStr "Unknown Topic") = Raise AttributeError.
Proof. split; reflexivity. Qed.

(** C2, at an input where the request for the topic details answers with
    a JSON array: [get_discussion_participation_summary] does not return a
    string, the [AttributeError] of line 61 escapes the handler. *)
Theorem C2_list_topic_response_escapes
    (course_id code students entries : pyval) (l rest : list pyval)
    (course_identifier topic_id : pyval) :
  is_error students = false ->
  is_error entries = false ->
  outcome
    (mock_env {| on_get_course_id := course_id;
                 on_get_course_code := code;
                 on_fetch := [students; entries];
                 on_request := PList l :: rest |})
    (DiscussionAnalytics.get_discussion_participation_summary
       course_identifier topic_id)
  = Raise AttributeError.
Proof.
  intros Hstudents Hentries.
  unfold DiscussionAnalytics.get_discussion_participation_summary, outcome, run.
  run_await. run_await. rewrite Hstudents.
  run_await. rewrite Hentries.
  run_await. rewrite run_lift_bind. reflexivity.
Qed.

End NonDictPayloads.

Lemma C2_list_topic_response_escapes_witness :
  outcome
    (mock_env {| on_get_course_id := PInt 7;
                 on_get_course_code := PNone;
                 on_fetch := [PList []; PList []];
                 on_request := [PList []] |})
    (DiscussionAnalytics.get_discussion_participation_summary
       (H := example_repr) (PInt 7) (PInt 9))
  = Raise AttributeError.
Proof.
  apply (C2_list_topic_response_escapes (H := example_repr)
           (PInt 7) PNone (PList []) (PList []) [] [] (PInt 7) (PInt 9));
    reflexivity.
Defined.

(** ** The participation map (discussion_analytics.py) *)

Section Participation.
Context `{Repr}.
Import DiscussionAnalytics.

Lemma counts_of_insert (uid uid' : string) (c : counts) (p : gmap string counts) :
  counts_of (<[uid' := c]> p) uid = if decide (uid' = uid) then c else counts_of p uid.
Proof.
  unfold counts_of. rewrite lookup_insert. destruct (decide (uid' = uid)); reflexivity.
Qed.

(** The view pass leaves a user's counts alone when the user already has a
    reply counted, or wrote none of the replies the view lists. *)
Lemma add_view_reply_counts (uid uid' : string) (p : gmap string counts) :
  replies (counts_of p uid) <> 0 \/ uid' <> uid ->
  counts_of (add_view_reply uid' p) uid = counts_of p uid.
Proof.
  intros Hcase. unfold add_view_reply.
  destruct (replies (counts_of p uid') =? 0) eqn:Hzero;
    rewrite counts_of_insert; destruct (decide (uid' = uid)) as [-> | Hne]; auto.
  apply Z.eqb_eq in Hzero. destruct Hcase as [Hactive | Hne]; congruence.
Qed.

Lemma view_replies_counts (uid : string) (rs : list pyval) (p : gmap string counts) :
  replies (counts_of p uid) <> 0 \/ existsb (authored_by uid) rs = false ->
  counts_of (fst (view_replies rs p)) uid = counts_of p uid.
Proof.
  revert p. induction rs as [| reply rest IH]; intros p Hcase; simpl; [reflexivity |].
  assert (Hrest : forall p', counts_of p' uid = counts_of p uid ->
            replies (counts_of p' uid) <> 0 \/ existsb (authored_by uid) rest = false).
  { intros p' Hp'. rewrite Hp'. destruct Hcase as [Hactive | Hquiet]; [auto |].
    simpl in Hquiet. apply orb_false_elim in Hquiet. tauto. }
  destruct (get reply "user_id" (PStr "")) as [u | e] eqn:Hget; [| reflexivity].
  destruct (String.eqb (str u) "") eqn:Hempty.
  - apply IH, Hrest. reflexivity.
  - assert (Hstep : counts_of (add_view_reply (str u) p) uid = counts_of p uid).
    { apply add_view_reply_counts. destruct Hcase as [Hactive | Hquiet]; [auto |].
      right. simpl in Hquiet. apply orb_false_elim in Hquiet.
      destruct Hquiet as [Hreply _]. unfold authored_by in Hreply.
      rewrite Hget in Hreply. apply String.eqb_neq. exact Hreply. }
    rewrite IH; [exact Hstep | apply Hrest, Hstep].
Qed.

Lemma view_entries_counts (uid : string) (view : list pyval) (p : gmap string counts) :
  replies (counts_of p uid) <> 0 \/
  existsb (fun e => existsb (authored_by uid) (items_under "replies" e)) view = false ->
  counts_of (fst (view_entries view p)) uid = counts_of p uid.
Proof.
  revert p. induction view as [| view_entry rest IH]; intros p Hcase; simpl;
    [reflexivity |].
  destruct (rs <- get view_entry "replies" (PList []);; iter rs) as [rs | e] eqn:Hrs;
    [| reflexivity].
  assert (Hstep : counts_of (fst (view_replies rs p)) uid = counts_of p uid).
  { apply view_replies_counts. destruct Hcase as [Hactive | Hquiet]; [auto |].
    right. simpl in Hquiet. apply orb_false_elim in Hquiet.
    destruct Hquiet as [Hentry _]. unfold items_under in Hentry.
    rewrite Hrs in Hentry. exact Hentry. }
  destruct (view_replies rs p) as [p' [e |]]; simpl in *; [exact Hstep |].
  rewrite IH; [exact Hstep |].
  rewrite Hstep. destruct Hcase as [Hactive | Hquiet]; [auto |].
  right. simpl in Hquiet. apply orb_false_elim in Hquiet. tauto.
Qed.

Lemma view_pass_counts (uid : string) (view_response : pyval)
    (p : gmap string counts) :
  replies (counts_of p uid) <> 0 \/ view_mentions uid view_response = false ->
  counts_of (fst (view_pass view_response p)) uid = counts_of p uid.
Proof.
  intros Hcase. unfold view_pass.
  destruct (negb (is_error view_response)); [| reflexivity].
  destruct (v <- get view_response "view" (PList []);; iter v) as [view | e] eqn:Hview;
    [| reflexivity].
  apply view_entries_counts. destruct Hcase as [Hactive | Hquiet]; [auto |].
  right. unfold view_mentions, items_under in Hquiet. rewrite Hview in Hquiet.
  exact Hquiet.
Qed.
End Participation.

(** ** The two-student scenario (discussion_analytics.py) *)

Section Scenario.
Context `{Repr}.
Import DiscussionAnalytics.

(** The entries [[{"user_id": 1, "recent_replies": [{"user_id": 1}]}]] give
    user 1 one post and one reply. *)
Lemma scenario_entries :
  count_entries
    [PDict [("user_id", PInt 1);
            ("recent_replies", PList [PDict [("user_id", PInt 1)]])]] ∅
  = Ok {["1" := {| posts := 1; replies := 1 |}]}.
Proof. reflexivity. Qed.

Lemma scenario_student_map (name1 name2 : pyval) :
  build_student_map
    [PDict [("id", PInt 1); ("name", name1)];
     PDict [("id", PInt 2); ("name", name2)]] []
  = Ok [("1", name1); ("2", name2)].
Proof. reflexivity. Qed.

(** C3. Entries [[{"user_id":1,"recent_replies":[{"user_id":1}]}]] against
    the enrolled students 1 and 2: the report lists student 1 under "Full
    Participants" (one post, one reply), student 2 under "Silent Students",
    and the silent-id list is ["2"]. The topic request may answer anything
    that yields a title, and the view request anything that lists no reply
    by user 2. *)
Theorem C3_two_student_scenario
    (course_id code topic_response view_response title name1 name2 : pyval)
    (course_identifier topic_id : pyval) :
  topic_title_of topic_response = Ok title ->
  view_mentions "2" view_response = false ->
  outcome
    (mock_env
       {| on_get_course_id := course_id;
          on_get_course_code := code;
          on_fetch :=
            [PList [PDict [("id", PInt 1); ("name", name1)];
                    PDict [("id", PInt 2); ("name", name2)]];
             PList [PDict [("user_id", PInt 1);
                           ("recent_replies", PList [PDict [("user_id", PInt 1)]])]]];
          on_request := [topic_response; view_response] |})
    (get_discussion_participation_summary course_identifier topic_id)
  = Ok ("Discussion Participation Summary" ++ nl
        ++ "Course: " ++ str (or_else code course_identifier) ++ nl
        ++ "Discussion: " ++ str title ++ " (ID: " ++ str topic_id ++ ")" ++ nl
        ++ nl
        ++ "Overview: 1/2 students participated (50%)" ++ nl
        ++ "  Full participation (post + reply): 1" ++ nl
        ++ "  Posted only: 0" ++ nl
        ++ "  Replied only: 0" ++ nl
        ++ "  Silent (no participation): 1" ++ nl
        ++ nl
        ++ "Full Participants:" ++ nl
        ++ "  - " ++ str name1 ++ " (ID: 1) - 1 posts, 1 replies" ++ nl
        ++ nl
        ++ "Silent Students (no participation):" ++ nl
        ++ "  - " ++ str name2 ++ " (ID: 2)" ++ nl
        ++ nl
        ++ "Silent student IDs (for bulk messaging): 2" ++ nl).
Proof.
  intros Htitle Hquiet.
  unfold get_discussion_participation_summary, outcome, run.
  run_await. run_await. cbn [is_error].
  run_await. cbn [is_error].
  run_await. rewrite run_lift_bind, Htitle.
  rewrite run_lift_bind. cbn [list_or_empty]. rewrite scenario_entries.
  run_await.
  pose proof (view_pass_counts "1" view_response
                {["1" := {| posts := 1; replies := 1 |}]}) as Hone.
  pose proof (view_pass_counts "2" view_response
                {["1" := {| posts := 1; replies := 1 |}]}) as Htwo.
  destruct (view_pass view_response {["1" := {| posts := 1; replies := 1 |}]})
    as [participation failure].
  simpl fst in Hone, Htwo.
  assert (Hc1 : counts_of participation "1" = {| posts := 1; replies := 1 |}).
  { rewrite Hone; [reflexivity | left; vm_compute; discriminate]. }
  assert (Hc2 : counts_of participation "2" = no_counts).
  { rewrite Htwo; [reflexivity | right; exact Hquiet]. }
  assert (Hcats : categorize [("1", name1); ("2", name2)] participation
                  = {| full_participants := [("1", name1, {| posts := 1; replies := 1 |})];
                       posters_only := [];
                       repliers_only := [];
                       silent := [("2", name2)] |}).
  { unfold categorize. cbn [fold_left categorize_student].
    rewrite Hc1. cbn. rewrite Hc2. reflexivity. }
  destruct failure as [e |]; [run_await | rewrite run_return_bind];
    rewrite run_lift_bind; cbn [list_or_empty]; rewrite scenario_student_map;
    run_await; rewrite run_from_lift, Hcats; same_text.
Qed.
End Scenario.

Lemma C3_two_student_scenario_witness :
  exists report : string,
    outcome
      (mock_env
         {| on_get_course_id := PStr "12345";
            on_get_course_code := PStr "CS101";
            on_fetch :=
              [PList [PDict [("id", PInt 1); ("name", PStr "Alice")];
                      PDict [("id", PInt 2); ("name", PStr "Bob")]];
               PList [PDict [("user_id", PInt 1);
                             ("recent_replies", PList [PDict [("user_id", PInt 1)]])]]];
            on_request := [PDict [("title", PStr "Week 1")];
                           PDict [("view", PList [PDict [("replies",
                                     PList [PDict [("user_id", PInt 1)]])]])]] |})
      (DiscussionAnalytics.get_discussion_participation_summary
         (H := example_repr) (PStr "12345") (PStr "444"))
    = Ok report.
Proof.
  eexists.
  apply (C3_two_student_scenario (H := example_repr)
           (PStr "12345") (PStr "CS101") (PDict [("title", PStr "Week 1")])
           (PDict [("view", PList [PDict [("replies",
                      PList [PDict [("user_id", PInt 1)]])]])])
           (PStr "Week 1") (PStr "Alice") (PStr "Bob") (PStr "12345") (PStr "444"));
    reflexivity.
Defined.

(** ** The four categories partition the student map (discussion_analytics.py) *)

Section Partition.
Context `{Repr}.
Import DiscussionAnalytics.

Lemma dict_set_keys {A : Type} (k : string) (v : A) (d : list (string * A)) :
  map fst (dict_set k v d) = if has_key k d then map fst d else map fst d +++ [k].
Proof.
  unfold has_key. induction d as [| [k' v'] d IH]; simpl; [reflexivity |].
  destruct (String.eqb k k') eqn:Hk.
  - apply String.eqb_eq in Hk. subst k'. reflexivity.
  - simpl. rewrite IH. destruct (assoc k d); reflexivity.
Qed.

Lemma has_key_in {A : Type} (k : string) (d : list (string * A)) :
  has_key k d = false -> ~ In k (map fst d).
Proof.
  unfold has_key. induction d as [| [k' v'] d IH]; simpl; [tauto |].
  destruct (String.eqb k k') eqn:Hk; [discriminate |].
  apply String.eqb_neq in Hk. intros Hnone [Heq | Hin]; [congruence | tauto].
Qed.

(** A dictionary never holds a key twice. *)
Lemma dict_set_NoDup {A : Type} (k : string) (v : A) (d : list (string * A)) :
  List.NoDup (map fst d) -> List.NoDup (map fst (dict_set k v d)).
Proof.
  intros Hd. rewrite dict_set_keys. destruct (has_key k d) eqn:Hk; [exact Hd |].
  apply has_key_in in Hk.
  apply List.NoDup_app. repeat split.
  - exact Hd.
  - constructor; [simpl; tauto | constructor].
  - intros x Hx [<- | []]. tauto.
Qed.






Lemma has_key_In {A : Type} (k : string) (d : list (string * A)) :
  has_key k d = true -> In k (map fst d).
Proof.
  unfold has_key. induction d as [| [k' v'] d IH]; simpl; [discriminate |].
  destruct (String.eqb_spec k k') as [-> | _]; [now left | auto].
Qed.

Lemma dict_set_key_In {A : Type} (k : string) (v : A) (d : list (string * A)) :
  In k (map fst (dict_set k v d)).
Proof.
  rewrite dict_set_keys. destruct (has_key k d) eqn:Hk.
  - now apply has_key_In.
  - apply in_or_app. right. now left.
Qed.

Lemma dict_set_keys_kept {A : Type} (k k' : string) (v : A) (d : list (string * A)) :
  In k' (map fst d) -> In k' (map fst (dict_set k v d)).
Proof.
  rewrite dict_set_keys. destruct (has_key k d); [auto |].
  intros Hin. apply in_or_app. now left.
Qed.




End Partition.


(** ** Dry runs (discussion_analytics.py) *)

Section DryRun.
Context `{Repr}.
Context {sorting : Sorted}.
Import DiscussionAnalytics.

(** C8. With [dry_run=True], whatever the world answers: every call the
    handler makes leaves upstream state alone (no [make_canvas_request] with
    a method other than "get", in particular no "put" on a submission), and
    a returned string is either one of the three "Error fetching" returns or
    a report that begins with "DRY RUN - ". *)
Theorem C8_dry_run_submits_nothing
    (w : env) (course_identifier topic_id assignment_id : pyval)
    (points_for_post points_for_reply : float) (max_points : option float) :
  let handler := grade_discussion_participation course_identifier topic_id
                   assignment_id points_for_post points_for_reply max_points true in
  Forall (fun c => is_mutating c = false) (trace w handler)
  /\ forall report : string,
       outcome w handler = Ok report ->
       grading_fetch_error report \/ String.prefix "DRY RUN - " report = true.
Proof.
  intros handler.
  assert (Hmeets : meets (fun c => is_mutating c = false)
            (fun r => grading_fetch_error r \/ String.prefix "DRY RUN - " r = true)
            (fun _ => True) handler).
  { unfold handler, grade_discussion_participation.
    repeat (meets_step; trivial).
    - left. eexists. left. reflexivity.
    - left. eexists. right. left. reflexivity.
    - left. eexists. right. right. reflexivity.
    - right. reflexivity. }
  destruct (meets_run _ _ _ _ w Hmeets) as [Htrace Hout].
  split; [exact Htrace |].
  intros report Hrun. rewrite Hrun in Hout. exact Hout.
Qed.
End DryRun.

(** ** Grades (discussion_analytics.py) *)

Section Grades.
Context `{Repr}.
Context {sorting : Sorted}.
Import DiscussionAnalytics.

Lemma dict_set_In {A : Type} (k k' : string) (v v' : A) (d : list (string * A)) :
  In (k', v') (dict_set k v d) -> (k', v') = (k, v) \/ In (k', v') d.
Proof.
  induction d as [| [k0 v0] d IH]; simpl.
  - intros [Heq | []]. left. congruence.
  - destruct (String.eqb k k0); simpl; intros [Heq | Hin]; auto.
    destruct (IH Hin); auto.
Qed.

(** Every row of [grades] carries
    [min(posts * points_for_post + replies * points_for_reply, points_possible)],
    for the [points_possible] of line 205. *)
Lemma calculate_grades_capped (participation : gmap string counts)
    (points_for_post points_for_reply : float) (points_possible : pyval)
    (students : list pyval) (acc grades : list (string * grade)) :
  calculate_grades participation points_for_post points_for_reply
    points_possible students acc = Ok grades ->
  (forall sid g, In (sid, g) acc ->
     graded_by points_for_post points_for_reply points_possible g) ->
  forall sid g, In (sid, g) grades ->
    graded_by points_for_post points_for_reply points_possible g.
Proof.
  revert acc. induction students as [| s rest IH]; intros acc; simpl.
  - intros [= <-]. auto.
  - unfold grade_student.
    destruct (get s "id" (PStr "")) as [sid0 |]; [| discriminate]. simpl.
    destruct (get s "name" (PStr "Unknown")) as [sname |]; [| discriminate]. simpl.
    destruct (raw_score_of _ _ _) as [raw |] eqn:Hraw; [| discriminate]. simpl.
    destruct (min_num (NFloat raw) points_possible) as [capped |] eqn:Hmin;
      [| discriminate]. simpl.
    intros Hrest Hacc. apply (IH _ Hrest).
    intros sid g Hin. apply dict_set_In in Hin. destruct Hin as [[= _ ->] | Hin].
    + split; simpl; [| exact Hmin].
      destruct (counts_of participation (str sid0)); exact Hraw.
    + eapply Hacc, Hin.
Qed.

Lemma SFltb_irrefl (x : spec_float) : SFltb x x = false.
Proof.
  unfold SFltb, SFcompare.
  destruct x as [s | s | | s m e];
    [destruct s; reflexivity | destruct s; reflexivity | reflexivity |].
  change (IntDef.Z.compare e e) with (Z.compare e e).
  change (PosDef.Pos.compare_cont Eq m m) with (Pos.compare_cont Eq m m).
  rewrite Z.compare_refl, Pos.compare_cont_refl. destruct s; reflexivity.
Qed.

Lemma num_ltb_irrefl (a : num) : num_ltb a a = false.
Proof.
  destruct a as [z | f]; simpl.
  - apply Z.ltb_irrefl.
  - rewrite ltb_spec. apply SFltb_irrefl.
Qed.

(** The capped score is never above the cap it was computed with. *)
Lemma as_num_of_num (a : num) : as_num (of_num a) = Some a.
Proof. destruct a; reflexivity. Qed.

Lemma min_num_not_above (a : num) (capped points_possible : pyval) :
  min_num a points_possible = Ok capped ->
  exists cap score : num,
    as_num points_possible = Some cap
    /\ as_num capped = Some score
    /\ num_ltb cap score = false.
Proof.
  unfold min_num.
  destruct (as_num points_possible) as [cap |] eqn:Hcap; [| discriminate].
  destruct (num_ltb cap a) eqn:Hlt; intros [= <-].
  - exists cap, cap. repeat split; auto. apply num_ltb_irrefl.
  - exists cap, a. repeat split; auto. apply as_num_of_num.
Qed.

(** The cap is [max_points] only when that is truthy: [0.0] counts as not
    supplied, and a supplied [nan] is kept. *)
Lemma points_possible_of_spec (max_points : option float) (assignment : pyval) :
  points_possible_of max_points assignment =
  match max_points with
  | Some f =>
      if PrimFloat.eqb f PrimFloat.zero
      then get assignment "points_possible" (PInt 10)
      else Ok (PFloat f)
  | None => get assignment "points_possible" (PInt 10)
  end.
Proof.
  unfold points_possible_of. destruct max_points as [f |]; simpl; [| reflexivity].
  destruct (PrimFloat.eqb f PrimFloat.zero); reflexivity.
Qed.

(** C9, at the input [max_points=0.0] for an assignment worth 10 points and
    one student with one post: line 205 takes [0.0] for "not supplied" and
    caps at the assignment's 10, so the student is graded [5.0], where the
    claim's formula, capping at the supplied [max_points], gives [0.0]; the
    reported grade exceeds the supplied maximum. *)
Theorem C9_zero_max_points_is_ignored :
  let assignment := PDict [("id", PInt 100); ("name", PStr "Discussion Grade");
                           ("points_possible", PInt 10)] in
  let students := PList [PDict [("id", PInt 1001); ("name", PStr "Alice")]] in
  let entries := PList [PDict [("user_id", PInt 1001); ("recent_replies", PList [])]] in
  points_possible_of (Some 0%float) assignment = Ok (PInt 10)
  /\ calculate_grades {["1001" := {| posts := 1; replies := 0 |}]}
       5%float 3%float (PInt 10) (list_or_empty students) []
     = Ok [("1001", {| name := PStr "Alice"; g_posts := 1; g_replies := 0;
                       raw_score := 5%float; final_score := PFloat 5%float |})]
  /\ min_num (NFloat 5%float) (PFloat 0%float) = Ok (PFloat 0%float)
  /\ outcome
       (mock_env {| on_get_course_id := PStr "12345";
                    on_get_course_code := PStr "CS101";
                    on_fetch := [students; entries];
                    on_request := [assignment] |})
       (grade_discussion_participation (PStr "12345") (PStr "444") (PStr "100")
          5%float 3%float (Some 0%float) true)
     = Ok (("DRY RUN - Discussion Participation Grading" ++ nl
            ++ "Course: CS101" ++ nl
            ++ "Assignment: Discussion Grade (ID: 100)" ++ nl
            ++ "Points: " ++ float_repr 5%float ++ "/post, " ++ float_repr 3%float
            ++ "/reply, max 10" ++ nl ++ nl
            ++ "Name                           Posts  Replies  Score   " ++ nl
            ++ "-------------------------------------------------------" ++ nl
            ++ "Alice                          1      0        5.0     " ++ nl)
           ++ nl ++ "Dry run complete. Set dry_run=False to submit 1 grades.").
Proof.
  cbv zeta.
  split; [vm_compute; reflexivity |].
  split; [vm_compute; reflexivity |].
  split; [vm_compute; reflexivity |].
  unfold outcome, run, grade_discussion_participation.
  run_await. run_await. cbn [is_error has_key assoc String.eqb Ascii.eqb Bool.eqb].
  rewrite run_lift_bind.
  replace (points_possible_of _ _) with (Ok (PInt 10)) by (vm_compute; reflexivity).
  run_await. cbn [is_error]. run_await. cbn [is_error].
  rewrite run_lift_bind. cbn [list_or_empty].
  match goal with
  | |- context [count_entries ?l ?m] =>
      replace (count_entries l m)
        with (Ok ({["1001" := {| posts := 1; replies := 0 |}]} : gmap string counts))
        by (vm_compute; reflexivity)
  end.
  rewrite run_lift_bind.
  match goal with
  | |- context [calculate_grades ?p ?a ?b ?c ?d ?e] =>
      replace (calculate_grades p a b c d e)
        with (Ok [("1001", {| name := PStr "Alice"; g_posts := 1; g_replies := 0;
                              raw_score := 5%float; final_score := PFloat 5%float |})])
        by (vm_compute; reflexivity)
  end.
  run_await. rewrite run_lift_bind.
  cbn [get assoc String.eqb Ascii.eqb Bool.eqb from_option id].
  rewrite run_lift_bind.
  rewrite sorted_reverse_ordered by (vm_compute; reflexivity).
  rewrite run_lift_bind.
  match goal with
  | |- context [grade_rows ?l] =>
      replace (grade_rows l)
        with (Ok ("Alice                          1      0        5.0     " ++ nl))
        by (vm_compute; reflexivity)
  end.
  cbv zeta. cbn [run_from fst]. same_text.
Qed.
End Grades.

(** ** Zero denominators (analytics.py, discussion_analytics.py) *)

Section ZeroDenominators.
Context `{Repr}.
Import Analytics DiscussionAnalytics.

Lemma undivided_bind {A B : Type} (m : result A) (f : A -> result B) :
  undivided m -> (forall a, m = Ok a -> undivided (f a)) -> undivided (Py.bind m f).
Proof.
  unfold undivided. destruct m as [a | e]; simpl; intros Hm Hf.
  - apply Hf. reflexivity.
  - intros [= ->]. apply Hm. reflexivity.
Qed.

Lemma get_undivided (v : pyval) (k : string) (d : pyval) : undivided (get v k d).
Proof. destruct v; discriminate. Qed.

Lemma getitem_undivided (v : pyval) (k : string) : undivided (getitem v k).
Proof. destruct v as [| | | | | | d]; try discriminate. simpl. destruct (assoc k d); discriminate. Qed.

Lemma iter_undivided (v : pyval) : undivided (iter v).
Proof. destruct v; discriminate. Qed.

Lemma count_replies_undivided (rs : list pyval) (p : gmap string counts) :
  undivided (count_replies rs p).
Proof.
  revert p. induction rs as [| r rest IH]; intros p; simpl; [discriminate |].
  apply undivided_bind; [apply get_undivided | intros u _].
  destruct (String.eqb (str u) ""); apply IH.
Qed.

Lemma count_entries_undivided (entries : list pyval) (p : gmap string counts) :
  undivided (count_entries entries p).
Proof.
  revert p. induction entries as [| entry rest IH]; intros p; simpl; [discriminate |].
  apply undivided_bind; [apply get_undivided | intros u _].
  destruct (String.eqb (str u) ""); [apply IH |].
  apply undivided_bind; [apply get_undivided | intros rs _].
  apply undivided_bind; [apply iter_undivided | intros replies _].
  apply undivided_bind; [apply count_replies_undivided | intros p' _]. apply IH.
Qed.

Lemma build_student_map_undivided (students : list pyval) (m : list (string * pyval)) :
  undivided (build_student_map students m).
Proof.
  revert m. induction students as [| s rest IH]; intros m; simpl; [discriminate |].
  apply undivided_bind; [apply get_undivided | intros sid _].
  apply undivided_bind; [apply get_undivided | intros sname _]. apply IH.
Qed.

Lemma float_of_Z_undivided (z : Z) : undivided (float_of_Z z).
Proof. unfold float_of_Z. destruct (PrimFloat.is_infinity _); discriminate. Qed.

(** The percentage of line 137 divides two ints, and only when the
    denominator is positive. *)
Lemma render_summary_undivided (course_display topic_title topic_id : pyval)
    (total_students : Z) (cats : categories) :
  undivided (render_summary course_display topic_title topic_id total_students cats).
Proof.
  unfold render_summary. apply undivided_bind; [| discriminate].
  destruct (0 <? total_students) eqn:Hpos; [| discriminate].
  apply undivided_bind.
  - unfold truediv. apply Z.ltb_lt in Hpos.
    destruct (total_students =? 0) eqn:Hzero; [apply Z.eqb_eq in Hzero; lia |].
    destruct (PrimFloat.is_infinity _); discriminate.
  - intros q _. apply undivided_bind; [apply float_of_Z_undivided | discriminate].
Qed.

(** The averages of lines 105-106 are left out, not computed, when there is
    no student to divide by. *)
Lemma average_line_guard (label : string) (total : num) (n : Z) :
  n <= 0 -> average_line label total n = Ok "".
Proof.
  intros Hn. unfold average_line.
  destruct (0 <? n) eqn:Hpos; [apply Z.ltb_lt in Hpos; lia | reflexivity].
Qed.

Lemma topic_title_of_undivided (topic_response : pyval) :
  undivided (topic_title_of topic_response).
Proof.
  unfold topic_title_of. destruct (negb _); [apply get_undivided | discriminate].
Qed.

Lemma summary_never_divides_by_zero (w : env) (course_identifier topic_id : pyval) :
  outcome w (get_discussion_participation_summary course_identifier topic_id)
  <> Raise ZeroDivisionError.
Proof.
  assert (Hmeets : meets (fun _ => True) (fun _ => True)
            (fun e => e <> ZeroDivisionError)
            (get_discussion_participation_summary course_identifier topic_id)).
  { unfold get_discussion_participation_summary.
    repeat (meets_step; trivial);
      match goal with
      | Hr : ?r = Raise ?e |- ?e <> ZeroDivisionError =>
          intros ->; revert Hr;
          first [ apply getitem_undivided
                | apply topic_title_of_undivided
                | apply count_entries_undivided
                | apply build_student_map_undivided
                | apply render_summary_undivided ]
      end. }
  destruct (meets_run _ _ _ _ w Hmeets) as [_ Hout].
  intros Hraise. rewrite Hraise in Hout. apply Hout. reflexivity.
Qed.

(** C4. For the student summaries [[{"page_views": 0, "participations": 0}]]
    the report files the student under "Students with No Activity" (the
    averages read 0.0). On a zero denominator no line divides: the averages
    of the student summary are left out, the participation summary prints
    "(0%)", and on no input at all does the participation summary end in a
    [ZeroDivisionError]. *)
Theorem C4_no_activity_and_guarded_divisions
    (course_id code course_identifier : pyval) (sort_by : string) :
  str_in sort_by valid_sort_options = true ->
  outcome
    (mock_env {| on_get_course_id := course_id;
                 on_get_course_code := code;
                 on_fetch := [PList [PDict [("page_views", PInt 0);
                                            ("participations", PInt 0)]]];
                 on_request := [] |})
    (get_course_student_summaries course_identifier sort_by)
  = Ok (join nl
          ["Student Analytics Summary for " ++ str (or_else code course_identifier);
           "==================================================";
           "";
           "Total Students: 1";
           "Total Page Views: 0";
           "Total Participations: 0";
           "Average Page Views per Student: 0.0";
           "Average Participations per Student: 0.0";
           "";
           "⚠️ Students with No Activity (1):";
           "  - Student Unknown";
           "";
           "Top 5 Students by Current Sort:";
           "  - Student Unknown: 0 views, 0 participations"])
  /\
  (forall (label : string) (total : num), average_line label total 0 = Ok "")
  /\
  (forall (course_display topic_title topic_id : pyval)
          (participation : gmap string counts),
     render_summary course_display topic_title topic_id 0
       (categorize [] participation)
     = Ok ("Discussion Participation Summary" ++ nl
           ++ "Course: " ++ str course_display ++ nl
           ++ "Discussion: " ++ str topic_title ++ " (ID: " ++ str topic_id ++ ")"
           ++ nl ++ nl
           ++ "Overview: 0/0 students participated (0%)" ++ nl
           ++ "  Full participation (post + reply): 0" ++ nl
           ++ "  Posted only: 0" ++ nl
           ++ "  Replied only: 0" ++ nl
           ++ "  Silent (no participation): 0" ++ nl ++ nl))
  /\
  (forall (w : env) (topic_id : pyval),
     outcome w (get_discussion_participation_summary course_identifier topic_id)
     <> Raise ZeroDivisionError).
Proof.
  intros Hvalid. split; [| split; [| split]].
  - unfold outcome, run, get_course_student_summaries.
    run_await. rewrite Hvalid. cbn [negb]. run_await.
    vm_compute. reflexivity.
  - intros label total. apply average_line_guard. lia.
  - intros. vm_compute. reflexivity.
  - intros w topic_id. apply summary_never_divides_by_zero.
Qed.
End ZeroDenominators.

Lemma C4_no_activity_and_guarded_divisions_witness :
  exists report : string,
    outcome
      (mock_env {| on_get_course_id := PStr "12345";
                   on_get_course_code := PStr "CS101";
                   on_fetch := [PList [PDict [("page_views", PInt 0);
                                              ("participations", PInt 0)]]];
                   on_request := [] |})
      (Analytics.get_course_student_summaries (H := example_repr)
         (PStr "12345") "name")
    = Ok report.
Proof.
  eexists.
  apply (C4_no_activity_and_guarded_divisions (H := example_repr)
           (PStr "12345") (PStr "CS101") (PStr "12345") "name").
  reflexivity.
Defined.

(** ** The gateway's paginated fetch (core/client.py) *)

Section Pagination.
Import Core.

Lemma fetch_all_from_serves (srv : server) (req : request)
    (pages : list (list pyval)) :
  serves srv req pages ->
  forall (limit : nat) (acc : list pyval),
    (length pages <= limit)%nat ->
    fst (fetch_all_from limit srv req acc) = Items (acc +++ concat pages).
Proof.
  induction 1 as [req items Hres Hnext | req next items rest Hres Hnext _ IH];
    intros limit acc Hlimit; (destruct limit as [| limit]; simpl in Hlimit; [lia |]);
    simpl; rewrite Hres, Hnext; simpl.
  - rewrite app_nil_r. reflexivity.
  - specialize (IH limit (acc +++ items) ltac:(lia)).
    destruct (fetch_all_from limit srv next (acc +++ items)) as [r log].
    simpl in *. rewrite IH, <- app_assoc. reflexivity.
Qed.

Lemma fetch_all_from_fails (srv : server) (req : request)
    (good : list (list pyval)) (message : string) :
  fails_after srv req good message ->
  forall (limit : nat) (acc : list pyval),
    (length good < limit)%nat ->
    fst (fetch_all_from limit srv req acc) = Failed message.
Proof.
  induction 1 as [req msg Hres | req next items rest msg Hres Hnext _ IH];
    intros limit acc Hlimit; (destruct limit as [| limit]; simpl in Hlimit; [lia |]);
    simpl; rewrite Hres; simpl; [reflexivity |].
  rewrite Hnext.
  specialize (IH limit (acc +++ items) ltac:(lia)).
  destruct (fetch_all_from limit srv next (acc +++ items)) as [r log].
  simpl in *. exact IH.
Qed.

(** C5. When every page request succeeds, [fetch_all] returns the pages
    concatenated in the order the server handed them out; when a page request
    fails it returns that failure, which carries none of the objects of the
    pages fetched before. On the 100/100/42 fixture it returns the 242
    objects in order, and the failure when the second page fails. *)
Theorem C5_fetch_all_concatenates_or_fails
    (limit : nat) (srv : server) (endpoint : string) (query : list (string * pyval))
    (pages : list (list pyval)) :
  let first := {| method := GET; path := endpoint; params := query; body := [] |} in
  (serves srv first pages -> (length pages <= limit)%nat ->
   fst (fetch_all limit srv endpoint query) = Items (concat pages))
  /\ (forall message : string,
        fails_after srv first pages message -> (length pages < limit)%nat ->
        fst (fetch_all limit srv endpoint query) = Failed message)
  /\ fst (fetch_all 10 three_pages "/items" []) = Items (numbered 0 242)
  /\ length (numbered 0 242) = 242%nat
  /\ fst (fetch_all 10 second_page_fails "/items" []) = Failed "502 Bad Gateway".
Proof.
  intros first. unfold fetch_all. fold first.
  split; [| split; [| split; [| split]]].
  - intros Hserves Hlimit.
    apply (fetch_all_from_serves _ _ _ Hserves limit [] Hlimit).
  - intros message Hfails Hlimit.
    apply (fetch_all_from_fails _ _ _ _ Hfails limit [] Hlimit).
  - vm_compute. reflexivity.
  - vm_compute. reflexivity.
  - vm_compute. reflexivity.
Qed.
End Pagination.

Lemma C5_fetch_all_concatenates_or_fails_witness :
  Core.serves Core.three_pages (Core.page_request "/items")
    [Core.numbered 0 100; Core.numbered 100 100; Core.numbered 200 42]
  /\ fst (Core.fetch_all 3 Core.three_pages "/items" [])
     = Core.Items (concat [Core.numbered 0 100; Core.numbered 100 100;
                           Core.numbered 200 42]).
Proof.
  assert (Hserves : Core.serves Core.three_pages (Core.page_request "/items")
            [Core.numbered 0 100; Core.numbered 100 100; Core.numbered 200 42]).
  { eapply Core.serves_more; [reflexivity | reflexivity |].
    eapply Core.serves_more; [reflexivity | reflexivity |].
    apply Core.serves_last; reflexivity. }
  split; [exact Hserves |].
  apply (C5_fetch_all_concatenates_or_fails 3 Core.three_pages "/items" []
           [Core.numbered 0 100; Core.numbered 100 100; Core.numbered 200 42]);
    first [exact Hserves | simpl; lia].
Defined.

(** ** The identifier resolver (core/cache.py) *)

Section ResolverFacts.
Import Core.
Variable search_request : string -> request.
Variable code_field id_field : string.

#[local] Abbreviation resolve := (Core.resolve search_request code_field id_field).
#[local] Abbreviation display_code := Core.display_code.
#[local] Abbreviation yields := (Core.yields search_request code_field id_field).
#[local] Abbreviation unique_ids := (Core.unique_ids search_request code_field id_field).
#[local] Abbreviation agrees := (Core.agrees search_request code_field id_field).

(** C6. A numeric identifier, an [int] or a string of digits, is returned
    as it is, the cache is left as it was and no request is issued. *)
Theorem C6_numeric_identifier_unchanged
    (srv : server) (cache : gmap string Z) (identifier : pyval) :
  is_numeric identifier = true ->
  resolve srv cache identifier = (Resolved identifier, cache, []).
Proof. intros Hnum. unfold Core.resolve. rewrite Hnum. reflexivity. Qed.

(** A course found for [code] is a course object of the result whose code
    field is [code]. *)
Lemma find_course_sound (code : string) (courses : list pyval) (n : Z) :
  find_course code_field id_field code courses = Some n ->
  exists d : list (string * pyval),
    In (PDict d) courses
    /\ assoc code_field d = Some (PStr code)
    /\ assoc id_field d = Some (PInt n).
Proof using code_field id_field.
  induction courses as [| c rest IH]; simpl; [discriminate |].
  assert (Hrest : find_course code_field id_field code rest = Some n ->
            exists d, (c = PDict d \/ In (PDict d) rest)
                      /\ assoc code_field d = Some (PStr code)
                      /\ assoc id_field d = Some (PInt n)).
  { intros Hf. destruct (IH Hf) as (d & Hin & Hd). exists d.
    split; [right; exact Hin | exact Hd]. }
  destruct c as [| | | | | | d]; try exact Hrest.
  destruct (assoc code_field d) as [[| | | | c | |] |] eqn:Hcode; try exact Hrest.
  destruct (assoc id_field d) as [[| | m | | | |] |] eqn:Hid; try exact Hrest.
  destruct (String.eqb c code) eqn:Hc; [| exact Hrest].
  apply String.eqb_eq in Hc. subst c. intros [= ->]. exists d. auto.
Qed.

(** The search answers one thing. *)
Lemma yields_functional (srv : server) (code : string) (n m : Z) :
  yields srv code n -> yields srv code m -> n = m.
Proof.
  intros (p1 & Hp1 & Hn) (p2 & Hp2 & Hm). rewrite Hp1 in Hp2.
  injection Hp2 as <-. congruence.
Qed.

Lemma agrees_empty (srv : server) : agrees srv ∅.
Proof. intros code n Hin. rewrite lookup_empty in Hin. discriminate. Qed.

(** Resolving keeps the cache in agreement with upstream. *)
Lemma resolve_agrees (srv : server) (cache : gmap string Z) (identifier : pyval) :
  agrees srv cache -> agrees srv (snd (fst (resolve srv cache identifier))).
Proof.
  intros Hagrees. unfold Core.resolve.
  destruct (is_numeric identifier); [exact Hagrees |].
  destruct identifier as [| | | | code | |]; try exact Hagrees.
  destruct (cache !! code) as [n |] eqn:Hhit; [exact Hagrees |].
  unfold make_request.
  destruct (result_of (srv (search_request code))) as [payload | msg] eqn:Hres;
    [| exact Hagrees].
  destruct (find_course code_field id_field code (page_items payload)) as [n |] eqn:Hfind;
    [| exact Hagrees].
  simpl. intros c m Hc. destruct (decide (code = c)) as [<- | Hne].
  - rewrite lookup_insert_eq in Hc. injection Hc as <-. exists payload. auto.
  - rewrite lookup_insert_ne in Hc by exact Hne. apply Hagrees, Hc.
Qed.

(** The reverse lookup finds the one code bound to an id. *)
Lemma display_code_bound (srv : server) (cache : gmap string Z) (code : string) (n : Z) :
  unique_ids srv -> agrees srv cache -> cache !! code = Some n ->
  display_code cache n = Some code.
Proof.
  intros Hunique Hagrees Hbound. unfold Core.display_code.
  destruct (List.find (fun kv => snd kv =? n) (map_to_list cache)) as [[c m] |] eqn:Hfind.
  - apply List.find_some in Hfind. destruct Hfind as [Hin Hm].
    apply Z.eqb_eq in Hm. simpl in Hm. subst m.
    apply list_elem_of_In, elem_of_map_to_list in Hin.
    simpl. f_equal. apply (Hunique c code n); apply Hagrees; assumption.
  - assert (Hin : In (code, n) (map_to_list cache))
      by (apply list_elem_of_In, elem_of_map_to_list, Hbound).
    apply (List.find_none _ _ Hfind) in Hin. simpl in Hin.
    rewrite Z.eqb_refl in Hin. discriminate.
Qed.

(** C7. Let the upstream search for ["CS101"] answer with a course whose
    code field is ["CS101"] and whose id is [n], upstream ids being unique
    per code and the cache holding only what upstream answered. Then
    resolving ["CS101"] succeeds with [n], the display code of that id is
    ["CS101"], and resolving again is answered by the cache without any
    request. *)
Theorem C7_resolve_display_round_trip
    (srv : server) (cache : gmap string Z) (n : Z) :
  unique_ids srv ->
  agrees srv cache ->
  yields srv "CS101" n ->
  exists (cache' : gmap string Z) (log : list request),
    resolve srv cache (PStr "CS101") = (Resolved (PInt n), cache', log)
    /\ display_code cache' n = Some "CS101"
    /\ resolve srv cache' (PStr "CS101") = (Resolved (PInt n), cache', []).
Proof.
  intros Hunique Hagrees Hyields.
  pose proof (resolve_agrees srv cache (PStr "CS101") Hagrees) as Hagrees'.
  assert (Hbound : forall cache0 : gmap string Z,
            cache0 !! "CS101" = Some n ->
            resolve srv cache0 (PStr "CS101") = (Resolved (PInt n), cache0, [])).
  { intros cache0 Hhit. unfold Core.resolve. simpl is_numeric. cbv iota.
    rewrite Hhit. reflexivity. }
  destruct (cache !! "CS101") as [m |] eqn:Hhit.
  - assert (m = n) as ->
      by (eapply yields_functional; [apply Hagrees, Hhit | exact Hyields]).
    exists cache, []. split; [apply Hbound, Hhit |].
    split; [| apply Hbound, Hhit].
    apply (display_code_bound srv); assumption.
  - destruct Hyields as (payload & Hres & Hfind).
    assert (Hmiss : resolve srv cache (PStr "CS101")
                    = (Resolved (PInt n), <["CS101" := n]> cache,
                       [search_request "CS101"])).
    { unfold Core.resolve. simpl is_numeric. cbv iota.
      rewrite Hhit. unfold make_request. rewrite Hres, Hfind. reflexivity. }
    rewrite Hmiss in Hagrees'. simpl in Hagrees'.
    exists (<["CS101" := n]> cache), [search_request "CS101"].
    split; [exact Hmiss |].
    split; [| apply Hbound, lookup_insert_eq].
    apply (display_code_bound srv); [assumption | assumption |].
    apply lookup_insert_eq.
Qed.
End ResolverFacts.

Lemma C6_numeric_identifier_unchanged_witness :
  Core.resolve Core.search_by_code "course_code" "id" Core.cs101_upstream ∅
    (PStr "12345")
  = (Core.Resolved (PStr "12345"), ∅, []).
Proof.
  apply (C6_numeric_identifier_unchanged Core.search_by_code "course_code" "id"
           Core.cs101_upstream ∅ (PStr "12345")).
  reflexivity.
Defined.

Lemma cs101_upstream_yields (code : string) (n : Z) :
  Core.yields Core.search_by_code "course_code" "id" Core.cs101_upstream code n ->
  code = "CS101" /\ n = 42.
Proof.
  intros (payload & Hres & Hfind). simpl in Hres. injection Hres as <-.
  apply find_course_sound in Hfind. destruct Hfind as (d & Hin & Hcode & Hid).
  destruct Hin as [[= <-] | []]. vm_compute in Hcode, Hid. split; congruence.
Qed.

Lemma C7_resolve_display_round_trip_witness :
  exists (cache' : gmap string Z) (log : list Core.request),
    Core.resolve Core.search_by_code "course_code" "id" Core.cs101_upstream ∅
      (PStr "CS101")
    = (Core.Resolved (PInt 42), cache', log)
    /\ Core.display_code cache' 42 = Some "CS101"
    /\ Core.resolve Core.search_by_code "course_code" "id" Core.cs101_upstream
         cache' (PStr "CS101")
       = (Core.Resolved (PInt 42), cache', []).
Proof.
  apply (C7_resolve_display_round_trip Core.search_by_code "course_code" "id"
           Core.cs101_upstream ∅ 42).
  - intros c1 c2 n H1 H2.
    apply cs101_upstream_yields in H1, H2. destruct H1, H2. congruence.
  - apply agrees_empty.
  - eexists. split; reflexivity.
Defined.

(** ** What the handlers send upstream (enrollment.py, analytics.py) *)

Section RunShape.
Context {A : Type}.

(** A run only appends to the calls made before it. *)
Lemma run_from_extends (w : env) (h : list call) (p : tool A) :
  exists t, snd (run_from w h p) = h +++ t.
Proof.
  revert h. induction p as [a | e | c k IH]; intros h; simpl.
  - exists []. rewrite app_nil_r. reflexivity.
  - exists []. rewrite app_nil_r. reflexivity.
  - destruct (IH (w h c) (h +++ [c])) as [t Ht]. exists (c :: t).
    rewrite Ht, <- app_assoc. reflexivity.
Qed.
End RunShape.

Lemma str_in_In (x : string) (l : list string) : str_in x l = true -> In x l.
Proof.
  unfold str_in. intros Hx. apply existsb_exists in Hx.
  destruct Hx as (y & Hin & Heq). apply String.eqb_eq in Heq. subst y. exact Hin.
Qed.

Section CallDiscipline.
Context `{Repr}.

(** X1. Whatever the world answers, [enroll_user] makes no call at all when
    [enrollment_type] or [enrollment_state] is not one of the listed values;
    otherwise it resolves the course and sends exactly one request, the
    POST of the enrollment with the validated type and state and with
    [skip_anonymization=True], and nothing after it. *)
Theorem X1_enroll_user_validates_then_posts_once
    (w : env) (course_identifier user_id : pyval)
    (enrollment_type enrollment_state : string) (notify : bool) :
  trace w (Enrollment.enroll_user course_identifier user_id enrollment_type
             enrollment_state notify)
  = if str_in enrollment_type Enrollment.valid_types
       && str_in enrollment_state Enrollment.valid_states
    then [get_course_id course_identifier;
          make_canvas_request "post"
            ("/courses/" ++ str (w [] (get_course_id course_identifier))
             ++ "/enrollments")
            None
            (Some (PDict [("enrollment",
                           PDict [("user_id", PStr (str user_id));
                                  ("type", PStr enrollment_type);
                                  ("enrollment_state", PStr enrollment_state);
                                  ("notify", PBool notify)])]))
            true]
    else [].
Proof.
  unfold trace, run, Enrollment.enroll_user.
  destruct (str_in enrollment_type Enrollment.valid_types); [| reflexivity].
  destruct (str_in enrollment_state Enrollment.valid_states); [| reflexivity].
  cbn [negb andb]. rewrite run_await_bind, run_await_bind.
  match goal with |- context [is_error ?r] => destruct (is_error r) end.
  - rewrite run_lift_bind.
    match goal with |- context [getitem ?r ?k] => destruct (getitem r k) end;
      reflexivity.
  - repeat (rewrite run_lift_bind;
            match goal with |- context [get ?r ?k ?d] => destruct (get r k d) end;
            try reflexivity).
Qed.

(** X2. Whatever the world answers, the only write [start_course_report]
    makes is one POST to the report endpoint of a listed report type; for
    any other report type it writes nothing. *)
Theorem X2_start_course_report_posts_once
    (w : env) (course_identifier : pyval) (report_type : string) :
  List.filter is_mutating
    (trace w (Analytics.start_course_report course_identifier report_type))
  = if str_in report_type Analytics.valid_report_types
    then [make_canvas_request "post"
            ("/courses/" ++ str (w [] (get_course_id course_identifier))
             ++ "/reports/" ++ report_type) None None false]
    else [].
Proof.
  unfold trace, run, Analytics.start_course_report.
  rewrite run_await_bind.
  destruct (str_in report_type Analytics.valid_report_types); [| reflexivity].
  cbn [negb]. rewrite run_await_bind.
  match goal with |- context [is_error ?r] => destruct (is_error r) end.
  - rewrite run_lift_bind.
    match goal with |- context [getitem ?r ?k] => destruct (getitem r k) end;
      reflexivity.
  - match goal with |- context [truthy ?r] => destruct (truthy r) end;
      [| reflexivity].
    cbn [negb].
    repeat (rewrite run_lift_bind;
            match goal with |- context [get ?r ?k ?d] => destruct (get r k d) end;
            try reflexivity).
Qed.

(** X3. The two summaries are read-only: whatever the world answers, and
    whether they return or raise, [get_course_student_summaries] and
    [get_discussion_participation_summary] make no call that changes
    upstream state. *)
Theorem X3_summaries_are_read_only
    (w : env) (course_identifier topic_id : pyval) (sort_by : string) :
  Forall (fun c => is_mutating c = false)
    (trace w (Analytics.get_course_student_summaries course_identifier sort_by))
  /\
  Forall (fun c => is_mutating c = false)
    (trace w (DiscussionAnalytics.get_discussion_participation_summary
                course_identifier topic_id)).
Proof.
  split.
  - apply (meets_run (fun c => is_mutating c = false) (fun _ => True) (fun _ => True)).
    unfold Analytics.get_course_student_summaries.
    repeat (first [meets_step | apply meets_bind]; trivial).
  - apply (meets_run (fun c => is_mutating c = false) (fun _ => True) (fun _ => True)).
    unfold DiscussionAnalytics.get_discussion_participation_summary.
    repeat (first [meets_step | apply meets_bind]; trivial).
Qed.

(** X4. A listed [sort_by] is decoded into what Canvas expects: the request
    for the student summaries carries as [sort_column] one of the four
    columns, the option without its "_descending" suffix, and carries
    [sort_order=descending] exactly for the options with that suffix. *)
Theorem X4_sort_option_is_decoded
    (w : env) (course_identifier : pyval) (sort_by : string) :
  str_in sort_by Analytics.valid_sort_options = true ->
  exists (column : string) (descending : bool) (rest : list call),
    In column ["name"; "score"; "participations"; "page_views"]
    /\ sort_by = column ++ (if descending then "_descending" else "")
    /\ trace w (Analytics.get_course_student_summaries course_identifier sort_by)
       = get_course_id course_identifier
         :: fetch_all_paginated_results
              ("/courses/" ++ str (w [] (get_course_id course_identifier))
               ++ "/analytics/student_summaries")
              (PDict ([("sort_column", PStr column); ("per_page", PInt 100)]
                      +++ (if descending
                           then [("sort_order", PStr "descending")] else [])))
         :: rest.
Proof.
  intros Hvalid. pose proof (str_in_In _ _ Hvalid) as Hin.
  unfold trace, run, Analytics.get_course_student_summaries.
  rewrite run_await_bind, Hvalid. cbn [negb]. rewrite run_await_bind.
  match goal with
  | |- context [run_from w ?h ?p] => destruct (run_from_extends w h p) as [t Ht]
  end.
  unfold Analytics.valid_sort_options in Hin. simpl in Hin.
  destruct Hin as [<- | [<- | [<- | [<- | [<- | [<- | [<- | [<- | []]]]]]]]].
  - exists "name", false, t. rewrite Ht. split; [simpl; auto |]. split; reflexivity.
  - exists "name", true, t. rewrite Ht. split; [simpl; auto |]. split; reflexivity.
  - exists "score", false, t. rewrite Ht. split; [simpl; auto |]. split; reflexivity.
  - exists "score", true, t. rewrite Ht. split; [simpl; auto |]. split; reflexivity.
  - exists "participations", false, t. rewrite Ht. split; [simpl; tauto |].
    split; reflexivity.
  - exists "participations", true, t. rewrite Ht. split; [simpl; tauto |].
    split; reflexivity.
  - exists "page_views", false, t. rewrite Ht. split; [simpl; tauto |].
    split; reflexivity.
  - exists "page_views", true, t. rewrite Ht. split; [simpl; tauto |].
    split; reflexivity.
Qed.
End CallDiscipline.

Lemma X4_sort_option_is_decoded_witness :
  exists (column : string) (descending : bool) (rest : list call),
    In column ["name"; "score"; "participations"; "page_views"]
    /\ "score_descending" = column ++ (if descending then "_descending" else "")
    /\ trace
         (mock_env {| on_get_course_id := PStr "12345";
                      on_get_course_code := PStr "CS101";
                      on_fetch := [PList []];
                      on_request := [] |})
         (Analytics.get_course_student_summaries (H := example_repr)
            (PStr "CS101") "score_descending")
       = get_course_id (PStr "CS101")
         :: fetch_all_paginated_results
              "/courses/12345/analytics/student_summaries"
              (PDict ([("sort_column", PStr column); ("per_page", PInt 100)]
                      +++ (if descending
                           then [("sort_order", PStr "descending")] else [])))
         :: rest.
Proof.
  apply (X4_sort_option_is_decoded (H := example_repr)
           (mock_env {| on_get_course_id := PStr "12345";
                        on_get_course_code := PStr "CS101";
                        on_fetch := [PList []];
                        on_request := [] |})
           (PStr "CS101") "score_descending").
  reflexivity.
Defined.

(** ** Submitting grades (discussion_analytics.py) *)

Section Submission.
Context `{Repr}.
Context {sorting : Sorted}.
Import DiscussionAnalytics.

Lemma submit_grades_run (w : env) (h : list call) (course_id assignment_id : pyval)
    (grades : list (string * grade)) (successful failed : Z) :
  exists s f : Z,
    run_from w h (submit_grades course_id assignment_id grades successful failed)
    = (Ok (s, f), h +++ map (grade_submission course_id assignment_id) grades)
    /\ successful <= s /\ failed <= f
    /\ s + f = successful + failed + Z.of_nat (length grades).
Proof.
  revert h successful failed.
  induction grades as [| [sid g] rest IH]; intros h successful failed.
  - exists successful, failed. simpl. rewrite app_nil_r. repeat split; lia.
  - cbn [submit_grades]. rewrite run_await_bind.
    match goal with |- context [is_error ?r] => destruct (is_error r) end.
    + destruct (IH (h +++ [grade_submission course_id assignment_id (sid, g)])
                  successful (failed + 1)) as (s & f & Hrun & Hs & Hf & Hsum).
      exists s, f. split; [| rewrite length_cons; lia].
      unfold grade_submission in Hrun at 1. cbn [fst snd] in Hrun.
      rewrite Hrun. rewrite <- app_assoc. reflexivity.
    + destruct (IH (h +++ [grade_submission course_id assignment_id (sid, g)])
                  (successful + 1) failed) as (s & f & Hrun & Hs & Hf & Hsum).
      exists s, f. split; [| rewrite length_cons; lia].
      unfold grade_submission in Hrun at 1. cbn [fst snd] in Hrun.
      rewrite Hrun. rewrite <- app_assoc. reflexivity.
Qed.

(** X5. The submission loop never raises and never stops early: whatever
    the world answers, it sends one PUT per row of [grades], in the order of
    the rows, and files each answer under exactly one of the two tallies, so
    that submitted plus failed is the number of rows. *)
Theorem X5_submit_grades_one_put_per_row
    (w : env) (course_id assignment_id : pyval) (grades : list (string * grade)) :
  exists s f : Z,
    outcome w (submit_grades course_id assignment_id grades 0 0) = Ok (s, f)
    /\ trace w (submit_grades course_id assignment_id grades 0 0)
       = map (grade_submission course_id assignment_id) grades
    /\ 0 <= s /\ 0 <= f /\ s + f = Z.of_nat (length grades).
Proof.
  destruct (submit_grades_run w [] course_id assignment_id grades 0 0)
    as (s & f & Hrun & Hs & Hf & Hsum).
  exists s, f. unfold outcome, trace, run. rewrite Hrun. simpl.
  repeat split; lia.
Qed.

Lemma calculate_grades_NoDup (participation : gmap string counts)
    (points_for_post points_for_reply : float) (points_possible : pyval)
    (students : list pyval) (acc grades : list (string * grade)) :
  calculate_grades participation points_for_post points_for_reply
    points_possible students acc = Ok grades ->
  List.NoDup (map fst acc) -> List.NoDup (map fst grades).
Proof.
  revert acc. induction students as [| s rest IH]; intros acc; simpl.
  - intros [= <-]. auto.
  - destruct (grade_student _ _ _ _ s acc) as [acc' |] eqn:Hs; [| discriminate].
    simpl. intros Hrest Hacc. apply (IH _ Hrest).
    unfold grade_student in Hs.
    destruct (get s "id" (PStr "")) as [sid0 |]; [| discriminate]. simpl in Hs.
    destruct (get s "name" (PStr "Unknown")) as [sname |]; [| discriminate].
    simpl in Hs.
    destruct (raw_score_of _ _ _) as [raw |]; [| discriminate]. simpl in Hs.
    destruct (min_num (NFloat raw) points_possible) as [capped |]; [| discriminate].
    simpl in Hs. injection Hs as <-. apply dict_set_NoDup, Hacc.
Qed.

Lemma grade_submissions_mutate (course_id assignment_id : pyval)
    (grades : list (string * grade)) :
  List.filter is_mutating (map (grade_submission course_id assignment_id) grades)
  = map (grade_submission course_id assignment_id) grades.
Proof.
  induction grades as [| row rest IH]; [reflexivity |].
  simpl. rewrite IH. reflexivity.
Qed.

Lemma calculate_grades_keys (participation : gmap string counts)
    (points_for_post points_for_reply : float) (points_possible : pyval)
    (students : list pyval) (acc grades : list (string * grade)) :
  calculate_grades participation points_for_post points_for_reply
    points_possible students acc = Ok grades ->
  (forall k, In k (map fst acc) -> In k (map fst grades))
  /\ forall student, In student students ->
       exists sid, get student "id" (PStr "") = Ok sid
                   /\ In (str sid) (map fst grades).
Proof.
  revert acc. induction students as [| st rest IH]; intros acc; simpl.
  - intros [= <-]. split; [auto | contradiction].
  - destruct (grade_student _ _ _ _ st acc) as [acc' |] eqn:Hs; [| discriminate].
    simpl. intros Hrest. destruct (IH _ Hrest) as [Hkept Hall].
    unfold grade_student in Hs.
    destruct (get st "id" (PStr "")) as [sid0 |] eqn:Hsid; [| discriminate].
    simpl in Hs.
    destruct (get st "name" (PStr "Unknown")) as [sname |]; [| discriminate].
    simpl in Hs.
    destruct (raw_score_of _ _ _) as [raw |]; [| discriminate]. simpl in Hs.
    destruct (min_num (NFloat raw) points_possible) as [capped |]; [| discriminate].
    simpl in Hs. injection Hs as <-. split.
    + intros k Hk. apply Hkept. now apply dict_set_keys_kept.
    + intros student [<- | Hin]; [| now apply Hall].
      exists sid0. split; [exact Hsid |]. apply Hkept, dict_set_key_In.
Qed.

(** X6. With [dry_run=False], whatever the world answers: a run of
    [grade_discussion_participation] that returns anything but one of the
    three "Error fetching" strings has graded the students the world
    answered. The rows are [calculate_grades] of the fetched students and
    entries, with a row for every fetched student and no student id twice;
    the state-changing requests of the run are exactly the PUT of each
    row's grade, in the order of the rows; and the report ends with the two
    tallies, which add up to the number of rows. *)
Theorem X6_grading_writes_one_grade_per_row
    (w : env) (course_identifier topic_id assignment_id : pyval)
    (points_for_post points_for_reply : float) (max_points : option float)
    (report : string) :
  outcome w (grade_discussion_participation course_identifier topic_id
               assignment_id points_for_post points_for_reply max_points false)
  = Ok report ->
  grading_fetch_error report
  \/ graded_run w course_identifier topic_id assignment_id points_for_post
       points_for_reply max_points report.
Proof.
  unfold outcome, graded_run, trace. cbv zeta.
  assert (Hcases :
    match run w (grade_discussion_participation course_identifier topic_id
                   assignment_id points_for_post points_for_reply max_points false)
    with
    | (Raise _, _) => True
    | (Ok report, t) =>
        grading_fetch_error report \/
        exists (points_possible : pyval) (participation : gmap string counts)
               (grades : list (string * grade)) (s f : Z) (table : string),
          points_possible_of max_points
            (w [get_course_id course_identifier]
               (make_canvas_request "get"
                  ("/courses/" ++ str (w [] (get_course_id course_identifier))
                   ++ "/assignments/" ++ str assignment_id)
                  None None false))
          = Ok points_possible
          /\ count_entries
               (list_or_empty
                  (w [get_course_id course_identifier;
                      make_canvas_request "get"
                        ("/courses/" ++ str (w [] (get_course_id course_identifier))
                         ++ "/assignments/" ++ str assignment_id)
                        None None false;
                      fetch_all_paginated_results
                        ("/courses/" ++ str (w [] (get_course_id course_identifier))
                         ++ "/users")
                        (PDict [("enrollment_type[]", PStr "student");
                                ("per_page", PInt 100)])]
                     (fetch_all_paginated_results
                        ("/courses/" ++ str (w [] (get_course_id course_identifier))
                         ++ "/discussion_topics/" ++ str topic_id ++ "/entries")
                        (PDict [("per_page", PInt 100)])))) ∅
             = Ok participation
          /\ calculate_grades participation points_for_post points_for_reply
               points_possible
               (list_or_empty
                  (w [get_course_id course_identifier;
                      make_canvas_request "get"
                        ("/courses/" ++ str (w [] (get_course_id course_identifier))
                         ++ "/assignments/" ++ str assignment_id)
                        None None false]
                     (fetch_all_paginated_results
                        ("/courses/" ++ str (w [] (get_course_id course_identifier))
                         ++ "/users")
                        (PDict [("enrollment_type[]", PStr "student");
                                ("per_page", PInt 100)])))) []
             = Ok grades
          /\ List.filter is_mutating t
             = map (grade_submission (w [] (get_course_id course_identifier))
                      assignment_id) grades
          /\ List.NoDup (map fst grades)
          /\ (forall (l : list pyval) (student : pyval),
                w [get_course_id course_identifier;
                   make_canvas_request "get"
                     ("/courses/"
                      ++ str (w [] (get_course_id course_identifier))
                      ++ "/assignments/" ++ str assignment_id)
                     None None false]
                  (fetch_all_paginated_results
                     ("/courses/"
                      ++ str (w [] (get_course_id course_identifier))
                      ++ "/users")
                     (PDict [("enrollment_type[]", PStr "student");
                             ("per_page", PInt 100)]))
                = PList l ->
                In student l ->
                exists sid : pyval,
                  get student "id" (PStr "") = Ok sid
                  /\ In (str sid) (map fst grades))
          /\ 0 <= s /\ 0 <= f /\ s + f = Z.of_nat (length grades)
          /\ report = table ++ nl ++ "Grading complete: " ++ pretty s
                      ++ " submitted, " ++ pretty f ++ " failed."
    end).
  { unfold grade_discussion_participation, run.
    rewrite run_await_bind, run_await_bind.
    match goal with |- context [is_error ?r] => destruct (is_error r) end.
    { rewrite run_lift_bind.
      match goal with |- context [getitem ?r ?k] => destruct (getitem r k) end;
        [| exact I].
      left. eexists. left. reflexivity. }
    rewrite run_lift_bind.
    destruct (points_possible_of max_points _) as [points_possible |] eqn:Hpoints;
      [| exact I].
    rewrite run_await_bind.
    match goal with |- context [is_error ?r] => destruct (is_error r) end.
    { rewrite run_lift_bind.
      match goal with |- context [getitem ?r ?k] => destruct (getitem r k) end;
        [| exact I].
      left. eexists. right. left. reflexivity. }
    rewrite run_await_bind.
    match goal with |- context [is_error ?r] => destruct (is_error r) end.
    { rewrite run_lift_bind.
      match goal with |- context [getitem ?r ?k] => destruct (getitem r k) end;
        [| exact I].
      left. eexists. right. right. reflexivity. }
    rewrite run_lift_bind.
    destruct (count_entries _ ∅) as [participation |] eqn:Hcounts; [| exact I].
    rewrite run_lift_bind.
    destruct (calculate_grades participation _ _ _ _ []) as [grades |] eqn:Hgrades;
      [| exact I].
    rewrite run_await_bind. rewrite run_lift_bind.
    match goal with |- context [get ?r "name" ?d] => destruct (get r "name" d) end;
      [| exact I].
    rewrite run_lift_bind.
    destruct (sorted_reverse _ grades) as [sorted_grades |]; [| exact I].
    rewrite run_lift_bind.
    destruct (grade_rows sorted_grades) as [rows |]; [| exact I].
    cbv zeta. change (if false then ?a else ?b) with b.
    rewrite run_from_bind.
    match goal with
    | |- context [run_from w ?h (submit_grades ?c ?a grades 0 0)] =>
        destruct (submit_grades_run w h c a grades 0 0)
          as (s & f & Hrun & Hs & Hf & Hsum);
        rewrite Hrun
    end.
    cbn [run_from].
    right. exists points_possible, participation, grades, s, f. eexists.
    split; [first [exact Hpoints | reflexivity] |].
    split; [first [exact Hcounts | reflexivity] |].
    split; [first [exact Hgrades | reflexivity] |].
    split; [| split; [| split; [| split; [| split; [| split]]]]].
    - rewrite List.filter_app, grade_submissions_mutate. reflexivity.
    - apply (calculate_grades_NoDup _ _ _ _ _ _ _ Hgrades). constructor.
    - intros l student Hl Hin.
      apply (calculate_grades_keys _ _ _ _ _ _ _ Hgrades).
      cbn [app] in Hl |- *. rewrite Hl. exact Hin.
    - lia.
    - lia.
    - lia.
    - reflexivity. }
  intros Hrun.
  destruct (run w _) as [[r | e] t]; simpl in Hrun; [| discriminate].
  injection Hrun as ->. exact Hcases.
Qed.
End Submission.

Lemma X6_grading_writes_one_grade_per_row_witness :
  exists report : string,
    outcome
      (mock_env
         {| on_get_course_id := PStr "12345";
            on_get_course_code := PStr "CS101";
            on_fetch :=
              [PList [PDict [("id", PInt 1001); ("name", PStr "Alice")];
                      PDict [("id", PInt 1002); ("name", PStr "Bob")]];
               PList [PDict [("user_id", PInt 1001);
                             ("recent_replies", PList [])]]];
            on_request :=
              [PDict [("id", PInt 100); ("name", PStr "Discussion Grade");
                      ("points_possible", PInt 10)];
               PDict [("id", PInt 1)];
               PDict [("error", PStr "Forbidden")]] |})
      (DiscussionAnalytics.grade_discussion_participation
         (H := example_repr) (sorting := example_sorted)
         (PStr "12345") (PStr "444") (PStr "100") 5%float 3%float None false)
    = Ok report
    /\ (DiscussionAnalytics.grading_fetch_error (H := example_repr) report
        \/ DiscussionAnalytics.graded_run
             (H := example_repr) (sorting := example_sorted)
             (mock_env
                {| on_get_course_id := PStr "12345";
                   on_get_course_code := PStr "CS101";
                   on_fetch :=
                     [PList [PDict [("id", PInt 1001); ("name", PStr "Alice")];
                             PDict [("id", PInt 1002); ("name", PStr "Bob")]];
                      PList [PDict [("user_id", PInt 1001);
                                    ("recent_replies", PList [])]]];
                   on_request :=
                     [PDict [("id", PInt 100); ("name", PStr "Discussion Grade");
                             ("points_possible", PInt 10)];
                      PDict [("id", PInt 1)];
                      PDict [("error", PStr "Forbidden")]] |})
             (PStr "12345") (PStr "444") (PStr "100") 5%float 3%float None report).
Proof.
  eexists. split.
  - vm_compute. reflexivity.
  - apply (X6_grading_writes_one_grade_per_row
             (H := example_repr) (sorting := example_sorted)
             (mock_env
                {| on_get_course_id := PStr "12345";
                   on_get_course_code := PStr "CS101";
                   on_fetch :=
                     [PList [PDict [("id", PInt 1001); ("name", PStr "Alice")];
                             PDict [("id", PInt 1002); ("name", PStr "Bob")]];
                      PList [PDict [("user_id", PInt 1001);
                                    ("recent_replies", PList [])]]];
                   on_request :=
                     [PDict [("id", PInt 100); ("name", PStr "Discussion Grade");
                             ("points_possible", PInt 10)];
                      PDict [("id", PInt 1)];
                      PDict [("error", PStr "Forbidden")]] |})
             (PStr "12345") (PStr "444") (PStr "100") 5%float 3%float None).
    vm_compute. reflexivity.
Defined.

(** ** The graded table (discussion_analytics.py) *)

Section GradeRows.
Context `{Repr}.
Import DiscussionAnalytics.

Lemma dict_set_length {A : Type} (k : string) (v : A) (d : list (string * A)) :
  (length (dict_set k v d) <= S (length d))%nat.
Proof.
  induction d as [| [k' v'] d IH]; simpl; [lia |].
  destruct (String.eqb k k'); simpl; lia.
Qed.

Lemma calculate_grades_rows (participation : gmap string counts)
    (points_for_post points_for_reply : float) (points_possible : pyval)
    (students : list pyval) (acc grades : list (string * grade)) :
  calculate_grades participation points_for_post points_for_reply
    points_possible students acc = Ok grades ->
  (length grades <= length acc + length students)%nat
  /\ forall sid g, In (sid, g) grades ->
       In (sid, g) acc
       \/ (g_posts g = posts (counts_of participation sid)
           /\ g_replies g = replies (counts_of participation sid)).
Proof.
  revert acc. induction students as [| s rest IH]; intros acc; simpl.
  - intros [= <-]. split; [lia | auto].
  - unfold grade_student.
    destruct (get s "id" (PStr "")) as [sid0 |]; [| discriminate]. simpl.
    destruct (get s "name" (PStr "Unknown")) as [sname |]; [| discriminate]. simpl.
    destruct (raw_score_of _ _ _) as [raw |] eqn:Hraw; [| discriminate]. simpl.
    destruct (min_num (NFloat raw) points_possible) as [capped |] eqn:Hmin;
      [| discriminate]. simpl.
    intros Hrest. destruct (IH _ Hrest) as [Hlen Hrows]. split.
    + pose proof (dict_set_length (str sid0)
        {| name := sname; g_posts := posts (counts_of participation (str sid0));
           g_replies := replies (counts_of participation (str sid0));
           raw_score := raw; final_score := capped |} acc). lia.
    + intros sid g Hin. destruct (Hrows sid g Hin) as [Hacc | Hnew]; [| auto].
      apply dict_set_In in Hacc. destruct Hacc as [[= -> ->] | Hacc]; auto.
Qed.

(** X8. What [grades] holds after the loop of lines 247-261: at most one
    row per student and no two rows with the same student id; each row
    carries the posts and replies counted for its id, and a final score that
    is either the raw score or the cap itself (the very value of
    [points_possible]), and in no case above the cap (the cap is not
    strictly smaller than the final score). *)
Theorem X8_grades_are_capped_counts (participation : gmap string counts)
    (points_for_post points_for_reply : float) (points_possible : pyval)
    (students : list pyval) (grades : list (string * grade)) :
  calculate_grades participation points_for_post points_for_reply
    points_possible students [] = Ok grades ->
  List.NoDup (map fst grades)
  /\ (length grades <= length students)%nat
  /\ forall sid g, In (sid, g) grades ->
       g_posts g = posts (counts_of participation sid)
       /\ g_replies g = replies (counts_of participation sid)
       /\ exists cap score : num,
            as_num points_possible = Some cap
            /\ as_num (final_score g) = Some score
            /\ num_ltb cap score = false
            /\ (final_score g = points_possible
                \/ final_score g = PFloat (raw_score g)).
Proof.
  intros Hgrades. split; [| split].
  - apply (calculate_grades_NoDup _ _ _ _ _ _ _ Hgrades). constructor.
  - destruct (calculate_grades_rows _ _ _ _ _ _ _ Hgrades) as [Hlen _].
    simpl in Hlen. exact Hlen.
  - intros sid g Hin.
    destruct (calculate_grades_rows _ _ _ _ _ _ _ Hgrades) as [_ Hrows].
    destruct (Hrows sid g Hin) as [[] | [Hp Hr]].
    split; [exact Hp |]. split; [exact Hr |].
    assert (Hby : graded_by points_for_post points_for_reply points_possible g).
    { apply (calculate_grades_capped _ _ _ _ _ _ _ Hgrades) with (sid := sid);
        [intros ? ? [] | exact Hin]. }
    destruct Hby as [_ Hmin].
    destruct (min_num_not_above _ _ _ Hmin) as (cap & score & Hcap & Hscore & Hle).
    exists cap, score. split; [exact Hcap |]. split; [exact Hscore |].
    split; [exact Hle |].
    unfold min_num in Hmin. rewrite Hcap in Hmin.
    destruct (num_ltb cap (NFloat (raw_score g))); injection Hmin as <-; auto.
Qed.
End GradeRows.

Lemma X8_grades_are_capped_counts_witness :
  let participation : gmap string DiscussionAnalytics.counts :=
    {["1001" := {| DiscussionAnalytics.posts := 3; DiscussionAnalytics.replies := 0 |}]} in
  let grades :=
    [("1001", {| DiscussionAnalytics.name := PStr "Alice";
                 DiscussionAnalytics.g_posts := 3;
                 DiscussionAnalytics.g_replies := 0;
                 DiscussionAnalytics.raw_score := 15%float;
                 DiscussionAnalytics.final_score := PInt 10 |})] in
  List.NoDup (map fst grades)
  /\ (length grades <= 1)%nat
  /\ forall sid g, In (sid, g) grades ->
       DiscussionAnalytics.g_posts g
       = DiscussionAnalytics.posts (DiscussionAnalytics.counts_of participation sid)
       /\ DiscussionAnalytics.g_replies g
          = DiscussionAnalytics.replies
              (DiscussionAnalytics.counts_of participation sid)
       /\ exists cap score : num,
            as_num (PInt 10) = Some cap
            /\ as_num (DiscussionAnalytics.final_score g) = Some score
            /\ num_ltb cap score = false
            /\ (DiscussionAnalytics.final_score g = PInt 10
                \/ DiscussionAnalytics.final_score g
                   = PFloat (DiscussionAnalytics.raw_score g)).
Proof.
  intros participation grades.
  apply (X8_grades_are_capped_counts (H := example_repr) participation
           5%float 3%float (PInt 10)
           [PDict [("id", PInt 1001); ("name", PStr "Alice")]] grades).
  vm_compute. reflexivity.
Defined.

(** ** Counting posts and replies (discussion_analytics.py) *)

Section Counting.
Context `{Repr}.
Import DiscussionAnalytics.

Lemma add_post_counts (uid author : string) (p : gmap string counts) :
  counts_of (add_post author p) uid
  = if decide (author = uid)
    then {| posts := posts (counts_of p uid) + 1; replies := replies (counts_of p uid) |}
    else counts_of p uid.
Proof.
  unfold add_post. rewrite counts_of_insert.
  destruct (decide (author = uid)) as [-> |]; reflexivity.
Qed.

Lemma add_reply_counts (uid author : string) (p : gmap string counts) :
  counts_of (add_reply author p) uid
  = if decide (author = uid)
    then {| posts := posts (counts_of p uid); replies := replies (counts_of p uid) + 1 |}
    else counts_of p uid.
Proof.
  unfold add_reply. rewrite counts_of_insert.
  destruct (decide (author = uid)) as [-> |]; reflexivity.
Qed.

Lemma authored_by_get (uid : string) (e u : pyval) :
  get e "user_id" (PStr "") = Ok u -> authored_by uid e = String.eqb (str u) uid.
Proof. intros Hu. unfold authored_by. rewrite Hu. reflexivity. Qed.

Lemma count_replies_counts (uid : string) (rs : list pyval)
    (p p' : gmap string counts) :
  count_replies rs p = Ok p' ->
  posts (counts_of p' uid) = posts (counts_of p uid)
  /\ replies (counts_of p' uid)
     = replies (counts_of p uid)
       + (if String.eqb uid "" then 0
          else Z.of_nat (length (List.filter (authored_by uid) rs))).
Proof.
  revert p. induction rs as [| r rest IH]; intros p.
  - simpl. intros [= <-]. destruct (String.eqb uid ""); lia.
  - cbn [count_replies List.filter].
    destruct (get r "user_id" (PStr "")) as [u |] eqn:Hu; [| discriminate].
    rewrite (authored_by_get uid _ _ Hu). cbn [Py.bind].
    destruct (String.eqb (str u) "") eqn:Hempty.
    + intros Hrest. destruct (IH _ Hrest) as [Hp Hr]. split; [exact Hp |].
      rewrite Hr. apply String.eqb_eq in Hempty.
      destruct (String.eqb uid "") eqn:Huid; [reflexivity |].
      destruct (String.eqb (str u) uid) eqn:Hsame; [| reflexivity].
      apply String.eqb_eq in Hsame. apply String.eqb_neq in Huid. congruence.
    + intros Hrest. destruct (IH _ Hrest) as [Hp Hr].
      rewrite Hp, Hr, add_reply_counts.
      destruct (decide (str u = uid)) as [Heq | Hne].
      * rewrite <- Heq, Hempty, String.eqb_refl. cbn [length posts replies].
        split; lia.
      * apply String.eqb_neq in Hne. rewrite Hne.
        destruct (String.eqb uid ""); split; lia.
Qed.

Lemma items_under_iter (key : string) (e rs : pyval) (l : list pyval) :
  get e key (PList []) = Ok rs -> iter rs = Ok l -> items_under key e = l.
Proof.
  intros Hget Hiter. unfold items_under. rewrite Hget. simpl. rewrite Hiter.
  reflexivity.
Qed.

Lemma count_entries_counts (uid : string) (entries : list pyval)
    (p p' : gmap string counts) :
  count_entries entries p = Ok p' ->
  posts (counts_of p' uid)
  = posts (counts_of p uid)
    + (if String.eqb uid "" then 0 else Z.of_nat (posts_by uid entries))
  /\ replies (counts_of p' uid)
     = replies (counts_of p uid)
       + (if String.eqb uid "" then 0 else Z.of_nat (replies_by uid entries)).
Proof.
  unfold posts_by, replies_by.
  revert p. induction entries as [| e rest IH]; intros p.
  - simpl. intros [= <-]. destruct (String.eqb uid ""); lia.
  - cbn [count_entries map list_sum List.filter].
    destruct (get e "user_id" (PStr "")) as [u |] eqn:Hu; [| discriminate].
    rewrite (authored_by_get uid _ _ Hu), (authored_by_get "" _ _ Hu).
    cbn [Py.bind].
    destruct (String.eqb (str u) "") eqn:Hempty.
    + intros Hrest. destruct (IH _ Hrest) as [Hp Hr]. rewrite Hp, Hr.
      destruct (String.eqb uid "") eqn:Huid; [split; reflexivity |].
      destruct (String.eqb (str u) uid) eqn:Hsame; [| split; reflexivity].
      apply String.eqb_eq in Hsame, Hempty. apply String.eqb_neq in Huid.
      congruence.
    + destruct (get e "recent_replies" (PList [])) as [rs |] eqn:Hrs;
        [| discriminate].
      cbn [Py.bind]. destruct (iter rs) as [rlist |] eqn:Hiter; [| discriminate].
      cbn [Py.bind].
      destruct (count_replies rlist (add_post (str u) p)) as [p1 |] eqn:Hcount;
        [| discriminate]. cbn [Py.bind].
      intros Hrest. destruct (IH _ Hrest) as [Hp Hr].
      destruct (count_replies_counts uid _ _ _ Hcount) as [Hp1 Hr1].
      rewrite (items_under_iter _ _ _ _ Hrs Hiter).
      rewrite Hp, Hr, Hp1, Hr1, add_post_counts.
      destruct (String.eqb uid "") eqn:Huid.
      * apply String.eqb_eq in Huid. subst uid.
        destruct (decide (str u = "")) as [Heq | Hne]; [| split; lia].
        apply String.eqb_neq in Hempty. congruence.
      * destruct (decide (str u = uid)) as [Heq | Hne].
        -- apply String.eqb_eq in Heq. rewrite Heq.
           cbn [length posts replies]. simpl (list_sum _). split; lia.
        -- apply String.eqb_neq in Hne. rewrite Hne. simpl (list_sum _).
           split; lia.
Qed.

(** X9. What the counting loop of lines 67-83 computes, when it completes:
    for every user id other than the empty one, the posts counted are the
    entries that user wrote and the replies counted are the recent replies
    that user wrote under entries that carry a user id; nothing is ever
    counted for the empty id. *)
Theorem X9_counts_are_the_authored_items
    (uid : string) (entries : list pyval) (participation : gmap string counts) :
  count_entries entries ∅ = Ok participation ->
  (uid <> "" ->
   counts_of participation uid
   = {| posts := Z.of_nat (posts_by uid entries);
        replies := Z.of_nat (replies_by uid entries) |})
  /\ counts_of participation "" = no_counts.
Proof.
  intros Hcount. split.
  - intros Huid. apply String.eqb_neq in Huid.
    destruct (count_entries_counts uid _ _ _ Hcount) as [Hp Hr].
    rewrite Huid in Hp, Hr. unfold counts_of at 2 in Hp. unfold counts_of at 2 in Hr.
    rewrite lookup_empty in Hp, Hr. simpl in Hp, Hr.
    destruct (counts_of participation uid) as [a b]. simpl in *. f_equal; lia.
  - destruct (count_entries_counts "" _ _ _ Hcount) as [Hp Hr].
    simpl in Hp, Hr. unfold counts_of at 2 in Hp. unfold counts_of at 2 in Hr.
    rewrite lookup_empty in Hp, Hr. simpl in Hp, Hr.
    destruct (counts_of participation "") as [a b]. simpl in *.
    unfold no_counts. f_equal; lia.
Qed.

Lemma first_reply_refl (c : counts) : first_reply_at_most c c.
Proof. split; auto. Qed.

Lemma first_reply_trans (a b c : counts) :
  first_reply_at_most a b -> first_reply_at_most b c -> first_reply_at_most a c.
Proof. unfold first_reply_at_most. intros [Hp1 Hr1] [Hp2 Hr2]. split; lia. Qed.

Lemma add_view_reply_first (uid author : string) (p : gmap string counts) :
  first_reply_at_most (counts_of p uid) (counts_of (add_view_reply author p) uid).
Proof.
  unfold add_view_reply.
  destruct (replies (counts_of p author) =? 0) eqn:Hzero;
    rewrite counts_of_insert; destruct (decide (author = uid)) as [-> | Hne];
    try apply first_reply_refl.
  apply Z.eqb_eq in Hzero. split; simpl; lia.
Qed.

Lemma view_replies_first (uid : string) (rs : list pyval) (p : gmap string counts) :
  first_reply_at_most (counts_of p uid) (counts_of (fst (view_replies rs p)) uid).
Proof.
  revert p. induction rs as [| r rest IH]; intros p; simpl;
    [apply first_reply_refl |].
  destruct (get r "user_id" (PStr "")) as [u | e]; [| apply first_reply_refl].
  destruct (String.eqb (str u) ""); [apply IH |].
  eapply first_reply_trans; [apply add_view_reply_first | apply IH].
Qed.

Lemma view_entries_first (uid : string) (view : list pyval) (p : gmap string counts) :
  first_reply_at_most (counts_of p uid) (counts_of (fst (view_entries view p)) uid).
Proof.
  revert p. induction view as [| view_entry rest IH]; intros p; simpl;
    [apply first_reply_refl |].
  destruct (rs <- get view_entry "replies" (PList []);; iter rs) as [rs | e];
    [| apply first_reply_refl].
  pose proof (view_replies_first uid rs p) as Hstep.
  destruct (view_replies rs p) as [p' [e |]]; simpl in *; [exact Hstep |].
  eapply first_reply_trans; [exact Hstep | apply IH].
Qed.

(** X10. The pass over the view endpoint (lines 90-100) can only add a
    first reply: whatever the view response holds, and whether or not the
    pass is cut short by an exception, it leaves every user's post count as
    it was, and a user's reply count either as it was or raised from 0 to
    1. *)
Theorem X10_view_pass_adds_at_most_a_first_reply
    (uid : string) (view_response : pyval) (participation : gmap string counts) :
  first_reply_at_most
    (counts_of participation uid)
    (counts_of (fst (view_pass view_response participation)) uid).
Proof.
  unfold view_pass.
  destruct (negb (is_error view_response)); [| apply first_reply_refl].
  destruct (v <- get view_response "view" (PList []);; iter v) as [view | e];
    [| apply first_reply_refl].
  apply view_entries_first.
Qed.
End Counting.

Lemma X9_counts_are_the_authored_items_witness :
  let entries :=
    [PDict [("user_id", PInt 1001);
            ("recent_replies", PList [PDict [("user_id", PInt 1002)];
                                      PDict [("user_id", PInt 1001)]])];
     PDict [("recent_replies", PList [PDict [("user_id", PInt 1002)]])];
     PDict [("user_id", PInt 1002)]] in
  let participation : gmap string DiscussionAnalytics.counts :=
    {[ "1001" := {| DiscussionAnalytics.posts := 1; DiscussionAnalytics.replies := 1 |};
       "1002" := {| DiscussionAnalytics.posts := 1; DiscussionAnalytics.replies := 1 |} ]} in
  ("1002" <> "" ->
   DiscussionAnalytics.counts_of participation "1002"
   = {| DiscussionAnalytics.posts :=
          Z.of_nat (DiscussionAnalytics.posts_by (H := example_repr) "1002" entries);
        DiscussionAnalytics.replies :=
          Z.of_nat (DiscussionAnalytics.replies_by (H := example_repr) "1002" entries) |})
  /\ DiscussionAnalytics.counts_of participation "" = DiscussionAnalytics.no_counts.
Proof.
  intros entries participation.
  apply (X9_counts_are_the_authored_items (H := example_repr) "1002" entries
           participation).
  vm_compute. reflexivity.
Defined.

(** ** The watch lists of the student summary (analytics.py) *)

Section Engagement.
Context `{Repr}.
Import Analytics.

Lemma classify_student_lengths (student : pyval) (e e' : engagement) :
  classify_student student e = Ok e' ->
  (length (no_activity e') + length (low_engagement e')
   <= S (length (no_activity e) + length (low_engagement e)))%nat
  /\ (length (high_tardiness e') <= S (length (high_tardiness e)))%nat.
Proof.
  unfold classify_student. cbv zeta. intros Hc.
  destruct (get student "page_views" (PInt 0)) as [pv |];
    cbn [Py.bind] in Hc; [| discriminate].
  destruct (get student "participations" (PInt 0)) as [pa |];
    cbn [Py.bind] in Hc; [| discriminate].
  destruct (get student "tardiness_breakdown" (PDict [])) as [tardiness |];
    cbn [Py.bind] in Hc; [| discriminate].
  destruct (get tardiness "late" (PInt 0)) as [la |];
    cbn [Py.bind] in Hc; [| discriminate].
  destruct (get tardiness "missing" (PInt 0)) as [mi |];
    cbn [Py.bind] in Hc; [| discriminate].
  destruct (student_name student) as [sname |];
    cbn [Py.bind] in Hc; [| discriminate].
  match type of Hc with
  | Py.bind ?m _ = Ok _ =>
      destruct m as [e1 |] eqn:He1; cbn [Py.bind] in Hc; [| discriminate]
  end.
  assert (Hfirst :
    (length (no_activity e1) + length (low_engagement e1)
     <= S (length (no_activity e) + length (low_engagement e)))%nat
    /\ high_tardiness e1 = high_tardiness e).
  { revert He1.
    destruct (eq_num _ _ && eq_num _ _).
    - intros [= <-]. simpl. rewrite length_app. simpl. split; [lia | reflexivity].
    - destruct (lt_num _ _) as [[] |]; cbn [Py.bind]; [| | discriminate].
      + destruct (lt_num _ _) as [[] |]; cbn [Py.bind]; [| | discriminate];
          intros [= <-]; simpl; rewrite ?length_app; simpl;
          split; (lia || reflexivity).
      + intros [= <-]. split; [lia | reflexivity]. }
  destruct Hfirst as [Hlen Htardy].
  destruct (gt_num _ _) as [many_missing |]; cbn [Py.bind] in Hc; [| discriminate].
  match type of Hc with
  | Py.bind ?m _ = Ok _ =>
      destruct m as [tardy |]; cbn [Py.bind] in Hc; [| discriminate]
  end.
  destruct tardy; injection Hc as <-; simpl; rewrite ?length_app, ?Htardy; simpl; lia.
Qed.

Lemma classify_lengths (students : list pyval) (e e' : engagement) :
  classify students e = Ok e' ->
  (length (no_activity e') + length (low_engagement e')
   <= length (no_activity e) + length (low_engagement e) + length students)%nat
  /\ (length (high_tardiness e')
      <= length (high_tardiness e) + length students)%nat.
Proof.
  revert e. induction students as [| s rest IH]; intros e; simpl.
  - intros [= <-]. lia.
  - destruct (classify_student s e) as [e1 |] eqn:Hs; [| discriminate]. simpl.
    intros Hrest. apply IH in Hrest. apply classify_student_lengths in Hs. lia.
Qed.

(** X11. The loop of lines 75-94 files a student under "No Activity" or
    under "Low Engagement", never under both, and at most once under
    "Tardiness Issues": the first two lists together, and the third, are
    never longer than the list of students. *)
Theorem X11_watch_lists_are_bounded (students : list pyval) (e : engagement) :
  classify students no_engagement = Ok e ->
  (length (no_activity e) + length (low_engagement e) <= length students)%nat
  /\ (length (high_tardiness e) <= length students)%nat.
Proof. intros Hc. apply classify_lengths in Hc. simpl in Hc. exact Hc. Qed.
End Engagement.

Lemma X11_watch_lists_are_bounded_witness :
  let e :=
    {| Analytics.no_activity := [PStr "Alice"];
       Analytics.low_engagement := [PStr "Student 7"];
       Analytics.high_tardiness := [(PStr "Student 7", PInt 4, PInt 0)] |} in
  (length (Analytics.no_activity e) + length (Analytics.low_engagement e) <= 3)%nat
  /\ (length (Analytics.high_tardiness e) <= 3)%nat.
Proof.
  intros e.
  apply (X11_watch_lists_are_bounded (H := example_repr)
           [PDict [("name", PStr "Alice"); ("page_views", PInt 0);
                   ("participations", PNone)];
            PDict [("id", PInt 7); ("page_views", PInt 3); ("participations", PInt 1);
                   ("tardiness_breakdown", PDict [("late", PInt 4)])];
            PDict [("name", PStr "Carol"); ("page_views", PInt 40);
                   ("participations", PInt 12)]] e).
  vm_compute. reflexivity.
Defined.

(** ** Requests that change upstream state (gradebook.py, quizzes.py, enrollment.py) *)

(** Steps through a run against an arbitrary world. *)
Ltac run_walk :=
  repeat first
    [ rewrite run_await_bind
    | rewrite run_lift_bind
    | progress cbn [negb andb orb]
    | match goal with
      | |- context [match ?r with Ok _ => _ | Raise _ => _ end] => destruct r
      | |- context [is_error ?r] => destruct (is_error r)
      | |- context [truthy ?r] => destruct (truthy r)
      end ].

Section Writes.
Context `{Repr}.

Lemma update_assignment_group_sends (w : env) (course_identifier group_id : pyval)
    (name : option string) (weight : option num)
    (position drop_lowest drop_highest : option Z) (data : list (string * pyval)) :
  given "name" PStr name +++ given "group_weight" of_num weight
    +++ given "position" PInt position
    +++ Gradebook.rules_of drop_lowest drop_highest = data ->
  data <> [] ->
  List.filter is_mutating
    (trace w (Gradebook.update_assignment_group course_identifier group_id
                name weight position drop_lowest drop_highest))
  = [make_canvas_request "put"
       ("/courses/" ++ str (w [] (get_course_id course_identifier))
        ++ "/assignment_groups/" ++ str group_id)
       None (Some (PDict data)) false].
Proof.
  intros Hdata Hsome. unfold trace, run, Gradebook.update_assignment_group.
  rewrite run_await_bind. cbv zeta. rewrite Hdata.
  destruct data as [| field rest]; [contradiction |].
  run_walk; reflexivity.
Qed.

(** X12. [update_assignment_group] writes if and only if there is something
    to write: with all five optional arguments left out it resolves the
    course, makes no other call and answers that no update parameter was
    given; with any of them given it makes exactly one state-changing
    request, a PUT of a non-empty body to the group's endpoint, whatever the
    upstream answers. *)
Theorem X12_update_assignment_group_writes_iff_given
    (w : env) (course_identifier group_id : pyval)
    (name : option string) (weight : option num)
    (position drop_lowest drop_highest : option Z) :
  let handler := Gradebook.update_assignment_group course_identifier group_id
                   name weight position drop_lowest drop_highest in
  match name, weight, position, drop_lowest, drop_highest with
  | None, None, None, None, None =>
      run w handler
      = (Ok "No update parameters provided.", [get_course_id course_identifier])
  | _, _, _, _, _ =>
      exists data : list (string * pyval),
        data <> []
        /\ List.filter is_mutating (trace w handler)
           = [make_canvas_request "put"
                ("/courses/" ++ str (w [] (get_course_id course_identifier))
                 ++ "/assignment_groups/" ++ str group_id)
                None (Some (PDict data)) false]
  end.
Proof.
  cbv zeta.
  destruct name; [eexists; split; cycle 1; [apply update_assignment_group_sends; [reflexivity | discriminate] | discriminate] |].
  destruct weight; [eexists; split; cycle 1; [apply update_assignment_group_sends; [reflexivity | discriminate] | discriminate] |].
  destruct position; [eexists; split; cycle 1; [apply update_assignment_group_sends; [reflexivity | discriminate] | discriminate] |].
  destruct drop_lowest; [eexists; split; cycle 1; [apply update_assignment_group_sends; [reflexivity | discriminate] | discriminate] |].
  destruct drop_highest; [eexists; split; cycle 1; [apply update_assignment_group_sends; [reflexivity | discriminate] | discriminate] |].
  reflexivity.
Qed.

Lemma update_quiz_sends (w : env) (course_identifier quiz_id : pyval)
    (title description quiz_type due_at unlock_at lock_at : option string)
    (time_limit allowed_attempts : option Z) (points_possible : option num)
    (shuffle_answers show_correct_answers one_question_at_a_time published
       : option bool)
    (quiz_data : list (string * pyval)) :
  Quizzes.quiz_data_of title description quiz_type due_at unlock_at lock_at
    time_limit allowed_attempts points_possible shuffle_answers
    show_correct_answers one_question_at_a_time published = quiz_data ->
  quiz_data <> [] ->
  List.filter is_mutating
    (trace w (Quizzes.update_quiz course_identifier quiz_id title description
                quiz_type due_at unlock_at lock_at time_limit allowed_attempts
                points_possible shuffle_answers show_correct_answers
                one_question_at_a_time published))
  = [make_canvas_request "put"
       ("/courses/" ++ str (w [] (get_course_id course_identifier))
        ++ "/quizzes/" ++ str quiz_id)
       None (Some (PDict [("quiz", PDict quiz_data)])) false].
Proof.
  intros Hdata Hsome. unfold trace, run, Quizzes.update_quiz.
  rewrite run_await_bind. cbv zeta. rewrite Hdata.
  destruct quiz_data as [| field rest]; [contradiction |].
  run_walk; reflexivity.
Qed.

Ltac quiz_field_given :=
  eexists; split; cycle 1;
  [apply update_quiz_sends; [reflexivity | discriminate] | discriminate].

(** X13. [update_quiz] writes if and only if there is something to write:
    with all thirteen optional arguments left out it resolves the course,
    makes no other call and answers that no update parameter was given;
    with any of them given it makes exactly one state-changing request, a
    PUT of a non-empty [quiz] body to the quiz's endpoint, whatever the
    upstream answers. *)
Theorem X13_update_quiz_writes_iff_given
    (w : env) (course_identifier quiz_id : pyval)
    (title description quiz_type due_at unlock_at lock_at : option string)
    (time_limit allowed_attempts : option Z) (points_possible : option num)
    (shuffle_answers show_correct_answers one_question_at_a_time published
       : option bool) :
  let handler := Quizzes.update_quiz course_identifier quiz_id title description
                   quiz_type due_at unlock_at lock_at time_limit allowed_attempts
                   points_possible shuffle_answers show_correct_answers
                   one_question_at_a_time published in
  match title, description, quiz_type, due_at, unlock_at, lock_at, time_limit,
        allowed_attempts, points_possible, shuffle_answers, show_correct_answers,
        one_question_at_a_time, published with
  | None, None, None, None, None, None, None, None, None, None, None, None, None =>
      run w handler
      = (Ok "No update parameters provided.", [get_course_id course_identifier])
  | _, _, _, _, _, _, _, _, _, _, _, _, _ =>
      exists quiz_data : list (string * pyval),
        quiz_data <> []
        /\ List.filter is_mutating (trace w handler)
           = [make_canvas_request "put"
                ("/courses/" ++ str (w [] (get_course_id course_identifier))
                 ++ "/quizzes/" ++ str quiz_id)
                None (Some (PDict [("quiz", PDict quiz_data)])) false]
  end.
Proof.
  cbv zeta.
  destruct title; [quiz_field_given |].
  destruct description; [quiz_field_given |].
  destruct quiz_type; [quiz_field_given |].
  destruct due_at; [quiz_field_given |].
  destruct unlock_at; [quiz_field_given |].
  destruct lock_at; [quiz_field_given |].
  destruct time_limit; [quiz_field_given |].
  destruct allowed_attempts; [quiz_field_given |].
  destruct points_possible; [quiz_field_given |].
  destruct shuffle_answers; [quiz_field_given |].
  destruct show_correct_answers; [quiz_field_given |].
  destruct one_question_at_a_time; [quiz_field_given |].
  destruct published; [quiz_field_given |].
  reflexivity.
Qed.

(** X14. [configure_late_policy] writes the policy exactly once, whatever
    the upstream answers: one request to the late-policy endpoint carrying
    all seven settings, sent as a PUT exactly when the preceding GET
    answered with a dictionary that has no ["error"] key and a truthy
    ["late_policy"], and as a POST in every other case (an error, a payload
    that is not a dictionary, no policy yet). *)
Theorem X14_late_policy_is_written_once
    (w : env) (course_identifier : pyval)
    (late_submission_deduction_enabled : bool)
    (late_submission_deduction : num)
    (late_submission_interval : string)
    (late_submission_minimum_percent_enabled : bool)
    (late_submission_minimum_percent : num)
    (missing_submission_deduction_enabled : bool)
    (missing_submission_deduction : num) :
  let course_id := w [] (get_course_id course_identifier) in
  let path := "/courses/" ++ str course_id ++ "/late_policy" in
  let existing :=
    w [get_course_id course_identifier]
      (make_canvas_request "get" path None None false) in
  exists (method : string) (policy : list (string * pyval)),
    List.filter is_mutating
      (trace w (Gradebook.configure_late_policy course_identifier
                  late_submission_deduction_enabled late_submission_deduction
                  late_submission_interval late_submission_minimum_percent_enabled
                  late_submission_minimum_percent
                  missing_submission_deduction_enabled missing_submission_deduction))
    = [make_canvas_request method path None
         (Some (PDict [("late_policy", PDict policy)])) false]
    /\ map fst policy
       = ["late_submission_deduction_enabled"; "late_submission_deduction";
          "late_submission_interval"; "late_submission_minimum_percent";
          "missing_submission_deduction_enabled"; "missing_submission_deduction";
          "late_submission_minimum_percent_enabled"]
    /\ (method = "put" \/ method = "post")
    /\ (method = "put" <->
        is_error existing = false
        /\ exists found, getitem existing "late_policy" = Ok found
                         /\ truthy found = true).
Proof.
  cbv zeta. unfold trace, run, Gradebook.configure_late_policy.
  rewrite run_await_bind, run_await_bind.
  set (course_id := w [] (get_course_id course_identifier)).
  set (existing := w _ (make_canvas_request "get" _ None None false)).
  clearbody existing.
  assert (Hpolicy :
    Gradebook.has_late_policy existing = true <->
    is_error existing = false
    /\ exists found, getitem existing "late_policy" = Ok found /\ truthy found = true).
  { destruct existing as [| b | z | f | s | l | d]; simpl;
      try (split; [discriminate | intros [_ (x & Hx & _)]; discriminate]).
    unfold has_key. destruct (assoc "error" d); simpl.
    - split; [discriminate | intros [Hd _]; discriminate].
    - destruct (assoc "late_policy" d) as [found |]; simpl.
      + split; [intros Ht; split; [reflexivity | exists found; auto] |
                intros [_ (x & [= <-] & Ht)]; exact Ht].
      + split; [discriminate | intros [_ (x & Hx & _)]; discriminate]. }
  rewrite run_await_bind.
  destruct (Gradebook.has_late_policy existing) eqn:Hhas.
  - exists "put". eexists. split; [| split; [| split]].
    + run_walk; reflexivity.
    + reflexivity.
    + auto.
    + split; [intros _; apply Hpolicy; reflexivity | reflexivity].
  - exists "post". eexists. split; [| split; [| split]].
    + run_walk; reflexivity.
    + reflexivity.
    + auto.
    + split; [discriminate |].
      intros Hfound. apply Hpolicy in Hfound. discriminate.
Qed.

(** X15. [delete_quiz] looks the quiz up only for its title: whatever the
    GET answers (an error, a payload of any shape), the handler goes on to
    send the DELETE for the quiz, and that is its only state-changing
    request. *)
Theorem X15_delete_quiz_deletes_whatever_the_lookup_says
    (w : env) (course_identifier quiz_id : pyval) :
  List.filter is_mutating (trace w (Quizzes.delete_quiz course_identifier quiz_id))
  = [make_canvas_request "delete"
       ("/courses/" ++ str (w [] (get_course_id course_identifier))
        ++ "/quizzes/" ++ str quiz_id) None None false].
Proof.
  unfold trace, run, Quizzes.delete_quiz.
  rewrite run_await_bind, run_await_bind.
  match goal with
  | |- context [lift (if ?b then get ?q ?k ?d else _)] =>
      assert (Htitle : exists t, (if b then get q k d else Ok (PStr "Unknown")) = Ok t)
  end.
  { match goal with |- context [is_dict ?q] => destruct q end;
      simpl; eauto. destruct (negb _); eauto. }
  destruct Htitle as [t Ht]. rewrite run_lift_bind, Ht.
  run_walk; reflexivity.
Qed.


(** X16. [create_user] makes exactly one call, whatever the upstream
    answers: the POST to the account's users endpoint, with
    [skip_anonymization=True] and without resolving any course. The login
    sent as [unique_id] is [login_id] when that is given and not empty, and
    the email otherwise; [sis_user_id] is sent only when given and not
    empty. *)
Theorem X16_create_user_posts_once (w : env) (account_id : pyval) (name email : string)
    (login_id sis_user_id : option string)
    (send_confirmation skip_confirmation : bool) :
  exists pseudonym : list (string * pyval),
    trace w (Enrollment.create_user account_id name email login_id sis_user_id
               send_confirmation skip_confirmation)
    = [make_canvas_request "post" ("/accounts/" ++ str account_id ++ "/users") None
         (Some (PDict [("user",
                        PDict [("name", PStr name);
                               ("skip_registration", PBool skip_confirmation)]);
                       ("pseudonym", PDict pseudonym);
                       ("communication_channel",
                        PDict [("type", PStr "email");
                               ("address", PStr email);
                               ("skip_confirmation", PBool skip_confirmation)])]))
         true]
    /\ assoc "unique_id" pseudonym
       = Some (PStr (match login_id with
                     | Some login => if String.eqb login "" then email else login
                     | None => email
                     end))
    /\ assoc "sis_user_id" pseudonym
       = match sis_user_id with
         | Some sis => if String.eqb sis "" then None else Some (PStr sis)
         | None => None
         end.
Proof.
  eexists. split; [| split].
  - unfold trace, run, Enrollment.create_user. cbv zeta.
    run_walk; reflexivity.
  - reflexivity.
  - destruct sis_user_id as [sis |]; [| reflexivity].
    simpl. destruct (String.eqb sis ""); reflexivity.
Qed.

(** X17. [get_assignment_groups], [list_quiz_questions],
    [get_quiz_statistics] and [export_discussion_data] are read-only: on
    every run, returning or raising, they make no call that changes
    upstream state. *)
Theorem X17_listings_are_read_only
    (w : env) (course_identifier quiz_id topic_id : pyval) (format : string) :
  Forall (fun c => is_mutating c = false)
    (trace w (Gradebook.get_assignment_groups course_identifier))
  /\ Forall (fun c => is_mutating c = false)
       (trace w (Quizzes.list_quiz_questions course_identifier quiz_id))
  /\ Forall (fun c => is_mutating c = false)
       (trace w (Quizzes.get_quiz_statistics course_identifier quiz_id))
  /\ Forall (fun c => is_mutating c = false)
       (trace w (DiscussionAnalytics.export_discussion_data course_identifier
                   topic_id format)).
Proof.
  split; [| split; [| split]];
    apply (meets_run (fun c => is_mutating c = false) (fun _ => True) (fun _ => True)).
  - unfold Gradebook.get_assignment_groups.
    repeat (first [meets_step | apply meets_bind]; trivial).
  - unfold Quizzes.list_quiz_questions.
    repeat (first [meets_step | apply meets_bind]; trivial).
  - unfold Quizzes.get_quiz_statistics.
    repeat (first [meets_step | apply meets_bind]; trivial).
  - unfold DiscussionAnalytics.export_discussion_data.
    repeat (first [meets_step | apply meets_bind]; trivial).
Qed.


End Writes.

(** ** Markup tags and previews (quizzes.py, discussion_analytics.py) *)

Section Tags.

Lemma no_gt_app (a b : string) : no_gt (a ++ b) = no_gt a && no_gt b.
Proof.
  induction a as [| x a IH]; [reflexivity |].
  change (String x a ++ b) with (String x (a ++ b)). cbn [no_gt].
  rewrite IH, andb_assoc. reflexivity.
Qed.

Lemma no_gt_has_tag (opened : bool) (s : string) :
  no_gt s = true -> has_tag_from opened s = false.
Proof.
  revert opened. induction s as [| a rest IH]; intros opened; [reflexivity |].
  cbn [no_gt has_tag_from]. intros Hs. apply andb_prop in Hs. destruct Hs as [Ha Hrest].
  apply negb_true_iff in Ha. rewrite Ha. destruct opened; simpl; [apply IH, Hrest |].
  destruct (Ascii.eqb a "<"); [| apply IH, Hrest].
  destruct rest as [| b rest']; [reflexivity |]. apply IH, Hrest.
Qed.

Lemma has_tag_opened (s : string) :
  has_tag_from true s = false -> has_tag_from false s = false.
Proof.
  induction s as [| a rest IH]; [reflexivity |].
  cbn [has_tag_from]. intros Hs. apply orb_false_elim in Hs. destruct Hs as [_ Hrest].
  destruct (Ascii.eqb a "<"); [| apply IH, Hrest].
  destruct rest as [| b rest']; [reflexivity |].
  destruct (negb (Ascii.eqb b ">")); [exact Hrest | apply IH, Hrest].
Qed.

Lemma append_String (x : ascii) (a b : string) :
  String x a ++ b = String x (a ++ b).
Proof. reflexivity. Qed.

Lemma append_nil_r (a : string) : a ++ "" = a.
Proof.
  induction a as [| x a IH]; [reflexivity |]. rewrite append_String, IH. reflexivity.
Qed.

(** A text that holds no tag holds none in any of its parts. *)
Lemma has_tag_prefix (opened : bool) (t b : string) :
  has_tag_from opened (t ++ b) = false -> has_tag_from opened t = false.
Proof.
  revert opened. induction t as [| x t IH]; intros opened; [reflexivity |].
  rewrite append_String. cbn [has_tag_from]. destruct opened.
  - intros Hs. apply orb_false_elim in Hs. destruct Hs as [-> Hrest].
    simpl. apply IH, Hrest.
  - destruct (Ascii.eqb x "<"); [| apply IH].
    destruct t as [| y t']; [reflexivity |].
    rewrite append_String. apply IH.
Qed.

Lemma has_tag_suffix (opened : bool) (a t : string) :
  has_tag_from opened (a ++ t) = false -> has_tag_from false t = false.
Proof.
  revert opened. induction a as [| x a IH]; intros opened.
  - change ("" ++ t) with t. destruct opened; [apply has_tag_opened | auto].
  - rewrite append_String. cbn [has_tag_from]. destruct opened.
    + intros Hs. apply orb_false_elim in Hs. destruct Hs as [_ Hrest].
      apply (IH _ Hrest).
    + destruct (Ascii.eqb x "<"); [| apply IH].
      remember (a ++ t) as u eqn:Hu. destruct u as [| y rest].
      * intros _. destruct a; [| discriminate]. change ("" = t) in Hu.
        subst t. reflexivity.
      * apply IH.
Qed.

Lemma has_tag_app_no_gt (opened : bool) (t b : string) :
  no_gt b = true -> has_tag_from opened t = false ->
  has_tag_from opened (t ++ b) = false.
Proof.
  intros Hb. revert opened. induction t as [| x t IH]; intros opened.
  - intros _. apply no_gt_has_tag, Hb.
  - rewrite append_String. cbn [has_tag_from]. destruct opened.
    + intros Hs. apply orb_false_elim in Hs. destruct Hs as [-> Hrest].
      simpl. apply IH, Hrest.
    + destruct (Ascii.eqb x "<"); [| apply IH].
      destruct t as [| y t'].
      * intros _. change ("" ++ b) with b. destruct b as [| z b']; [reflexivity |].
        apply no_gt_has_tag, Hb.
      * rewrite append_String. apply IH.
Qed.

Lemma strip_tags_from_spec (s : string) :
  has_tag_from false (strip_tags_from None s) = false
  /\ forall text : string,
       no_gt text = true ->
       has_tag_from false (strip_tags_from (Some text) s) = false
       \/ (strip_tags_from (Some text) s = text ++ s /\ no_gt s = true).
Proof.
  induction s as [| a rest [IHnone IHsome]].
  - split; [reflexivity |]. intros text Htext. right. simpl.
    rewrite append_nil_r. auto.
  - split.
    + cbn [strip_tags_from]. destruct (Ascii.eqb a "<") eqn:Ha.
      * destruct rest as [| b rest'].
        -- simpl. rewrite Ha. reflexivity.
        -- destruct (Ascii.eqb b ">") eqn:Hb.
           ++ apply Ascii.eqb_eq in Ha, Hb. subst a b.
              cbn in IHnone |- *. exact IHnone.
           ++ destruct (IHsome (String a EmptyString)) as [Hfree | [Heq Hrest]].
              ** simpl. apply Ascii.eqb_eq in Ha. subst a. reflexivity.
              ** exact Hfree.
              ** rewrite Heq. apply no_gt_has_tag. rewrite no_gt_app, Hrest.
                 apply Ascii.eqb_eq in Ha. subst a. reflexivity.
      * cbn [has_tag_from]. rewrite Ha. exact IHnone.
    + intros text Htext. cbn [strip_tags_from]. destruct (Ascii.eqb a ">") eqn:Ha.
      * left. exact IHnone.
      * destruct (IHsome (text ++ String a EmptyString)) as [Hfree | [Heq Hrest]].
        -- rewrite no_gt_app, Htext. simpl. rewrite Ha. reflexivity.
        -- left. exact Hfree.
        -- right. rewrite Heq, append_assoc. split; [reflexivity |].
           simpl. rewrite Ha, Hrest. reflexivity.
Qed.

Lemma strip_tags_free (s : string) : has_tag (strip_tags s) = false.
Proof. apply strip_tags_from_spec. Qed.

Lemma strip_tags_from_id (pending : option string) (s : string) :
  has_tag_from (match pending with Some _ => true | None => false end) s = false ->
  strip_tags_from pending s = default "" pending ++ s.
Proof.
  revert pending. induction s as [| a rest IH]; intros pending.
  - intros _. simpl. rewrite append_nil_r. reflexivity.
  - destruct pending as [text |]; cbn [has_tag_from strip_tags_from default].
    + intros Hs. apply orb_false_elim in Hs. destruct Hs as [-> Hrest].
      rewrite (IH (Some _)); [| exact Hrest]. simpl. rewrite append_assoc. reflexivity.
    + destruct (Ascii.eqb a "<").
      * destruct rest as [| b rest']; [reflexivity |].
        destruct (Ascii.eqb b ">"); cbn [negb]; intros Hrest.
        -- rewrite (IH None); [reflexivity | exact Hrest].
        -- rewrite (IH (Some _)); [reflexivity | exact Hrest].
      * intros Hrest. rewrite (IH None); [reflexivity | exact Hrest].
Qed.
End Tags.

Section Chars.

Lemma concat_cons (x : string) (l : list string) :
  String.concat "" (x :: l) = x ++ String.concat "" l.
Proof.
  destruct l as [| y l]; simpl; [rewrite append_nil_r; reflexivity | reflexivity].
Qed.

Lemma concat_app (l1 l2 : list string) :
  String.concat "" (l1 +++ l2) = String.concat "" l1 ++ String.concat "" l2.
Proof.
  induction l1 as [| x l1 IH]; [reflexivity |].
  change ((x :: l1) +++ l2) with (x :: (l1 +++ l2)).
  rewrite !concat_cons, IH, append_assoc. reflexivity.
Qed.

Lemma concat_chars_from (cur s : string) :
  String.concat "" (chars_from cur s) = cur ++ s.
Proof.
  revert cur. induction s as [| a rest IH]; intros cur; cbn [chars_from].
  - rewrite concat_cons. reflexivity.
  - destruct (is_continuation a).
    + rewrite IH, append_assoc. reflexivity.
    + rewrite concat_cons, IH. reflexivity.
Qed.

(** A string is the concatenation of its characters. *)
Lemma concat_chars (s : string) : String.concat "" (chars s) = s.
Proof.
  destruct s as [| a rest]; [reflexivity |]. unfold chars.
  rewrite concat_chars_from. reflexivity.
Qed.

Lemma str_len_app (a b : string) : str_len (a ++ b) = (str_len a + str_len b)%nat.
Proof.
  induction a as [| x a IH]; [reflexivity |].
  rewrite append_String. cbn [str_len]. rewrite IH. lia.
Qed.

Lemma chars_from_short (cur s : string) :
  (str_len cur <= 1)%nat -> Forall (fun c => (str_len c <= 1)%nat) (chars_from cur s).
Proof.
  revert cur. induction s as [| a rest IH]; intros cur Hcur; cbn [chars_from].
  - constructor; [exact Hcur | constructor].
  - destruct (is_continuation a) eqn:Ha.
    + apply IH. rewrite str_len_app. cbn [str_len]. rewrite Ha. lia.
    + constructor; [exact Hcur |]. apply IH. cbn [str_len]. rewrite Ha. lia.
Qed.

Lemma chars_short (s : string) : Forall (fun c => (str_len c <= 1)%nat) (chars s).
Proof.
  destruct s as [| a rest]; [constructor |]. unfold chars.
  apply chars_from_short. cbn [str_len]. destruct (is_continuation a); simpl; lia.
Qed.

Lemma str_len_concat (l : list string) :
  Forall (fun c => (str_len c <= 1)%nat) l ->
  (str_len (String.concat "" l) <= length l)%nat.
Proof.
  induction 1 as [| c l Hc _ IH]; [simpl; lia |].
  rewrite concat_cons, str_len_app. simpl. lia.
Qed.

(** A slice holds at most as many characters as were asked for, and is the
    beginning of the string. *)
Lemma str_slice_to_len (n : nat) (s : string) : (str_len (str_slice_to n s) <= n)%nat.
Proof.
  unfold str_slice_to.
  pose proof (str_len_concat (firstn n (chars s))
                (Forall_take _ n _ (chars_short s))) as Hlen.
  pose proof (firstn_le_length n (chars s)). lia.
Qed.

Lemma str_slice_to_prefix (n : nat) (s : string) :
  s = str_slice_to n s ++ String.concat "" (skipn n (chars s)).
Proof.
  unfold str_slice_to. rewrite <- concat_app, firstn_skipn, concat_chars. reflexivity.
Qed.

Lemma shorten_len (n : nat) (s : string) : (str_len (shorten n s) <= n + 3)%nat.
Proof.
  unfold shorten. destruct (n <? str_len s)%nat eqn:Hlong.
  - rewrite str_len_app. pose proof (str_slice_to_len n s). simpl. lia.
  - apply Nat.ltb_ge in Hlong. lia.
Qed.

Lemma lstrip_chars_suffix (l : list string) :
  exists dropped, l = dropped +++ lstrip_chars l.
Proof.
  induction l as [| c l [dropped IH]]; [exists []; reflexivity |].
  cbn [lstrip_chars]. destruct (is_space c).
  - exists (c :: dropped). simpl. f_equal. exact IH.
  - exists []. reflexivity.
Qed.

(** What [strip] returns is a part of the string. *)
Lemma strip_part (s : string) : exists a b, s = a ++ strip s ++ b.
Proof.
  unfold strip.
  destruct (lstrip_chars_suffix (chars s)) as [left_part Hleft].
  destruct (lstrip_chars_suffix (rev (lstrip_chars (chars s)))) as [right_part Hright].
  exists (String.concat "" left_part), (String.concat "" (rev right_part)).
  rewrite <- !concat_app.
  rewrite <- rev_app_distr, <- Hright, rev_involutive, <- Hleft, concat_chars.
  reflexivity.
Qed.

Lemma strip_len (s : string) : (str_len (strip s) <= str_len s)%nat.
Proof.
  destruct (strip_part s) as (a & b & Hs). rewrite Hs at 2.
  rewrite !str_len_app. lia.
Qed.
End Chars.

Section Previews.
Context `{Repr}.

Lemma has_tag_part (a t b : string) :
  has_tag (a ++ t ++ b) = false -> has_tag t = false.
Proof.
  unfold has_tag. intros Hs. apply has_tag_suffix in Hs.
  apply has_tag_prefix in Hs. exact Hs.
Qed.

Lemma shorten_free (n : nat) (s : string) :
  has_tag s = false -> has_tag (shorten n s) = false.
Proof.
  intros Hs. unfold shorten. destruct (n <? str_len s)%nat; [| exact Hs].
  apply has_tag_app_no_gt; [reflexivity |].
  rewrite (str_slice_to_prefix n s) in Hs. apply has_tag_prefix in Hs. exact Hs.
Qed.

(** X18. The question text shown by [list_quiz_questions] and
    [get_quiz_statistics] is plain and short: whatever string the upstream
    sends, what is shown holds no markup tag and at most [limit]
    characters plus the three of the ellipsis. *)
Theorem X18_cleaned_text_is_short_and_plain (limit : nat) (text : pyval) (shown : string) :
  Quizzes.clean_text limit text = Ok shown ->
  (str_len shown <= limit + 3)%nat /\ has_tag shown = false.
Proof.
  unfold Quizzes.clean_text, sub_tags.
  destruct text; try discriminate. simpl. intros [= <-]. split.
  - apply shorten_len.
  - apply shorten_free.
    destruct (strip_part (strip_tags s)) as (a & b & Hs).
    apply (has_tag_part a _ b). rewrite <- Hs. apply strip_tags_free.
Qed.

(** X19. The message preview of the CSV export is plain and short:
    whenever it is computed, it holds no markup tag and at most 200
    characters. *)
Theorem X19_message_preview_is_short_and_plain (msg : pyval) (shown : string) :
  DiscussionAnalytics.message_preview msg = Ok shown ->
  (str_len shown <= 200)%nat /\ has_tag shown = false.
Proof.
  unfold DiscussionAnalytics.message_preview, sub_tags.
  destruct (truthy msg); [| intros [= <-]; split; [simpl; lia | reflexivity]].
  destruct msg; try discriminate. simpl. intros [= <-]. split.
  - apply str_slice_to_len.
  - pose proof (strip_tags_free s) as Hfree. unfold has_tag in *.
    rewrite (str_slice_to_prefix 200 (strip_tags s)) in Hfree.
    apply has_tag_prefix in Hfree. exact Hfree.
Qed.

(** X20. A plain message is exported as it is: a message that holds no
    markup tag and at most 200 characters is its own preview. *)
Theorem X20_plain_message_is_exported_unchanged (s : string) :
  has_tag s = false -> (length (chars s) <= 200)%nat ->
  DiscussionAnalytics.message_preview (PStr s) = Ok s.
Proof.
  intros Hplain Hshort. unfold DiscussionAnalytics.message_preview.
  destruct (truthy (PStr s)) eqn:Hs.
  - unfold sub_tags. cbn [Py.bind]. f_equal. unfold strip_tags.
    rewrite (strip_tags_from_id None s Hplain). change (default "" None ++ s) with s.
    unfold str_slice_to. rewrite firstn_all2 by exact Hshort. apply concat_chars.
  - simpl in Hs. apply negb_false_iff, String.eqb_eq in Hs. subst s. reflexivity.
Qed.
End Previews.

(** ** The discussion export (discussion_analytics.py) *)

Lemma size_add (x : string) (u : gset string) : (size ({[ x ]} ∪ u) <= S (size u))%nat.
Proof.
  rewrite size_union_alt, size_singleton.
  assert (Hsub : u ∖ {[ x ]} ⊆ u).
  { intros y Hy. apply elem_of_difference in Hy. tauto. }
  apply subseteq_size in Hsub. lia.
Qed.

Section DiscussionExport.
Context `{Repr}.
Import DiscussionAnalytics.

Lemma for_each_Forall2 {A B : Type} (f : A -> result B) (l : list A) (ys : list B) :
  for_each f l = Ok ys -> Forall2 (fun x y => f x = Ok y) l ys.
Proof.
  revert ys. induction l as [| x l IH]; intros ys; simpl.
  - intros [= <-]. constructor.
  - destruct (f x) as [y |] eqn:Hx; [| discriminate]. simpl.
    destruct (for_each f l) as [ys' |]; [| discriminate]. simpl.
    intros [= <-]. constructor; auto.
Qed.

Lemma get_is_dict (v : pyval) (k : string) (d x : pyval) :
  get v k d = Ok x -> is_dict v = true.
Proof. destruct v; simpl; intros Hx; (discriminate || reflexivity). Qed.

Lemma chars_nil (s : string) : chars s = [] -> s = "".
Proof.
  destruct s as [| a rest]; [reflexivity |]. unfold chars.
  destruct rest as [| b rest']; simpl; [discriminate |].
  destruct (is_continuation b); [| discriminate].
  intros Hc. exfalso. revert Hc. generalize (String a EmptyString ++ String b EmptyString).
  induction rest' as [| c r IH]; intros cur; simpl; [discriminate |].
  destruct (is_continuation c); [apply IH | discriminate].
Qed.

(** What is iterated as a sequence of dictionaries has the length [len]
    reports. *)
Lemma len_of_dicts (rs : pyval) (items : list pyval) :
  iter rs = Ok items -> Forall (fun x => is_dict x = true) items ->
  len rs = Ok (Z.of_nat (length items)).
Proof.
  destruct rs as [| b | z | f | s | l | d]; simpl; try discriminate.
  - intros [= <-] Hd. destruct (chars s) as [| c cs] eqn:Hs.
    + apply chars_nil in Hs. subst s. reflexivity.
    + inversion Hd; discriminate.
  - intros [= <-] _. reflexivity.
  - intros [= <-] Hd. destruct d as [| kv d]; [reflexivity |].
    inversion Hd; discriminate.
Qed.

Lemma reply_row_spec (entry reply : pyval) (row : list pyval) :
  reply_row entry reply = Ok row -> length row = 7%nat /\ is_dict reply = true.
Proof.
  unfold reply_row. intros Hrow.
  destruct (get reply "message" (PStr "")) as [m |] eqn:Hm; [| discriminate].
  split; [| exact (get_is_dict _ _ _ _ Hm)].
  revert Hrow. cbn [Py.bind].
  repeat match goal with
         | |- (Py.bind ?m _ = Ok _) -> _ => destruct m; cbn [Py.bind]; [| discriminate]
         end.
  intros [= <-]. reflexivity.
Qed.

Lemma entry_rows_spec (entry : pyval) (rows : list (list pyval)) :
  entry_rows entry = Ok rows ->
  Forall (fun row => length row = 7%nat) rows
  /\ exists rs : pyval,
       get entry "recent_replies" (PList []) = Ok rs
       /\ len rs = Ok (Z.of_nat (length rows) - 1).
Proof.
  unfold entry_rows.
  repeat match goal with
         | |- (Py.bind (get entry "recent_replies" _) _ = Ok _) -> _ => fail 1
         | |- (Py.bind ?m _ = Ok _) -> _ => destruct m; cbn [Py.bind]; [| discriminate]
         end.
  destruct (get entry "recent_replies" (PList [])) as [rs |]; [| discriminate].
  cbn [Py.bind]. destruct (iter rs) as [items |] eqn:Hiter; [| discriminate].
  cbn [Py.bind].
  destruct (for_each (reply_row entry) items) as [reply_rows |] eqn:Heach;
    [| discriminate].
  cbn [Py.bind]. intros [= <-].
  apply for_each_Forall2 in Heach.
  assert (Hrows : Forall (fun row => length row = 7%nat) reply_rows
                  /\ Forall (fun x => is_dict x = true) items
                  /\ length reply_rows = length items).
  { clear Hiter. induction Heach as [| x y l l' Hxy _ IH].
    - repeat constructor.
    - apply reply_row_spec in Hxy. destruct Hxy, IH as (? & ? & ?).
      repeat constructor; auto. simpl. congruence. }
  destruct Hrows as (Hseven & Hdicts & Hlen). split.
  - constructor; [reflexivity | exact Hseven].
  - exists rs. split; [reflexivity |].
    rewrite (len_of_dicts _ _ Hiter Hdicts). f_equal. simpl length. lia.
Qed.

Lemma export_rows_count (entries_list : list pyval) (rows : list (list (list pyval)))
    (total : Z) :
  for_each entry_rows entries_list = Ok rows ->
  Forall (fun row => length row = 7%nat) (concat rows)
  /\ count_recent_replies entries_list total
     = Ok (total + Z.of_nat (length (concat rows)) - Z.of_nat (length entries_list)).
Proof.
  revert rows total. induction entries_list as [| e rest IH]; intros rows total; simpl.
  - intros [= <-]. split; [constructor |]. f_equal. simpl. lia.
  - destruct (entry_rows e) as [erows |] eqn:He; [| discriminate]. simpl.
    destruct (for_each entry_rows rest) as [rrows |] eqn:Hrest; [| discriminate].
    simpl. intros [= <-].
    apply entry_rows_spec in He. destruct He as (Hseven & rs & Hrs & Hlen).
    destruct (IH rrows (total + (Z.of_nat (length erows) - 1)) eq_refl)
      as [Hrseven Hcount].
    split.
    + simpl. apply Forall_app. auto.
    + rewrite Hrs. simpl. rewrite Hlen. simpl. rewrite Hcount. f_equal.
      simpl. rewrite length_app. lia.
Qed.

(** X21. The CSV export is well formed: when the rows are computed, every
    row has the seven cells of the header, and there is one row for the
    header, one per entry and one per recent reply, the replies being
    counted as the summary format counts them. *)
Theorem X21_export_rows_are_well_formed
    (entries_list : list pyval) (rows : list (list pyval)) :
  export_rows entries_list = Ok rows ->
  Forall (fun row => length row = 7%nat) rows
  /\ exists total_replies : Z,
       count_recent_replies entries_list 0 = Ok total_replies
       /\ Z.of_nat (length rows)
          = 1 + Z.of_nat (length entries_list) + total_replies.
Proof.
  unfold export_rows.
  destruct (for_each entry_rows entries_list) as [rowss |] eqn:Heach; [| discriminate].
  simpl. intros [= <-].
  destruct (export_rows_count _ _ 0 Heach) as [Hseven Hcount].
  split; [constructor; [reflexivity | exact Hseven] |].
  eexists. split; [exact Hcount |]. simpl length. lia.
Qed.
Lemma add_user_spec (x : pyval) (u u' : gset string) :
  add_user x u = Ok u' -> (size u' <= S (size u))%nat /\ is_dict x = true.
Proof.
  unfold add_user. destruct (get x "user_id" PNone) as [uid |] eqn:Hget;
    [| discriminate].
  cbn [Py.bind]. intros Hx. split; [| exact (get_is_dict _ _ _ _ Hget)].
  destruct (truthy uid).
  - destruct (getitem x "user_id") as [uid' |]; [| discriminate].
    injection Hx as <-. apply size_add.
  - injection Hx as <-. lia.
Qed.

Lemma add_users_spec (l : list pyval) (u u' : gset string) :
  add_users l u = Ok u' ->
  (size u' <= size u + length l)%nat /\ Forall (fun x => is_dict x = true) l.
Proof.
  revert u. induction l as [| x l IH]; intros u; simpl.
  - intros [= <-]. split; [lia | constructor].
  - destruct (add_user x u) as [u1 |] eqn:Hx; [| discriminate]. simpl.
    intros Hrest. apply add_user_spec in Hx. apply IH in Hrest.
    destruct Hx, Hrest. split; [lia | constructor; auto].
Qed.

Lemma collect_users_spec (entries_list : list pyval) (u u' : gset string) (total : Z) :
  collect_users entries_list u = Ok u' ->
  exists replies : Z,
    count_recent_replies entries_list total = Ok (total + replies)
    /\ 0 <= replies
    /\ Z.of_nat (size u')
       <= Z.of_nat (size u) + Z.of_nat (length entries_list) + replies.
Proof.
  revert u total. induction entries_list as [| e rest IH]; intros u total; simpl.
  - intros [= <-]. exists 0. split; [f_equal; lia | lia].
  - destruct (add_user e u) as [u1 |] eqn:He; [| discriminate]. simpl.
    destruct (get e "recent_replies" (PList [])) as [rs |]; [| discriminate]. simpl.
    destruct (iter rs) as [items |] eqn:Hiter; [| discriminate]. simpl.
    destruct (add_users items u1) as [u2 |] eqn:Hitems; [| discriminate]. simpl.
    intros Hrest. apply add_user_spec in He. apply add_users_spec in Hitems.
    destruct He as [He _], Hitems as [Hitems Hdicts].
    rewrite (len_of_dicts _ _ Hiter Hdicts). simpl.
    destruct (IH u2 (total + Z.of_nat (length items)) Hrest)
      as (replies & Hcount & Hpos & Hsize).
    exists (Z.of_nat (length items) + replies).
    split; [rewrite Hcount; f_equal; lia | lia].
Qed.

(** X22. In the summary format the unique participants never outnumber
    the interactions: when the set of participants is computed, the reply
    total is computed too, and the size of the set is at most the number of
    entries plus that total. *)
Theorem X22_participants_are_at_most_the_interactions
    (entries_list : list pyval) (unique_users : gset string) :
  collect_users entries_list ∅ = Ok unique_users ->
  exists total_replies : Z,
    count_recent_replies entries_list 0 = Ok total_replies
    /\ 0 <= total_replies
    /\ Z.of_nat (size unique_users)
       <= Z.of_nat (length entries_list) + total_replies.
Proof.
  intros Hcollect.
  destruct (collect_users_spec _ _ _ 0 Hcollect) as (replies & Hcount & Hpos & Hsize).
  exists replies. rewrite size_empty in Hsize. simpl in Hcount.
  split; [exact Hcount | lia].
Qed.
End DiscussionExport.

Lemma X18_cleaned_text_is_short_and_plain_witness :
  (str_len "What is 2 ..." <= 10 + 3)%nat /\ has_tag "What is 2 ..." = false.
Proof.
  apply (X18_cleaned_text_is_short_and_plain 10
           (PStr "  <p>What is <b>2 + 2</b>?</p> ") "What is 2 ...").
  vm_compute. reflexivity.
Defined.

Lemma X19_message_preview_is_short_and_plain_witness :
  (str_len "I agree with Bob." <= 200)%nat /\ has_tag "I agree with Bob." = false.
Proof.
  apply (X19_message_preview_is_short_and_plain
           (PStr "<p>I agree with <a href='/users/2'>Bob</a>.</p>")
           "I agree with Bob.").
  vm_compute. reflexivity.
Defined.

Lemma X20_plain_message_is_exported_unchanged_witness :
  DiscussionAnalytics.message_preview (PStr "2 <> 3, and 3 > 2") = Ok "2 <> 3, and 3 > 2".
Proof.
  apply (X20_plain_message_is_exported_unchanged "2 <> 3, and 3 > 2");
    [reflexivity | simpl; lia].
Defined.

Lemma X21_export_rows_are_well_formed_witness :
  exists rows : list (list pyval),
    DiscussionAnalytics.export_rows
      [PDict [("id", PInt 1); ("user_id", PInt 1001); ("message", PStr "<p>Hello</p>");
              ("recent_replies",
               PList [PDict [("id", PInt 2); ("user_id", PInt 1002);
                             ("message", PStr "Hi, Alice")]])];
       PDict [("id", PInt 3); ("user_id", PInt 1002)]]
    = Ok rows
    /\ Forall (fun row => length row = 7%nat) rows
    /\ exists total_replies : Z,
         DiscussionAnalytics.count_recent_replies
           [PDict [("id", PInt 1); ("user_id", PInt 1001);
                   ("message", PStr "<p>Hello</p>");
                   ("recent_replies",
                    PList [PDict [("id", PInt 2); ("user_id", PInt 1002);
                                  ("message", PStr "Hi, Alice")]])];
            PDict [("id", PInt 3); ("user_id", PInt 1002)]] 0
         = Ok total_replies
         /\ Z.of_nat (length rows) = 1 + Z.of_nat 2 + total_replies.
Proof.
  eexists. split.
  - vm_compute. reflexivity.
  - apply X21_export_rows_are_well_formed. vm_compute. reflexivity.
Defined.

Lemma X22_participants_are_at_most_the_interactions_witness :
  exists total_replies : Z,
    DiscussionAnalytics.count_recent_replies
      [PDict [("user_id", PInt 1001);
              ("recent_replies", PList [PDict [("user_id", PInt 1002)];
                                        PDict [("user_id", PInt 1001)]])];
       PDict [("user_id", PInt 1002)]] 0
    = Ok total_replies
    /\ 0 <= total_replies
    /\ Z.of_nat (size ({[ "1001"; "1002" ]} : gset string)) <= Z.of_nat 2 + total_replies.
Proof.
  apply (X22_participants_are_at_most_the_interactions (H := example_repr)
           [PDict [("user_id", PInt 1001);
                   ("recent_replies", PList [PDict [("user_id", PInt 1002)];
                                             PDict [("user_id", PInt 1001)]])];
            PDict [("user_id", PInt 1002)]]
           {[ "1001"; "1002" ]}).
  vm_compute. reflexivity.
Defined.

(** ** Message templates (message_templates.py) *)

Section TemplateTables.
Import MessageTemplates.

Section FormatFacts.
Context `{Repr}.

Lemma fields_from_findall (s : string) :
  forall field names,
    fields_from field s = Some names -> findall_from field s = names.
Proof.
  induction s as [| a rest IH]; intros field names Hf; simpl in *.
  - destruct field; congruence.
  - destruct field as [name |].
    + destruct (Ascii.eqb a "}").
      * destruct (is_positional name); [discriminate |].
        destruct (fields_from None rest) as [l |] eqn:Hl; [| discriminate].
        simpl in Hf. injection Hf as <-. f_equal. now apply IH.
      * destruct (is_field_syntax a); [discriminate |]. now apply IH.
    + destruct (Ascii.eqb a "{").
      * destruct rest as [| b rest']; [discriminate |].
        destruct (Ascii.eqb b "{") eqn:Hb1; [discriminate |].
        destruct (Ascii.eqb b "}") eqn:Hb2; [discriminate |].
        simpl in Hf. now apply IH.
      * destruct (Ascii.eqb a "}"); [discriminate |]. now apply IH.
Qed.

Lemma format_from_fields (kwargs : list (string * pyval)) (s : string) :
  forall field names,
    fields_from field s = Some names ->
    if forallb (fun x => has_key x kwargs) names
    then exists out, format_from field kwargs s = Some (Ok out)
    else format_from field kwargs s = Some (Raise KeyError).
Proof.
  induction s as [| a rest IH]; intros field names Hf; simpl in *.
  - destruct field; [discriminate |]. injection Hf as <-. simpl. now eexists.
  - destruct field as [name |].
    + destruct (Ascii.eqb a "}").
      * destruct (is_positional name); [discriminate |].
        destruct (fields_from None rest) as [l |] eqn:Hl; [| discriminate].
        simpl in Hf. injection Hf as <-. simpl.
        specialize (IH None l Hl). unfold has_key at 1.
        destruct (assoc name kwargs) as [v |]; simpl; [| reflexivity].
        destruct (forallb _ l).
        -- destruct IH as [out ->]. simpl. now eexists.
        -- rewrite IH. reflexivity.
      * destruct (is_field_syntax a); [discriminate |]. now apply IH.
    + destruct (Ascii.eqb a "{").
      * destruct rest as [| b rest']; [discriminate |].
        destruct (Ascii.eqb b "{") eqn:Hb1; [discriminate |].
        destruct (Ascii.eqb b "}") eqn:Hb2; [discriminate |].
        simpl in Hf. now apply IH.
      * destruct (Ascii.eqb a "}"); [discriminate |].
        specialize (IH None names Hf).
        destruct (forallb _ names).
        -- destruct IH as [out ->]. simpl. now eexists.
        -- rewrite IH. reflexivity.
Qed.
End FormatFacts.

Lemma insert_sorted_In (x y : string) (l : list string) :
  In y (insert_sorted x l) <-> y = x \/ In y l.
Proof.
  induction l as [| z l IH]; simpl.
  - intuition.
  - destruct (String.compare x z) eqn:Hc; simpl.
    + apply String.compare_eq_iff in Hc. subst. intuition.
    + intuition.
    + rewrite IH. intuition.
Qed.

Lemma sorted_set_In (y : string) (l : list string) :
  In y (sorted_set l) <-> In y l.
Proof.
  induction l as [| x l IH]; simpl; [reflexivity |].
  rewrite insert_sorted_In, IH. intuition.
Qed.

Lemma assoc_In_snd {A : Type} (k : string) (d : list (string * A)) (v : A) :
  assoc k d = Some v -> In v (map snd d).
Proof.
  induction d as [| [k' v'] d IH]; simpl; [discriminate |].
  destruct (String.eqb k k'); [intros [= ->]; now left | auto].
Qed.

Lemma assoc_In_fst {A : Type} (k : string) (d : list (string * A)) :
  In k (map fst d) <-> assoc k d <> None.
Proof.
  induction d as [| [k' v'] d IH]; simpl; [intuition |].
  destruct (String.eqb_spec k k') as [-> | Hne].
  - split; [discriminate | now left].
  - rewrite <- IH. split; [intros [Heq | Hin]; [congruence | assumption] | now right].
Qed.

Lemma templates_well_formed : forallb well_formed templates = true.
Proof. vm_compute. reflexivity. Qed.

Lemma category_templates_In (category : string) (ts : list (string * pyval)) (t : pyval) :
  assoc category category_map = Some ts -> In t (map snd ts) -> In t templates.
Proof.
  intros Hc Ht. unfold templates. apply in_concat.
  exists (map snd ts). split; [| assumption].
  apply assoc_In_snd in Hc. apply in_map_iff in Hc as [[c ts'] [Heq Hin]].
  simpl in Heq. subst ts'. apply in_map_iff. now exists (c, ts).
Qed.

(** What [get_template] answers is [None] or a template of the class, and
    the latter exactly for the names listed under the category. *)
Lemma get_template_cases (category template_name : string) :
  (get_template category template_name = PNone
   /\ forall ts, assoc category category_map = Some ts ->
                 ~ In template_name (map fst ts))
  \/ (In (get_template category template_name) templates
      /\ exists ts, assoc category category_map = Some ts
                    /\ In template_name (map fst ts)).
Proof.
  unfold get_template.
  destruct (assoc category category_map) as [ts |] eqn:Hc.
  - destruct ts as [| p ts].
    + left. split; [reflexivity |]. intros ts' [= <-]. simpl. tauto.
    + destruct (assoc template_name (p :: ts)) as [t |] eqn:Ht.
      * right. simpl. split.
        -- eapply category_templates_In; [eassumption |].
           eapply assoc_In_snd; eassumption.
        -- eexists; split; [reflexivity |]. apply assoc_In_fst. congruence.
      * left. split; [reflexivity |]. intros ts' [= <-].
        rewrite assoc_In_fst. congruence.
  - left. split; [reflexivity | discriminate].
Qed.

Lemma template_well_formed (t : pyval) :
  In t templates ->
  truthy t = true /\ exists fs fb, template_fields t = Some (fs, fb).
Proof.
  intros Hin. pose proof templates_well_formed as Hall.
  rewrite forallb_forall in Hall. specialize (Hall t Hin).
  unfold well_formed in Hall. apply andb_prop in Hall as [Ht Hf].
  split; [assumption |].
  destruct (template_fields t) as [[fs fb] |]; [| discriminate]. eauto.
Qed.

Section TemplateFacts.
Context `{Repr}.

Lemma format_template_fields (t : pyval) (variables : list (string * pyval))
    (fs fb : list string) :
  template_fields t = Some (fs, fb) ->
  if forallb (fun x => has_key x variables) (fs +++ fb)
  then exists subject body,
      format_template t variables
      = Some (Ok (PDict [("subject", PStr subject); ("body", PStr body)]))
  else format_template t variables = Some (Raise ValueError).
Proof.
  unfold template_fields, format_template. intros Hf.
  destruct (getitem t "subject") as [[| | | | s | |] |]; try discriminate.
  destruct (getitem t "body") as [[| | | | b | |] |]; try discriminate.
  destruct (fields s) as [fs' |] eqn:Hs; [| discriminate].
  destruct (fields b) as [fb' |] eqn:Hb; [| discriminate].
  injection Hf as -> ->. rewrite forallb_app. simpl.
  pose proof (format_from_fields variables s None fs Hs) as H1.
  pose proof (format_from_fields variables b None fb Hb) as H2.
  unfold format.
  destruct (forallb _ fs); simpl.
  - destruct H1 as [out1 ->].
    destruct (forallb _ fb).
    + destruct H2 as [out2 ->]. eauto.
    + rewrite H2. reflexivity.
  - rewrite H1. reflexivity.
Qed.

Lemma get_template_variables_fields (category template_name : string)
    (fs fb : list string) :
  truthy (get_template category template_name) = true ->
  template_fields (get_template category template_name) = Some (fs, fb) ->
  get_template_variables category template_name = Ok (sorted_set (fs +++ fb)).
Proof.
  unfold get_template_variables, template_fields. intros -> Hf. simpl.
  destruct (getitem _ "subject") as [[| | | | s | |] |]; try discriminate.
  destruct (getitem _ "body") as [[| | | | b | |] |]; try discriminate.
  destruct (fields s) as [fs' |] eqn:Hs; [| discriminate].
  destruct (fields b) as [fb' |] eqn:Hb; [| discriminate].
  injection Hf as -> ->. simpl. unfold findall_fields.
  now rewrite (fields_from_findall s None fs Hs), (fields_from_findall b None fb Hb).
Qed.

Lemma forallb_false_In {A : Type} (p : A -> bool) (l : list A) (x : A) :
  In x l -> p x = false -> forallb p l = false.
Proof.
  intros Hin Hp. destruct (forallb p l) eqn:Hall; [| reflexivity].
  rewrite forallb_forall in Hall. rewrite (Hall x Hin) in Hp. discriminate.
Qed.

(** X23. [list_available_templates] and [get_template] agree: a name is
    listed under a category if and only if [get_template] finds a template
    for that category and name, so every listed template can be fetched and
    nothing that can be fetched is left out of the listing. *)
Theorem X23_listed_templates_are_the_ones_found (category template_name : string) :
  (exists names, assoc category list_available_templates = Some names
                 /\ In template_name names)
  <-> get_template category template_name <> PNone.
Proof.
  assert (Hl : assoc category list_available_templates
               = option_map (map fst) (assoc category category_map)).
  { unfold list_available_templates. generalize category_map as m.
    induction m as [| [c ts] m IH]; simpl; [reflexivity |].
    destruct (String.eqb category c); [reflexivity | exact IH]. }
  rewrite Hl.
  destruct (get_template_cases category template_name) as [[Hn Hno] | [Hin [ts [Hc Hts]]]].
  - split; [| congruence]. intros [names [Hnames Hmem]].
    destruct (assoc category category_map) as [ts |]; [| discriminate].
    injection Hnames as <-. now destruct (Hno ts eq_refl).
  - split.
    + intros _ Hnone. apply template_well_formed in Hin as [Ht _].
      rewrite Hnone in Ht. discriminate.
    + intros _. exists (map fst ts). rewrite Hc. now split.
Qed.

(** X24. The names [get_template_variables] returns are exactly what
    formatting needs. For every category, template name and dictionary of
    variables the names are computed, and: when every one of them is a key
    of the dictionary, [get_formatted_template] returns ([None] exactly when
    there is no such template); when one of them is missing,
    [get_formatted_template] raises [ValueError]. *)
Theorem X24_template_variables_are_what_formatting_needs
    (category template_name : string) (variables : list (string * pyval)) :
  exists names,
    get_template_variables category template_name = Ok names
    /\ ((forall x, In x names -> has_key x variables = true) ->
        exists formatted,
          get_formatted_template category template_name variables
          = Some (Ok formatted)
          /\ (formatted = PNone <-> get_template category template_name = PNone))
    /\ (forall x, In x names -> has_key x variables = false ->
        get_formatted_template category template_name variables
        = Some (Raise ValueError)).
Proof.
  destruct (get_template_cases category template_name) as [[Hn _] | [Hin _]].
  - exists []. unfold get_template_variables, get_formatted_template.
    rewrite Hn. simpl. split; [reflexivity |]. split; [| contradiction].
    intros _. exists PNone. split; [reflexivity | tauto].
  - apply template_well_formed in Hin as [Ht [fs [fb Hf]]].
    exists (sorted_set (fs +++ fb)).
    split; [now apply get_template_variables_fields |].
    pose proof (format_template_fields _ variables fs fb Hf) as Hfmt.
    unfold get_formatted_template. rewrite Ht. simpl. split.
    + intros Hall.
      assert (Hb : forallb (fun x => has_key x variables) (fs +++ fb) = true).
      { apply forallb_forall. intros x Hx. apply Hall. now apply sorted_set_In. }
      rewrite Hb in Hfmt. destruct Hfmt as [subject [body ->]].
      eexists; split; [reflexivity |]. split; [discriminate |].
      intros Hnone. rewrite Hnone in Ht. discriminate.
    + intros x Hx Hmiss. apply (proj1 (sorted_set_In _ _)) in Hx.
      now rewrite (forallb_false_In _ _ x Hx Hmiss) in Hfmt.
Qed.
End TemplateFacts.

Lemma has_key_str_in {A : Type} (x : string) (d : list (string * A)) :
  has_key x d = str_in x (map fst d).
Proof.
  unfold has_key, str_in. induction d as [| [k v] d IH]; simpl; [reflexivity |].
  destruct (String.eqb x k); [reflexivity | exact IH].
Qed.

Lemma has_key_dict_set {A : Type} (x k : string) (v : A) (d : list (string * A)) :
  has_key x (dict_set k v d) = String.eqb x k || has_key x d.
Proof.
  unfold has_key. induction d as [| [k' v'] d IH]; simpl.
  - destruct (String.eqb x k); reflexivity.
  - destruct (String.eqb_spec k k') as [-> | Hne]; simpl.
    + destruct (String.eqb x k'); reflexivity.
    + destruct (String.eqb_spec x k') as [-> | Hne'].
      * destruct (String.eqb_spec k' k); [congruence | reflexivity].
      * exact IH.
Qed.

Lemma has_key_update (x : string) (kwargs d : list (string * pyval)) :
  has_key x (fold_left (fun variables '(k, v) => dict_set k v variables) kwargs d)
  = has_key x d || has_key x kwargs.
Proof.
  revert d. induction kwargs as [| [k v] kwargs IH]; intros d; simpl.
  - unfold has_key at 3. simpl. now rewrite orb_false_r.
  - rewrite IH, has_key_dict_set. clear IH. unfold has_key at 4. simpl.
    destruct (String.eqb x k); simpl.
    + now rewrite orb_true_r.
    + reflexivity.
Qed.

Lemma default_variables_keys (student_name assignment_name instructor_name
    course_name : string) (kwargs : list (string * pyval)) (x : string) :
  has_key x (create_default_variables student_name assignment_name
               instructor_name course_name kwargs)
  = str_in x default_names || has_key x kwargs.
Proof.
  unfold create_default_variables. rewrite has_key_update, has_key_str_in.
  reflexivity.
Qed.

Lemma get_template_In (category template_name : string) (ts : list (string * pyval)) :
  assoc category category_map = Some ts ->
  get_template category template_name <> PNone ->
  In (get_template category template_name) (map snd ts).
Proof.
  unfold get_template. intros -> Hne. destruct ts as [| p ts]; [congruence |].
  destruct (assoc template_name (p :: ts)) as [t |] eqn:Ht; [| now destruct Hne].
  exact (assoc_In_snd _ _ _ Ht).
Qed.

Section DefaultFacts.
Context `{Repr}.

(** X25. The variables of [create_default_variables] suffice for every
    template of the categories [peer_review], [assignment] and [grade]:
    whatever the four names and the extra keyword arguments are, formatting
    such a template returns a subject and a body. *)
Theorem X25_default_variables_fill_the_reminder_templates
    (student_name assignment_name instructor_name course_name : string)
    (kwargs : list (string * pyval)) (category template_name : string) :
  In category ["peer_review"; "assignment"; "grade"] ->
  get_template category template_name <> PNone ->
  exists subject body,
    get_formatted_template category template_name
      (create_default_variables student_name assignment_name instructor_name
         course_name kwargs)
    = Some (Ok (PDict [("subject", PStr subject); ("body", PStr body)])).
Proof.
  intros Hcat Hne.
  assert (Hcov : exists ts, assoc category category_map = Some ts
                            /\ forallb covered_by_defaults (map snd ts) = true).
  { simpl in Hcat.
    destruct Hcat as [<- | [<- | [<- | []]]]; eexists; split;
      try reflexivity; vm_compute; reflexivity. }
  destruct Hcov as [ts [Hc Hall]].
  pose proof (get_template_In _ _ _ Hc Hne) as Hin.
  rewrite forallb_forall in Hall. specialize (Hall _ Hin).
  unfold covered_by_defaults in Hall.
  destruct (template_fields _) as [[fs fb] |] eqn:Hf; [| discriminate].
  pose proof (format_template_fields _
                (create_default_variables student_name assignment_name
                   instructor_name course_name kwargs) fs fb Hf) as Hfmt.
  unfold get_formatted_template.
  destruct (truthy (get_template category template_name)) eqn:Ht.
  - simpl.
    assert (Hb : forallb (fun x => has_key x (create_default_variables student_name
                   assignment_name instructor_name course_name kwargs)) (fs +++ fb)
                 = true).
    { apply forallb_forall. intros x Hx. rewrite default_variables_keys.
      rewrite forallb_forall in Hall. now rewrite (Hall x Hx). }
    now rewrite Hb in Hfmt.
  - exfalso. eapply category_templates_In in Hin; [| eassumption].
    apply template_well_formed in Hin as [Ht' _]. congruence.
Qed.

(** X26. They do not suffice for the other two categories: for every
    template of [discussion] and [grading_feedback], with keyword arguments
    that only override default names, formatting raises [ValueError]. *)
Theorem X26_other_templates_need_more_than_the_defaults
    (student_name assignment_name instructor_name course_name : string)
    (kwargs : list (string * pyval)) (category template_name : string) :
  In category ["discussion"; "grading_feedback"] ->
  get_template category template_name <> PNone ->
  (forall x, has_key x kwargs = true -> str_in x default_names = true) ->
  get_formatted_template category template_name
    (create_default_variables student_name assignment_name instructor_name
       course_name kwargs)
  = Some (Raise ValueError).
Proof.
  intros Hcat Hne Hkw.
  assert (Hcov : exists ts, assoc category category_map = Some ts
                            /\ forallb beyond_defaults (map snd ts) = true).
  { simpl in Hcat.
    destruct Hcat as [<- | [<- | []]]; eexists; split;
      try reflexivity; vm_compute; reflexivity. }
  destruct Hcov as [ts [Hc Hall]].
  pose proof (get_template_In _ _ _ Hc Hne) as Hin.
  rewrite forallb_forall in Hall. specialize (Hall _ Hin).
  unfold beyond_defaults in Hall.
  destruct (template_fields _) as [[fs fb] |] eqn:Hf; [| discriminate].
  pose proof (format_template_fields _
                (create_default_variables student_name assignment_name
                   instructor_name course_name kwargs) fs fb Hf) as Hfmt.
  unfold get_formatted_template.
  destruct (truthy (get_template category template_name)) eqn:Ht.
  - simpl. apply existsb_exists in Hall as [x [Hx Hout]].
    rewrite (forallb_false_In _ _ x Hx) in Hfmt; [assumption |].
    rewrite default_variables_keys. apply negb_true_iff in Hout.
    rewrite Hout. simpl. destruct (has_key x kwargs) eqn:Hk; [| reflexivity].
    rewrite (Hkw x Hk) in Hout. discriminate.
  - exfalso. eapply category_templates_In in Hin; [| eassumption].
    apply template_well_formed in Hin as [Ht' _]. congruence.
Qed.
End DefaultFacts.

Section FeedbackFacts.
Context `{Repr}.

Lemma format_stripped_fields (body : string) (kwargs : list (string * pyval))
    (names : list string) :
  fields body = Some names ->
  forallb (fun x => has_key x kwargs) names = true ->
  exists out, format_stripped (PStr body) kwargs = Some (Ok out).
Proof.
  intros Hf Hall. unfold format_stripped, format_text, format.
  pose proof (format_from_fields kwargs body None names Hf) as Hfmt.
  rewrite Hall in Hfmt. destruct Hfmt as [out ->]. eauto.
Qed.

Lemma overall_level_of_floats (a b : float) :
  exists level,
    overall_level_of (NFloat a) (NFloat b) = Ok level
    /\ In level ["excellent"; "good"; "missing"; "needs_improvement"].
Proof.
  unfold overall_level_of.
  destruct (num_ltb (NInt 0) (NFloat b)) eqn:Hpos.
  - assert (Hnz : PrimFloat.eqb b PrimFloat.zero = false).
    { revert Hpos. unfold num_ltb, Z_cmp_float. rewrite FloatAxioms.eqb_spec.
      change (Prim2SF PrimFloat.zero) with (S754_zero false).
      destruct (Prim2SF b) as [s | s | | s m e]; try discriminate;
        destruct s; try discriminate; reflexivity. }
    unfold truediv, to_float. simpl. rewrite Hnz. simpl.
    eexists; split; [reflexivity |].
    repeat match goal with |- context [if ?c then _ else _] => destruct c end;
      simpl; tauto.
  - simpl. eexists; split; [reflexivity |].
    repeat match goal with |- context [if ?c then _ else _] => destruct c end;
      simpl; tauto.
Qed.

Lemma format_stripped_of (r : result pyval) (body : string)
    (kwargs : list (string * pyval)) (names : list string) :
  r = Ok (PStr body) ->
  fields body = Some names ->
  forallb (fun x => has_key x kwargs) names = true ->
  exists b out, r = Ok b /\ format_stripped b kwargs = Some (Ok out).
Proof.
  intros -> Hf Hall.
  destruct (format_stripped_fields body kwargs names Hf Hall) as [out Hout].
  eauto.
Qed.

Lemma header_of_level (level student_name assignment_name : string)
    (score max_score : pyval) :
  In level ["excellent"; "good"; "missing"; "needs_improvement"] ->
  exists body header,
    body_or level "Score: {score}/{max_score}" = Ok body
    /\ format_stripped body
         [("student_name", PStr student_name);
          ("assignment_name", PStr assignment_name);
          ("score", score); ("max_score", max_score);
          ("criterion_name", PStr "Overall"); ("feedback_comment", PStr "")]
       = Some (Ok header).
Proof.
  intros Hl. simpl in Hl.
  destruct Hl as [<- | [<- | [<- | [<- | []]]]];
    eapply format_stripped_of; vm_compute; reflexivity.
Qed.

Lemma criterion_body (x : string) (criterion_name score max_score comment : pyval) :
  exists body line,
    body_or ("criterion_" ++ x) "{criterion_name}: {score}/{max_score}" = Ok body
    /\ format_stripped body
         [("criterion_name", criterion_name); ("score", score);
          ("max_score", max_score); ("feedback_comment", comment)]
       = Some (Ok line).
Proof.
  unfold body_or, GRADING_FEEDBACK_TEMPLATES.
  change ("criterion_" ++ x)
    with (String "c" (String "r" (String "i" (String "t" (String "e"
           (String "r" (String "i" (String "o" (String "n" (String "_" x)))))))))).
  cbn [assoc String.eqb Ascii.eqb Bool.eqb].
  repeat match goal with
         | |- context [String.eqb x ?k] => destruct (String.eqb x k)
         end;
    eapply format_stripped_of; vm_compute; reflexivity.
Qed.

Lemma criterion_line_dict (cf : pyval) :
  is_dict cf = true -> exists line, criterion_line cf = Some (Ok line).
Proof.
  destruct cf as [| | | | | | d]; try discriminate. intros _.
  unfold criterion_line, Py.bind. cbn [get]. cbv beta iota.
  destruct (criterion_body (str (from_option id (PStr "good") (assoc "level" d)))
              (from_option id (PStr "Criterion") (assoc "criterion_name" d))
              (from_option id (PInt 0) (assoc "score" d))
              (from_option id (PInt 0) (assoc "max_score" d))
              (from_option id (PStr "") (assoc "comment" d)))
    as [body [line [-> Hline]]].
  cbv beta iota. eauto.
Qed.

Lemma criterion_lines_dicts (cfs : list pyval) :
  Forall (fun cf => is_dict cf = true) cfs ->
  exists lines,
    criterion_lines cfs = Some (Ok lines) /\ length lines = length cfs.
Proof.
  induction 1 as [| cf cfs Hcf _ IH]; simpl.
  - exists []. auto.
  - destruct (criterion_line_dict cf Hcf) as [line ->].
    destruct IH as [lines [-> Hlen]]. exists (line :: lines). simpl. auto.
Qed.

(** X27. With float scores and criteria that are dicts,
    [compose_grading_feedback] always returns: it never divides by zero
    (also for a zero, negative or [nan] maximum) and every field of the
    templates it picks is supplied, whatever [level] a criterion names. The
    text is the header alone when there is no criterion, and otherwise the
    header, an empty line and one line per criterion. *)
Theorem X27_grading_feedback_has_a_line_per_criterion
    (student_name assignment_name : string) (total_score max_total : float)
    (cfs : list pyval) :
  Forall (fun cf => is_dict cf = true) cfs ->
  exists header lines,
    length lines = length cfs
    /\ compose_grading_feedback student_name assignment_name
         (NFloat total_score) (NFloat max_total) (PList cfs)
       = Some (Ok (match cfs with
                   | [] => header
                   | _ => join nl (header :: "" :: lines)
                   end)).
Proof.
  intros Hcfs. unfold compose_grading_feedback.
  destruct (overall_level_of_floats total_score max_total) as [level [-> Hlevel]].
  unfold Py.bind. cbv beta iota.
  destruct (header_of_level level student_name assignment_name
              (of_num (NFloat total_score)) (of_num (NFloat max_total)) Hlevel)
    as [body [header [-> ->]]].
  destruct (criterion_lines_dicts cfs Hcfs) as [lines [Hlines Hlen]].
  exists header, lines. split; [assumption |].
  destruct cfs as [| cf cfs]; [reflexivity |].
  cbn [truthy negb iter]. now rewrite Hlines.
Qed.
End FeedbackFacts.
End TemplateTables.

(** ** More requests that change upstream state (quizzes.py, gradebook.py) *)

Section MoreWrites.
Context `{Repr}.

(** X28. [publish_quiz] and [unpublish_quiz] make, call for call, the calls
    of [update_quiz] given only [published]; the one state-changing request
    among them is the PUT of [quiz.published] to the quiz. *)
Theorem X28_publishing_is_an_update_of_one_field
    (w : env) (course_identifier quiz_id : pyval) (published : bool) :
  trace w (if published then Quizzes.publish_quiz course_identifier quiz_id
           else Quizzes.unpublish_quiz course_identifier quiz_id)
  = trace w (Quizzes.update_quiz course_identifier quiz_id
               None None None None None None None None None None None None
               (Some published))
  /\ List.filter is_mutating
       (trace w (Quizzes.update_quiz course_identifier quiz_id
                   None None None None None None None None None None None None
                   (Some published)))
     = [make_canvas_request "put"
          ("/courses/" ++ str (w [] (get_course_id course_identifier))
           ++ "/quizzes/" ++ str quiz_id)
          None (Some (PDict [("quiz", PDict [("published", PBool published)])]))
          false].
Proof.
  split.
  - destruct published;
      unfold trace, run, Quizzes.publish_quiz, Quizzes.unpublish_quiz,
        Quizzes.update_quiz; cbn [Quizzes.quiz_data_of given app];
      cbv zeta; run_walk; reflexivity.
  - unfold trace, run, Quizzes.update_quiz. cbn [Quizzes.quiz_data_of given app].
    cbv zeta. run_walk; reflexivity.
Qed.

Lemma assoc_given_text_other (k key : string) (x : option string)
    (rest : list (string * pyval)) :
  String.eqb k key = false ->
  assoc k (given_text key x +++ rest) = assoc k rest.
Proof.
  intros Hk. unfold given_text. destruct x as [s |]; [| reflexivity].
  destruct (String.eqb s ""); [reflexivity |]. simpl. now rewrite Hk.
Qed.

Lemma assoc_given_other {A : Type} (k key : string) (inj : A -> pyval)
    (x : option A) (rest : list (string * pyval)) :
  String.eqb k key = false ->
  assoc k (given key inj x +++ rest) = assoc k rest.
Proof.
  intros Hk. unfold given. destruct x as [a |]; [| reflexivity].
  simpl. now rewrite Hk.
Qed.

(** X29. [create_quiz] makes exactly one state-changing request, whatever
    the upstream answers: a POST to the quizzes of the resolved course. Its
    [quiz] body always has the title and the [published] flag; the
    description is sent only when given and not empty, the time limit
    whenever given. *)
Theorem X29_create_quiz_posts_once
    (w : env) (course_identifier : pyval) (title quiz_type : string)
    (description due_at unlock_at lock_at : option string)
    (time_limit : option Z) (allowed_attempts : Z) (points_possible : option num)
    (shuffle_answers show_correct_answers one_question_at_a_time published : bool) :
  exists quiz : list (string * pyval),
    List.filter is_mutating
      (trace w (Quizzes.create_quiz course_identifier title quiz_type description
                  due_at unlock_at lock_at time_limit allowed_attempts
                  points_possible shuffle_answers show_correct_answers
                  one_question_at_a_time published))
    = [make_canvas_request "post"
         ("/courses/" ++ str (w [] (get_course_id course_identifier)) ++ "/quizzes")
         None (Some (PDict [("quiz", PDict quiz)])) false]
    /\ assoc "title" quiz = Some (PStr title)
    /\ assoc "published" quiz = Some (PBool published)
    /\ assoc "description" quiz
       = match description with
         | Some text => if String.eqb text "" then None else Some (PStr text)
         | None => None
         end
    /\ assoc "time_limit" quiz = option_map PInt time_limit.
Proof.
  eexists. split; [| split; [| split; [| split]]].
  - unfold trace, run, Quizzes.create_quiz. cbv zeta. run_walk; reflexivity.
  - reflexivity.
  - reflexivity.
  - cbn [assoc app String.eqb Ascii.eqb Bool.eqb].
    destruct description as [text |]; unfold given_text at 1;
      [destruct (String.eqb text "") |];
      cbn [assoc app String.eqb Ascii.eqb Bool.eqb]; try reflexivity;
      rewrite !assoc_given_text_other, assoc_given_other by reflexivity;
      destruct points_possible; reflexivity.
  - cbn [assoc app String.eqb Ascii.eqb Bool.eqb].
    rewrite !assoc_given_text_other by reflexivity.
    destruct time_limit, points_possible; reflexivity.
Qed.

(** X30. [create_assignment_group] and [delete_quiz_question] each make
    exactly one state-changing request, whatever the upstream answers: the
    POST of the group (name and weight always, position and drop rules when
    given) and the DELETE of the question. *)
Theorem X30_group_creation_and_question_removal_write_once
    (w : env) (course_identifier quiz_id question_id : pyval) (name : string)
    (weight : num) (position drop_lowest drop_highest : option Z) :
  List.filter is_mutating
    (trace w (Gradebook.create_assignment_group course_identifier name weight
                position drop_lowest drop_highest))
  = [make_canvas_request "post"
       ("/courses/" ++ str (w [] (get_course_id course_identifier))
        ++ "/assignment_groups")
       None
       (Some (PDict ([("name", PStr name); ("group_weight", of_num weight)]
                     +++ given "position" PInt position
                     +++ Gradebook.rules_of drop_lowest drop_highest)))
       false]
  /\ List.filter is_mutating
       (trace w (Quizzes.delete_quiz_question course_identifier quiz_id question_id))
     = [make_canvas_request "delete"
          ("/courses/" ++ str (w [] (get_course_id course_identifier))
           ++ "/quizzes/" ++ str quiz_id ++ "/questions/" ++ str question_id)
          None None false].
Proof.
  split.
  - unfold trace, run, Gradebook.create_assignment_group. cbv zeta.
    run_walk; reflexivity.
  - unfold trace, run, Quizzes.delete_quiz_question. run_walk; reflexivity.
Qed.
End MoreWrites.

Lemma X25_default_variables_fill_the_reminder_templates_witness :
  exists subject body,
    MessageTemplates.get_formatted_template (H := example_repr)
      "grade" "grade_available"
      (MessageTemplates.create_default_variables
         "Ada" "Essay 1" "Dr. Lee" "History 101" [])
    = Some (Ok (PDict [("subject", PStr subject); ("body", PStr body)])).
Proof.
  apply (X25_default_variables_fill_the_reminder_templates (H := example_repr)
           "Ada" "Essay 1" "Dr. Lee" "History 101" [] "grade" "grade_available").
  - simpl. tauto.
  - vm_compute. discriminate.
Defined.

Lemma X26_other_templates_need_more_than_the_defaults_witness :
  MessageTemplates.get_formatted_template (H := example_repr)
    "discussion" "participation_reminder"
    (MessageTemplates.create_default_variables
       "Ada" "Essay 1" "Dr. Lee" "History 101" [("deadline", PStr "Friday")])
  = Some (Raise ValueError).
Proof.
  apply (X26_other_templates_need_more_than_the_defaults (H := example_repr)
           "Ada" "Essay 1" "Dr. Lee" "History 101" [("deadline", PStr "Friday")]
           "discussion" "participation_reminder").
  - simpl. tauto.
  - vm_compute. discriminate.
  - intros x. unfold has_key. simpl.
    destruct (String.eqb_spec x "deadline") as [-> | _]; [reflexivity | discriminate].
Defined.

Lemma X27_grading_feedback_has_a_line_per_criterion_witness :
  exists (header : string) (lines : list string),
    length lines = 1%nat
    /\ MessageTemplates.compose_grading_feedback (H := example_repr)
         "Ada" "Essay 1" (NFloat 9%float) (NFloat 10%float)
         (PList [PDict [("criterion_name", PStr "Thesis"); ("score", PInt 4);
                        ("max_score", PInt 5); ("level", PStr "good");
                        ("comment", PStr "Clear.")]])
       = Some (Ok (join nl (header :: "" :: lines))).
Proof.
  apply (X27_grading_feedback_has_a_line_per_criterion (H := example_repr)
           "Ada" "Essay 1" 9%float 10%float
           [PDict [("criterion_name", PStr "Thesis"); ("score", PInt 4);
                   ("max_score", PInt 5); ("level", PStr "good");
                   ("comment", PStr "Clear.")]]).
  repeat constructor.
Defined.
